(** * ssb-sgis: network analysis over line datasets

    A shallow embedding of the routing core of the repository:
    - [gis_utils/od_cost_matrix.py]        (module [OdCostMatrix]),
    - [gis_utils/directednetwork.py]       (module [DirectedNetwork]),
    - [sgis/networkanalysis/networkanalysis.py] (modules [NetworkAnalysis]
      and [StaticMethods]),
    - [sgis/geopandas_tools/general.py], as far as the analyses call it
      (module [General]).

    Data frames are lists of rows, Python dictionaries are [gmap]s, raised
    exceptions are the left summand of a result type, and the mutable
    analysis object is threaded explicitly through a small state-and-error
    monad.  The first part of the file holds the definitions, the second
    part the theorems. *)

From Stdlib Require Import ZArith QArith List String Bool Lia Permutation.
From stdpp Require Import gmap strings list fin_maps sorting pretty.

Local Open Scope Z_scope.
Local Open Scope string_scope.
Local Open Scope list_scope.

(* ===================================================================== *)
(** * Part I: definitions                                                 *)
(* ===================================================================== *)

(** ** Floating point cells

    The code only compares and moves the numbers it is given, so a cell is
    a rational, one of the two infinities, or NaN.  Comparisons follow
    IEEE 754: any comparison that involves NaN is false. *)

Module Floats.

Inductive Float : Type :=
| NaN
| NInf
| Fin (q : Q)
| PInf.

(** [a < b] *)
Definition flt (a b : Float) : bool :=
  match a, b with
  | NaN, _ | _, NaN => false
  | _, NInf => false
  | NInf, _ => true
  | PInf, _ => false
  | Fin _, PInf => true
  | Fin x, Fin y => negb (Qle_bool y x)
  end.

(** [a <= b] *)
Definition fle (a b : Float) : bool :=
  match a, b with
  | NaN, _ | _, NaN => false
  | NInf, _ => true
  | _, PInf => true
  | _, NInf => false
  | PInf, _ => false
  | Fin x, Fin y => Qle_bool x y
  end.

Definition fgt (a b : Float) : bool := flt b a.
Definition fge (a b : Float) : bool := fle b a.

(** [pd.isna] / [Series.isna] on one cell *)
Definition isna (a : Float) : bool :=
  match a with NaN => true | _ => false end.

(** [replace([np.inf, -np.inf], np.nan)] on one cell *)
Definition replace_inf (a : Float) : Float :=
  match a with
  | PInf | NInf => NaN
  | _ => a
  end.

Definition of_int (z : Z) : Float := Fin (inject_Z z).

Definition zero : Float := Fin 0%Q.

(** Python's builtin [min] over a sequence: the first item is the running
    minimum and a later item replaces it only when [item < minimum] holds;
    the empty sequence raises [ValueError] ([None] here). *)
Definition py_min (l : list Float) : option Float :=
  match l with
  | [] => None
  | x :: rest => Some (fold_left (fun m item => if flt item m then item else m) rest x)
  end.

End Floats.

Import Floats.

(** The geometry kernel exposes a text form of every geometry. *)
Class HasWkt (G : Type) := wkt : G -> string.

(** Line geometries are coordinate sequences. *)
Definition Coord : Type := (Q * Q)%type.
Definition LineString : Type := list Coord.

(** [shapely.reverse] on a line: the same coordinates, last one first. *)
Definition reverse (g : LineString) : LineString := rev g.

(** Exceptions the modelled code raises. *)
Inductive Exc : Type :=
| ValueError
| AssertionError
| KeyError
| TypeError
| AttributeError
| UnboundLocalError.

(** A call either raises or returns. *)
Definition Res (A : Type) : Type := (Exc + A)%type.

Definition res_bind {A B : Type} (c : Res A) (k : A -> Res B) : Res B :=
  match c with
  | inl e => inl e
  | inr a => k a
  end.

Notation "'let*' x ':=' c 'in' k" := (res_bind c (fun x => k))
  (at level 10, x pattern, c at level 100, k at level 200).

(** Keep the first of every class of equal keys ([drop_duplicates], the
    distinct keys of a [groupby]). *)
Fixpoint nodup_by {A : Type} (eqb : A -> A -> bool) (l : list A) : list A :=
  match l with
  | [] => []
  | x :: rest => x :: List.filter (fun y => negb (eqb x y)) (nodup_by eqb rest)
  end.

(** A stable sort along a boolean order ([sorted], [sort_values], the
    group order of [groupby]). *)
Definition sort_by {A : Type} (leb : A -> A -> bool) (l : list A) : list A :=
  @merge_sort A (fun a b => leb a b = true) (fun a b => decide (leb a b = true)) l.

(** Python truthiness of optional arguments. *)
Definition truthy (a : option Z) : bool :=
  match a with
  | None => false
  | Some z => negb (z =? 0)%Z
  end.

Definition str_truthy (a : option string) : bool :=
  match a with
  | None => false
  | Some s => negb (String.eqb s "")
  end.

(** ** gis_utils/od_cost_matrix.py *)

Module OdCostMatrix.

(** The graph backend: [graph.distances(weights="weight", source, target)]
    answers with the lowest cost between two named vertices. *)
Record Graph : Type := { distances : nat -> nat -> Float }.

(** One row of [startpoints] / [endpoints]. *)
Record PointRow (G : Type) : Type := {
  temp_idx : nat;
  geometry : G
}.
Arguments temp_idx {G} _.
Arguments geometry {G} _.

(** One row of the resulting table.  [line] is the optional straight line
    between the two points, kept as the pair of texts it is built from. *)
Record ODRow : Type := {
  origin : nat;
  destination : nat;
  cost : Float;
  line : option (option string * option string)
}.

Definition od_row (o d : nat) (c : Float) : ODRow :=
  {| origin := o; destination := d; cost := c; line := None |}.

Definition set_cost (c : Float) (r : ODRow) : ODRow :=
  {| origin := origin r; destination := destination r; cost := c; line := line r |}.

Section Source.
Context {G : Type} `{HasWkt G}.

(** Lines 41-64: the raw table, every origin against every destination, or
    pairwise along [zip] when [rowwise]. *)
Definition raw_table (graph : Graph) (startpoints endpoints : list (PointRow G))
    (rowwise : bool) : list ODRow :=
  if rowwise then
    List.map (fun ft => od_row (temp_idx (fst ft)) (temp_idx (snd ft))
                          (distances graph (temp_idx (fst ft)) (temp_idx (snd ft))))
             (combine startpoints endpoints)
  else
    flat_map (fun f =>
      List.map (fun t => od_row (temp_idx f) (temp_idx t)
                           (distances graph (temp_idx f) (temp_idx t)))
               endpoints)
      startpoints.

(** Lines 67-71: the mask is computed on the table before the infinities
    are replaced. *)
Definition tidy_mask (r : ODRow) : bool := fgt (cost r) zero || isna (cost r).

Definition tidy (df : list ODRow) : list ODRow :=
  List.map (fun r => set_cost (replace_inf (cost r)) r) (List.filter tidy_mask df).

(** Lines 73-74 *)
Definition apply_cutoff (cutoff : option Z) (out : list ODRow) : list ODRow :=
  match cutoff with
  | Some c => if truthy cutoff
              then List.filter (fun r => flt (cost r) (of_int c)) out
              else out
  | None => out
  end.

(** [groupby("origin")] visits the distinct keys in ascending order. *)
Definition group_keys (out : list ODRow) : list nat :=
  sort_by Nat.leb (nodup_by Nat.eqb (List.map origin out)).

(** [Series.idxmin]: the first row that attains the minimum. *)
Definition idxmin (rows : list ODRow) : option ODRow :=
  match rows with
  | [] => None
  | r :: rest =>
      Some (fold_left (fun m x => if flt (cost x) (cost m) then x else m) rest r)
  end.

Definition group (k : nat) (out : list ODRow) : list ODRow :=
  List.filter (fun r => (origin r =? k)%nat) out.

(** Lines 76-78 *)
Definition apply_destination_count (destination_count : option Z)
    (out : list ODRow) : list ODRow :=
  if truthy destination_count then
    let out := List.filter (fun r => negb (isna (cost r))) out in
    omap (fun k => idxmin (group k out)) (group_keys out)
  else out.

(** Lines 80-86: a dict comprehension, a later pair overrides an earlier one. *)
Definition wkt_dict (points : list (PointRow G)) : gmap nat string :=
  fold_left (fun m p => <[temp_idx p := wkt (geometry p)]> m) points ∅.

(** [wkt_ori != wkt_des] on one row; a missing text is NaN, which differs
    from everything. *)
Definition wkt_differ (a b : option string) : bool :=
  match a, b with
  | Some x, Some y => negb (String.eqb x y)
  | _, _ => true
  end.

(** Lines 87-97 on one row. *)
Definition finish_row (wkt_dict_origin wkt_dict_destination : gmap nat string)
    (lines : bool) (r : ODRow) : ODRow :=
  let wkt_ori := wkt_dict_origin !! origin r in
  let wkt_des := wkt_dict_destination !! destination r in
  {| origin := origin r;
     destination := destination r;
     cost := if wkt_differ wkt_ori wkt_des then cost r else zero;
     line := if lines then Some (wkt_ori, wkt_des) else None |}.

Definition od_cost_matrix (graph : Graph) (startpoints endpoints : list (PointRow G))
    (lines rowwise : bool) (cutoff destination_count : option Z) : list ODRow :=
  let df := raw_table graph startpoints endpoints rowwise in
  let out := tidy df in
  let out := apply_cutoff cutoff out in
  let out := apply_destination_count destination_count out in
  let wkt_dict_origin := wkt_dict startpoints in
  let wkt_dict_destination := wkt_dict endpoints in
  List.map (finish_row wkt_dict_origin wkt_dict_destination lines) out.

(** *** Notions used in the theorems *)

(** [out[cost] < cutoff] on one cost, when a cutoff is given. *)
Definition below_cutoff (cutoff : option Z) (c : Float) : bool :=
  match cutoff with
  | Some v => if truthy cutoff then flt c (of_int v) else true
  | None => true
  end.

(** A cost that survives the tidying, the cutoff and the removal of NaN:
    a positive number, below the cutoff if one is given. *)
Definition usable (cutoff : option Z) (c : Float) : bool :=
  match c with
  | Fin _ => fgt c zero && below_cutoff cutoff c
  | _ => false
  end.

End Source.

End OdCostMatrix.

(** ** gis_utils/directednetwork.py *)

Module DirectedNetwork.

(** One line of the network: its geometry, its value in the direction
    column (NaN is [None]) and its numeric attribute columns. *)
Record Row : Type := {
  geometry : LineString;
  direction : option string;
  cells : gmap string Float
}.

Record Frame : Type := {
  columns : list string;
  rows : list Row;
  crs_unit : option string
}.

Inductive MinuteCols : Type :=
| MCNone
| MCStr (s : string)
| MCSeq (l : list string).

(** What the method takes from the base class [Network] and from float
    arithmetic; neither is part of this file. *)
Class Kernel : Type := {
  (** [length / speed * 16.6666666667] on one row *)
  minutes_from_speed : LineString -> Float -> Float;
  (** [bad > total * 0.05] *)
  over_five_percent : nat -> nat -> bool;
  _make_node_ids : Frame -> Frame;
  _check_percent_bidirectional : Frame -> Z
}.

Record Network : Type := {
  gdf : Frame;
  _percent_bidirectional : Z
}.

Definition with_rows (fr : Frame) (rs : list Row) : Frame :=
  {| columns := columns fr; rows := rs; crs_unit := crs_unit fr |}.

(** [gdf.loc[mask]] *)
Definition loc (mask : Row -> bool) (fr : Frame) : Frame :=
  with_rows fr (List.filter mask (rows fr)).

Definition has_column (c : string) (fr : Frame) : bool :=
  existsb (String.eqb c) (columns fr).

(** [gdf[direction_col].isin(values)] and [gdf[direction_col] == v] on one row *)
Definition isin (values : list string) (r : Row) : bool :=
  match direction r with
  | Some d => existsb (String.eqb d) values
  | None => false
  end.

Definition direction_is (v : string) (r : Row) : bool :=
  match direction r with
  | Some d => String.eqb d v
  | None => false
  end.

(** [all(frame)]: iterating a data frame yields its column labels, and a
    label is true when it is not the empty string. *)
Definition py_all (fr : Frame) : bool :=
  forallb (fun c => negb (String.eqb c "")) (columns fr).

(** [gdf.drop(c, axis=1, errors="ignore")] *)
Definition drop_column (c : string) (fr : Frame) : Frame :=
  {| columns := List.filter (fun c' => negb (String.eqb c' c)) (columns fr);
     rows := List.map (fun r => {| geometry := geometry r; direction := direction r;
                                   cells := delete c (cells r) |}) (rows fr);
     crs_unit := crs_unit fr |}.

(** [frame.rename(columns={old: new})]; an absent label is ignored. *)
Definition rename_cells (old new : string) (m : gmap string Float) : gmap string Float :=
  match m !! old with
  | Some v => <[new := v]> (delete old m)
  | None => m
  end.

Definition rename (old new : string) (fr : Frame) : Frame :=
  {| columns := List.map (fun c => if String.eqb c old then new else c) (columns fr);
     rows := List.map (fun r => {| geometry := geometry r; direction := direction r;
                                   cells := rename_cells old new (cells r) |}) (rows fr);
     crs_unit := crs_unit fr |}.

(** [frame.geometry = reverse(frame.geometry)] *)
Definition reverse_geometry (fr : Frame) : Frame :=
  with_rows fr (List.map (fun r => {| geometry := reverse (geometry r);
                                      direction := direction r;
                                      cells := cells r |}) (rows fr)).

(** Modelled from the spec: [gdf_concat] lives in
    gis_utils/geopandas_utils.py, which is not among the sources.  The
    frames are stacked in the order given ("both copies retained in the
    output"); the result carries every column of every part. *)
Definition gdf_concat (crs : option string) (parts : list Frame) : Frame :=
  {| columns := fold_left (fun acc fr =>
                  acc ++ List.filter (fun c => negb (existsb (String.eqb c) acc)) (columns fr))
                  parts [];
     rows := concat (List.map rows parts);
     crs_unit := crs |}.

(** A numeric cell; a row without the column holds NaN. *)
Definition cell (c : string) (r : Row) : Float :=
  match cells r !! c with
  | Some x => x
  | None => NaN
  end.

Definition set_cell (c : string) (x : Float) (r : Row) : Row :=
  {| geometry := geometry r; direction := direction r; cells := <[c := x]> (cells r) |}.

Definition add_column (c : string) (fr : Frame) : list string :=
  if has_column c fr then columns fr else columns fr ++ [c].

Definition mc_truthy (m : MinuteCols) : bool :=
  match m with
  | MCNone => false
  | MCStr s => negb (String.eqb s "")
  | MCSeq l => negb (Nat.eqb (List.length l) 0)
  end.

Definition mc_len (m : MinuteCols) : nat :=
  match m with
  | MCNone => 0
  | MCStr s => String.length s
  | MCSeq l => List.length l
  end.

(** Lines 155-164: the names [min_f] and [min_t].  A string is first taken
    for both names, then its length is tested like that of a tuple, and a
    two-character string is unpacked into its characters.  A sequence of
    one name leaves both names unbound. *)
Definition minute_names (minute_cols : MinuteCols) : Res (string * string) :=
  let bound :=
    match minute_cols with
    | MCStr s => Some (s, s)
    | _ => None
    end in
  if (2 <? mc_len minute_cols)%nat then inl ValueError
  else
    let bound :=
      if (mc_len minute_cols =? 2)%nat then
        match minute_cols with
        | MCStr (String a (String b EmptyString)) =>
            Some (String a EmptyString, String b EmptyString)
        | MCSeq [a; b] => Some (a, b)
        | _ => bound
        end
      else bound in
    match bound with
    | Some names => inr names
    | None => inl UnboundLocalError
    end.

Definition is_missing_speed (x : Float) : bool :=
  isna x || (fle x zero && fle zero x).

Definition float_truthy (a : option Float) : bool :=
  match a with
  | None => false
  | Some x => negb (fle x zero && fle zero x)
  end.

Section Source.
Context `{Kernel}.

(** Lines 186-205 *)
Definition from_speed_col (speed_col : option string) (default_speed : option Float)
    (fr : Frame) : Res Frame :=
  match speed_col with
  | Some c =>
      if str_truthy speed_col then
        if negb (has_column c fr) then inl KeyError
        else
          let* fr :=
            match default_speed with
            | Some d =>
                if float_truthy default_speed then
                  inr (with_rows fr (List.map (fun r =>
                         if is_missing_speed (cell c r) then set_cell c d r else r) (rows fr)))
                else if over_five_percent
                          (List.length (List.filter (fun r => is_missing_speed (cell c r)) (rows fr)))
                          (List.length (rows fr))
                     then inl ValueError else inr fr
            | None =>
                if over_five_percent
                     (List.length (List.filter (fun r => is_missing_speed (cell c r)) (rows fr)))
                     (List.length (rows fr))
                then inl ValueError else inr fr
            end in
          inr {| columns := add_column "minutes" fr;
                 rows := List.map (fun r =>
                           set_cell "minutes" (minutes_from_speed (geometry r) (cell c r)) r)
                           (rows fr);
                 crs_unit := crs_unit fr |}
      else inr fr
  | None => inr fr
  end.

(** Lines 207-208 *)
Definition from_flat_speed (flat_speed : option Z) (fr : Frame) : Frame :=
  match flat_speed with
  | Some v =>
      if truthy flat_speed then
        {| columns := add_column "minutes" fr;
           rows := List.map (fun r =>
                     set_cell "minutes" (minutes_from_speed (geometry r) (of_int v)) r)
                     (rows fr);
           crs_unit := crs_unit fr |}
      else fr
  | None => fr
  end.

(** Lines 210-211 *)
Definition keep_nonnegative_minutes (fr : Frame) : Frame :=
  if has_column "minutes" fr
  then loc (fun r => fge (cell "minutes" r) zero) fr
  else fr.

Definition count_true (l : list bool) : nat :=
  List.length (List.filter (fun b => b) l).

(** The method.  [warnings.warn] leaves no trace in the result and is left
    out. *)
Definition make_directed_network (self_gdf : Frame) (direction_col : string)
    (direction_vals_bft : list string) (minute_cols : MinuteCols)
    (speed_col : option string) (default_speed : option Float)
    (flat_speed : option Z) (reverse_tofrom : bool) : Res Network :=
  match direction_vals_bft with
  | [b; f; t] =>
      if (1 <? count_true [mc_truthy minute_cols; str_truthy speed_col; truthy flat_speed])%nat
      then inl ValueError
      else
      let gdf := self_gdf in
      if negb (has_column direction_col gdf) then inl KeyError
      else if negb (py_all (loc (isin direction_vals_bft) gdf)) then inl ValueError
      else
      let gdf := if mc_truthy minute_cols then drop_column "minutes" gdf else gdf in
      let ft := loc (direction_is f) gdf in
      let tf := loc (direction_is t) gdf in
      let both_ways := loc (direction_is b) gdf in
      let both_ways2 := both_ways in
      let* parts :=
        if mc_truthy minute_cols then
          let* names := minute_names minute_cols in
          let min_f := fst names in
          let min_t := snd names in
          inr (rename min_f "minutes" both_ways, rename min_t "minutes" both_ways2,
               rename min_f "minutes" ft, rename min_t "minutes" tf)
        else inr (both_ways, both_ways2, ft, tf) in
      let '(both_ways, both_ways2, ft, tf) := parts in
      let both_ways2 := reverse_geometry both_ways2 in
      let tf := if reverse_tofrom then reverse_geometry tf else tf in
      let self_gdf := gdf_concat (crs_unit gdf) [both_ways; both_ways2; ft; tf] in
      let* unit :=
        match crs_unit self_gdf with
        | Some u => inr u
        | None => inl AttributeError
        end in
      if (truthy flat_speed || str_truthy speed_col) && negb (String.eqb unit "metre")
      then inl ValueError
      else
      let* self_gdf := from_speed_col speed_col default_speed self_gdf in
      let self_gdf := from_flat_speed flat_speed self_gdf in
      let self_gdf := keep_nonnegative_minutes self_gdf in
      let self_gdf := _make_node_ids self_gdf in
      inr {| gdf := self_gdf;
             _percent_bidirectional := _check_percent_bidirectional self_gdf |}
  | _ => inl ValueError
  end.

(** [make_directed_network_norway]: the method with the arguments that fit
    the Norwegian road data; an argument that is not given is [None]. *)
Definition make_directed_network_norway (self_gdf : Frame)
    (direction_col : option string) (direction_vals_bft : option (list string))
    (minute_cols : option MinuteCols) : Res Network :=
  make_directed_network self_gdf
    (default "oneway" direction_col)
    (default ["B"; "FT"; "TF"] direction_vals_bft)
    (default (MCSeq ["drivetime_fw"; "drivetime_bw"]) minute_cols)
    None None None true.

End Source.

(** *** Notions used in the theorems *)

(** The expansion of one input row in the words of the specification:
    a both-ways row gives its line and the reversed line, a forward row
    its line, a backward row the reversed line. *)
Definition spec_directed_copies (b f t : string) (r : Row) : list LineString :=
  if direction_is b r then [geometry r; reverse (geometry r)]
  else if direction_is f r then [geometry r]
  else if direction_is t r then [reverse (geometry r)]
  else [].

(** The geometry column of a frame. *)
Definition geoms (fr : Frame) : list LineString := List.map geometry (rows fr).

(** The rows that are put together at line 177, by their geometries. *)
Definition built (b f t : string) (reverse_tofrom : bool) (rs : list Row) : list LineString :=
  List.map geometry (List.filter (direction_is b) rs)
  ++ List.map reverse (List.map geometry (List.filter (direction_is b) rs))
  ++ List.map geometry (List.filter (direction_is f) rs)
  ++ (if reverse_tofrom
      then List.map reverse (List.map geometry (List.filter (direction_is t) rs))
      else List.map geometry (List.filter (direction_is t) rs)).

(** A row of the frame that reaches the last filter, as the filter sees
    it: its geometry and its value in the column 'minutes'. *)
Definition timed (r : Row) : LineString * Float := (geometry r, cell "minutes" r).

Section Copies.
Context `{Kernel}.
Variables (b f t : string).
Variables (minute_cols : MinuteCols) (speed_col : option string)
          (default_speed : option Float) (flat_speed : option Z).
Variables (min_f min_t : string).

(** The speed of a row once [default_speed] has stood in for a missing or
    zero speed (lines 187-190). *)
Definition speed_of (c : string) (r : Row) : Float :=
  if float_truthy default_speed && is_missing_speed (cell c r)
  then default NaN default_speed
  else cell c r.

(** The minutes of the copy with geometry [g] of the input row [r], by
    the source of the minutes: the minute column [name] of the copy's
    direction, read after a former column 'minutes' has been dropped
    (lines 146-170); the length of the copy and the speed of the row (lines
    186-205); the length and the flat speed (lines 207-208); or, with no
    source at all, the column 'minutes' the frame came with. *)
Definition copy_minutes (name : string) (g : LineString) (r : Row) : Float :=
  if mc_truthy minute_cols then
    if String.eqb name "minutes" then NaN else cell name r
  else if str_truthy speed_col then
    minutes_from_speed g (speed_of (default "" speed_col) r)
  else if truthy flat_speed then
    minutes_from_speed g (of_int (default 0%Z flat_speed))
  else cell "minutes" r.

(** The copy that keeps the line as it is, timed by the forward minute
    column, and the copy that reverses it, timed by the backward one. *)
Definition forward_copy (r : Row) : LineString * Float :=
  (geometry r, copy_minutes min_f (geometry r) r).

Definition backward_copy (r : Row) : LineString * Float :=
  (reverse (geometry r), copy_minutes min_t (reverse (geometry r)) r).

(** The expansion of one input row in the words of the specification,
    every copy with its minutes. *)
Definition spec_timed_copies (r : Row) : list (LineString * Float) :=
  if direction_is b r then [forward_copy r; backward_copy r]
  else if direction_is f r then [forward_copy r]
  else if direction_is t r then [backward_copy r]
  else [].

(** Whether the frame has a column 'minutes' when the last filter runs. *)
Definition has_minutes (self_gdf : Frame) : bool :=
  if mc_truthy minute_cols then
    has_column min_f (drop_column "minutes" self_gdf)
    || has_column min_t (drop_column "minutes" self_gdf)
  else if str_truthy speed_col || truthy flat_speed then true
  else has_column "minutes" self_gdf.

(** The copies the last filter lets through: those with minutes [>= 0]
    when there is a column 'minutes', every copy otherwise. *)
Definition kept (self_gdf : Frame) (copy : LineString * Float) : bool :=
  if has_minutes self_gdf then fge (snd copy) zero else true.

End Copies.

End DirectedNetwork.

(** ** sgis/networkanalysis/networkanalysis.py *)

Module NetworkAnalysis.

Definition Label : Type := string.
Definition MultiLine : Type := list LineString.

(** One line of [network.gdf]. *)
Record NetRow : Type := {
  geometry : LineString;
  weight : Float;
  meters_ : Float;
  temp_idx__ : option nat;
  splitted : option Z;
  source_target_weight : option string
}.

(** One point of the origins or destinations, with the caller's index
    label and the temporary vertex id. *)
Record PointRecord : Type := {
  index : Label;
  point : Coord;
  temp_idx : nat
}.

Record Points : Type := {
  points_gdf : list PointRecord;
  idx_dict : gmap nat Label
}.

Record Rules : Type := {
  weight_col : string;
  search_tolerance : Float;
  search_factor : Float;
  split_lines : bool;
  (** the parameters as they were at the last build of the graph *)
  _cached_rules : option (string * Float * Float * bool)
}.

Record Network : Type := {
  gdf : list NetRow;
  nodes : list nat;
  _not_splitted : option (list NetRow);
  _as_directed : bool
}.

(** The edge sequence of the igraph graph with the attributes
    [_make_graph] sets, and the vertex names. *)
Record Graph : Type := {
  directed : bool;
  vs_name : list nat;
  es_weight : list Float;
  es_source_target_weight : list string;
  es_edge_tuples : list (nat * nat);
  es_source : list nat;
  es_target : list nat
}.

(** A cell of an 'origin' or 'destination' column: a temporary vertex id,
    an index label of the caller's table, or NaN. *)
Inductive IdCell : Type :=
| TempId (n : nat)
| Index (l : Label)
| NoId.

#[global] Instance IdCell_eq_dec : EqDecision IdCell.
Proof. solve_decision. Defined.

(** Rows of the tables the analyses return. *)
Record ResultRow : Type := {
  origin : IdCell;
  destination : IdCell;
  cost : Float;
  route : option MultiLine;
  k : option nat
}.

Record AreaRow : Type := {
  area_origin : option IdCell;
  area_cost : Float;
  area_edge : option string;
  area_geometry : option MultiLine
}.

Record FrequencyRow : Type := {
  line : NetRow;
  frequency : Float
}.

(** The analysis object. *)
Record NA : Type := {
  network : Network;
  rules : Rules;
  origins : option Points;
  destinations : option Points;
  graph : option Graph;
  wkts : option (gmap string (list string));
  _log : bool;
  log : list string
}.

(** The collaborators of the class that are not part of this file: the
    geometry kernel, float arithmetic, the base class [Network], the point
    classes, the rules and the five analysis routines.  Weight tables of
    [get_route_frequencies] stay abstract. *)
Class Collaborators : Type := {
  WeightDf : Type;
  line_wkt : LineString -> string;
  point_wkt : Coord -> string;
  line_length : LineString -> Float;
  (** [weight * (length / meters_)] *)
  rescale_weight : Float -> Float -> Float -> Float;
  unary_union : list (option MultiLine) -> option MultiLine;
  split_lines_by_nearest_point : list NetRow -> list PointRecord -> Float -> list NetRow;
  _validate_weight : Rules -> list NetRow -> Res (list NetRow);
  _nodes_are_up_to_date : Network -> bool;
  (** the ids given to the end points of the lines *)
  node_ids : list NetRow -> list nat;
  get_edges : Network -> list (nat * nat);
  _create_edge_ids : list (nat * nat) -> list Float -> list string;
  points_edges_and_weights : Points -> list nat -> Rules -> list (nat * nat) * list Float;
  _prepare_weight_df : WeightDf -> list (Label * Coord) -> list (Label * Coord) -> Res WeightDf;
  reindex_weight_df : WeightDf -> gmap nat Label -> gmap nat Label -> WeightDf;
  _od_cost_matrix :
    Graph -> list PointRecord -> list PointRecord -> string -> bool -> bool -> Res (list ResultRow);
  _get_route :
    Graph -> list PointRecord -> list PointRecord -> string -> list NetRow -> bool ->
    Res (list ResultRow);
  _get_k_routes :
    Graph -> list PointRecord -> list PointRecord -> string -> list NetRow -> bool ->
    nat -> Z -> Res (list ResultRow);
  _get_route_frequencies :
    Graph -> list PointRecord -> list PointRecord -> list NetRow -> option WeightDf -> bool ->
    Res (list FrequencyRow);
  _service_area :
    Graph -> list PointRecord -> list Float -> string -> list NetRow -> list nat -> bool -> bool ->
    Res (list AreaRow)
}.

(** *** The state-and-error monad of the methods

    A method reads and updates the analysis object and may raise; what it
    changed before raising stays changed. *)

Definition M (A : Type) : Type := NA -> Res A * NA.

Definition ret {A : Type} (a : A) : M A := fun na => (inr a, na).

Definition bind {A B : Type} (c : M A) (f : A -> M B) : M B :=
  fun na =>
    match c na with
    | (inl e, na') => (inl e, na')
    | (inr a, na') => f a na'
    end.

Definition raise {A : Type} (e : Exc) : M A := fun na => (inl e, na).

Definition get : M NA := fun na => (inr na, na).

Definition put (na : NA) : M unit := fun _ => (inr tt, na).

Definition lift {A : Type} (r : Res A) : M A := fun na => (r, na).

(** Reading an attribute that may not have been set. *)
Definition attr {A : Type} (a : option A) : M A :=
  match a with
  | Some x => ret x
  | None => raise AttributeError
  end.

Notation "x <- c ;; f" := (bind c (fun x => f))
  (at level 100, c at next level, right associativity).
Notation "c ;;; f" := (bind c (fun _ => f))
  (at level 100, right associativity).

Definition when (b : bool) (c : M unit) : M unit := if b then c else ret tt.

(** *** Field updates *)

Definition set_network (nw : Network) (na : NA) : NA :=
  {| network := nw; rules := rules na; origins := origins na;
     destinations := destinations na; graph := graph na; wkts := wkts na;
     _log := _log na; log := log na |}.

Definition set_rules (r : Rules) (na : NA) : NA :=
  {| network := network na; rules := r; origins := origins na;
     destinations := destinations na; graph := graph na; wkts := wkts na;
     _log := _log na; log := log na |}.

Definition set_origins (o : option Points) (na : NA) : NA :=
  {| network := network na; rules := rules na; origins := o;
     destinations := destinations na; graph := graph na; wkts := wkts na;
     _log := _log na; log := log na |}.

Definition set_destinations (d : option Points) (na : NA) : NA :=
  {| network := network na; rules := rules na; origins := origins na;
     destinations := d; graph := graph na; wkts := wkts na;
     _log := _log na; log := log na |}.

Definition set_graph (g : option Graph) (na : NA) : NA :=
  {| network := network na; rules := rules na; origins := origins na;
     destinations := destinations na; graph := g; wkts := wkts na;
     _log := _log na; log := log na |}.

Definition set_wkts (w : option (gmap string (list string))) (na : NA) : NA :=
  {| network := network na; rules := rules na; origins := origins na;
     destinations := destinations na; graph := graph na; wkts := w;
     _log := _log na; log := log na |}.

Definition set_log (l : list string) (na : NA) : NA :=
  {| network := network na; rules := rules na; origins := origins na;
     destinations := destinations na; graph := graph na; wkts := wkts na;
     _log := _log na; log := l |}.

Definition set_gdf (rows : list NetRow) (nw : Network) : Network :=
  {| gdf := rows; nodes := nodes nw; _not_splitted := _not_splitted nw;
     _as_directed := _as_directed nw |}.

Definition set_not_splitted (ns : option (list NetRow)) (nw : Network) : Network :=
  {| gdf := gdf nw; nodes := nodes nw; _not_splitted := ns;
     _as_directed := _as_directed nw |}.

Definition modify (f : NA -> NA) : M unit := fun na => (inr tt, f na).

Definition with_meters (x : Float) (r : NetRow) : NetRow :=
  {| geometry := geometry r; weight := weight r; meters_ := x;
     temp_idx__ := temp_idx__ r; splitted := splitted r;
     source_target_weight := source_target_weight r |}.

Definition with_temp_idx (i : option nat) (r : NetRow) : NetRow :=
  {| geometry := geometry r; weight := weight r; meters_ := meters_ r;
     temp_idx__ := i; splitted := splitted r;
     source_target_weight := source_target_weight r |}.

Definition with_weight (x : Float) (r : NetRow) : NetRow :=
  {| geometry := geometry r; weight := x; meters_ := meters_ r;
     temp_idx__ := temp_idx__ r; splitted := splitted r;
     source_target_weight := source_target_weight r |}.

Definition with_edge_id (e : option string) (r : NetRow) : NetRow :=
  {| geometry := geometry r; weight := weight r; meters_ := meters_ r;
     temp_idx__ := temp_idx__ r; splitted := splitted r;
     source_target_weight := e |}.

(** [range(len(gdf))] written into a column *)
Fixpoint number_rows (start : nat) (rows : list NetRow) : list NetRow :=
  match rows with
  | [] => []
  | r :: rest => with_temp_idx (Some start) r :: number_rows (S start) rest
  end.

Definition is_splitted (r : NetRow) : bool :=
  match splitted r with
  | Some 1%Z => true
  | _ => false
  end.

Definition opt_nat_eqb (a b : option nat) : bool :=
  match a, b with
  | Some x, Some y => Nat.eqb x y
  | None, None => true
  | _, _ => false
  end.

Definition float_eqb (a b : Float) : bool := fle a b && fle b a.

(** Modelled from the spec: [NetworkAnalysisRules._rules_have_changed] and
    [_update_rules] are defined in
    sgis/networkanalysis/networkanalysisrules.py, which is not among the
    sources.  The rules keep "a boolean capturing whether any rule
    parameter changed since the last build": the parameters are compared
    with the ones recorded at the last build. *)
Definition _rules_have_changed (r : Rules) : bool :=
  match _cached_rules r with
  | Some (w, tolerance, factor, split) =>
      negb (String.eqb w (weight_col r) && float_eqb tolerance (search_tolerance r)
            && float_eqb factor (search_factor r) && Bool.eqb split (split_lines r))
  | None => true
  end.

Definition _update_rules (r : Rules) : Rules :=
  {| weight_col := weight_col r;
     search_tolerance := search_tolerance r;
     search_factor := search_factor r;
     split_lines := split_lines r;
     _cached_rules :=
       Some (weight_col r, search_tolerance r, search_factor r, split_lines r) |}.

(** Python's builtin [max] over node ids; an empty sequence raises. *)
Definition py_max (l : list nat) : Res nat :=
  match l with
  | [] => inl ValueError
  | x :: rest => inr (fold_left Nat.max rest x)
  end.

(** Modelled from the spec: [Points._make_temp_idx] is defined in
    sgis/networkanalysis/_points.py, which is not among the sources.  Each
    point gets a temporary id, counted up from [start] ("allocated starting
    at max existing node id + 1, with destinations offset past origins"),
    and [idx_dict] leads from the temporary id back to the caller's index
    label. *)
Fixpoint assign_temp_idx (start : nat) (pts : list (Label * Coord)) : list PointRecord :=
  match pts with
  | [] => []
  | p :: rest =>
      {| index := fst p; point := snd p; temp_idx := start |}
      :: assign_temp_idx (S start) rest
  end.

Definition _make_temp_idx (start : nat) (pts : list (Label * Coord)) : Points :=
  let gdf := assign_temp_idx start pts in
  {| points_gdf := gdf;
     idx_dict := fold_left (fun m r => <[temp_idx r := index r]> m) gdf ∅ |}.

Definition unassigned (ps : Points) : list (Label * Coord) :=
  List.map (fun r => (index r, point r)) (points_gdf ps).

(** [results[col].map(idx_dict)] on one cell *)
Definition map_id (d : gmap nat Label) (c : IdCell) : IdCell :=
  match c with
  | TempId n =>
      match d !! n with
      | Some l => Index l
      | None => NoId
      end
  | _ => NoId
  end.

Section Source.
Context `{Collaborators}.

(** Modelled from the spec: [Network._make_node_ids] and
    [Network._update_nodes_if] are defined in sgis/networkanalysis/network.py,
    which is not among the sources.  "Every line endpoint coordinate across
    the whole network is enumerated once and given a stable integer id";
    the lines themselves stay as they are. *)
Definition _make_node_ids (nw : Network) : Network :=
  {| gdf := gdf nw; nodes := node_ids (gdf nw); _not_splitted := _not_splitted nw;
     _as_directed := _as_directed nw |}.

Definition _update_nodes_if (nw : Network) : Network :=
  if _nodes_are_up_to_date nw then nw else _make_node_ids nw.

(** [_make_graph] (static method) *)
Definition _make_graph (edges : list (nat * nat)) (weights : list Float)
    (edge_ids : list string) (directed : bool) : Res Graph :=
  if negb (List.length edges =? List.length weights)%nat then inl AssertionError
  else
    let graph :=
      {| directed := directed;
         vs_name := nodup_by Nat.eqb (flat_map (fun e => [fst e; snd e]) edges);
         es_weight := weights;
         es_source_target_weight := edge_ids;
         es_edge_tuples := edges;
         es_source := List.map fst edges;
         es_target := List.map snd edges |} in
    match py_min (es_weight graph) with
    | None => inl ValueError
    | Some m => if fge m zero then inr graph else inl AssertionError
    end.

(** [hasattr(d, name)] on a dict: its keys are not attributes. *)
Definition dict_hasattr (d : gmap string (list string)) (name : string) : bool := false.

Definition _points_have_changed (w : gmap string (list string)) (g : Graph)
    (points : Points) (what : string) : bool :=
  match w !! what with
  | Some texts =>
      if negb (bool_decide (texts = List.map (fun p => point_wkt (point p)) (points_gdf points)))
      then true
      else negb (forallb (fun x => existsb (Nat.eqb x) (vs_name g))
                         (List.map temp_idx (points_gdf points)))
  | None => true
  end.

Definition _graph_is_up_to_date (na : NA) : bool :=
  match graph na, wkts na with
  | Some g, Some w =>
      if _rules_have_changed (rules na) then false
      else
        forallb (fun what =>
                   dict_hasattr w what &&
                   match (if String.eqb what "origins" then origins na else destinations na) with
                   | Some pts => negb (_points_have_changed w g pts what)
                   | None => false
                   end)
                ["origins"; "destinations"]
  | _, _ => false
  end.

Definition _update_wkts : M unit :=
  modify (fun na =>
    let w : gmap string (list string) :=
      {[ "network" := List.map (fun r => line_wkt (geometry r)) (gdf (network na)) ]} in
    let w :=
      match origins na with
      | Some o => <["origins" := List.map (fun p => point_wkt (point p)) (points_gdf o)]> w
      | None => w
      end in
    let w :=
      match origins na, destinations na with
      | Some _, Some d =>
          <["destinations" := List.map (fun p => point_wkt (point p)) (points_gdf d)]> w
      | _, _ => w
      end in
    set_wkts (Some w) na).

Definition drop_duplicate_points (pts : list PointRecord) : list PointRecord :=
  nodup_by (fun a b => bool_decide (point_wkt (point a) = point_wkt (point b))) pts.

(** [_split_lines] *)
Definition _split_lines : M unit :=
  na <- get ;;
  o <- attr (origins na) ;;
  let points :=
    match destinations na with
    | Some d => points_gdf o ++ points_gdf d
    | None => points_gdf o
    end in
  let points := drop_duplicate_points points in
  let network_gdf :=
    List.map (fun r => with_meters (line_length (geometry r)) r) (gdf (network na)) in
  let network_gdf := number_rows 0 network_gdf in
  let lines :=
    split_lines_by_nearest_point network_gdf points (search_tolerance (rules na)) in
  let splitted := List.map temp_idx__ (List.filter is_splitted lines) in
  let not_splitted :=
    List.filter (fun r => existsb (opt_nat_eqb (temp_idx__ r)) splitted) network_gdf in
  let lines :=
    List.map (fun r => with_weight
                (rescale_weight (weight r) (line_length (geometry r)) (meters_ r)) r) lines in
  put (set_network (set_gdf lines (set_not_splitted (Some not_splitted) (network na))) na).

(** [_unsplit_network] *)
Definition _unsplit_network : M unit :=
  na <- get ;;
  let lines := List.filter (fun r => negb (is_splitted r)) (gdf (network na)) in
  not_splitted <- attr (_not_splitted (network na)) ;;
  let restored := List.map (with_temp_idx None) (lines ++ not_splitted) in
  put (set_network (set_gdf restored (set_not_splitted None (network na))) na).

Definition renumber (which : NA -> option Points) (store : option Points -> NA -> NA)
    (start : nat) : M unit :=
  na <- get ;;
  p <- attr (which na) ;;
  put (store (Some (_make_temp_idx start (unassigned p))) na).

Definition max_temp_idx : M nat :=
  na <- get ;;
  o <- attr (origins na) ;;
  lift (py_max (List.map temp_idx (points_gdf o))).

Definition max_node_id : M nat :=
  na <- get ;;
  lift (py_max (nodes (network na))).

(** Assigning a list to a column needs one value per row. *)
Definition set_edge_ids (ids : list string) (rows : list NetRow) : Res (list NetRow) :=
  if (List.length ids =? List.length rows)%nat
  then inr (List.map (fun p => with_edge_id (Some (snd p)) (fst p)) (combine rows ids))
  else inl ValueError.

(** [_get_edges_and_weights] *)
Definition _get_edges_and_weights : M (list (nat * nat) * list Float * list string) :=
  na <- get ;;
  when (split_lines (rules na))
    (_split_lines ;;;
     modify (fun na => set_network (_make_node_ids (network na)) na) ;;;
     start <- max_node_id ;;
     renumber origins set_origins (start + 1) ;;;
     na <- get ;;
     match destinations na with
     | Some _ =>
         start <- max_temp_idx ;;
         renumber destinations set_destinations (start + 1)
     | None => ret tt
     end) ;;;
  na <- get ;;
  let edges := get_edges (network na) in
  let weights := List.map weight (gdf (network na)) in
  rows <- lift (set_edge_ids (_create_edge_ids edges weights) (gdf (network na))) ;;
  put (set_network (set_gdf rows (network na)) na) ;;;
  na <- get ;;
  o <- attr (origins na) ;;
  let start_part := points_edges_and_weights o (nodes (network na)) (rules na) in
  let edges := edges ++ fst start_part in
  let weights := weights ++ snd start_part in
  match destinations na with
  | None => ret (edges, weights, _create_edge_ids edges weights)
  | Some d =>
      let end_part := points_edges_and_weights d (nodes (network na)) (rules na) in
      let edges := edges ++ fst end_part in
      let weights := weights ++ snd end_part in
      ret (edges, weights, _create_edge_ids edges weights)
  end.

Definition add_vertices (names : list nat) (g : Graph) : Graph :=
  {| directed := directed g;
     vs_name := vs_name g ++ names;
     es_weight := es_weight g;
     es_source_target_weight := es_source_target_weight g;
     es_edge_tuples := es_edge_tuples g;
     es_source := es_source g;
     es_target := es_target g |}.

Definition missing_vertices (g : Graph) (p : Points) : list nat :=
  List.filter (fun idx => negb (existsb (Nat.eqb idx) (vs_name g)))
              (List.map temp_idx (points_gdf p)).

(** [_add_missing_vertices] *)
Definition _add_missing_vertices : M unit :=
  na <- get ;;
  g <- attr (graph na) ;;
  o <- attr (origins na) ;;
  let g := add_vertices (missing_vertices g o) g in
  let g :=
    match destinations na with
    | Some d => add_vertices (missing_vertices g d) g
    | None => g
    end in
  put (set_graph (Some g) na).

(** [_prepare_network_analysis] *)
Definition _prepare_network_analysis (origins_in : list (Label * Coord))
    (destinations_in : option (list (Label * Coord))) (rowwise : bool) : M unit :=
  (if rowwise then
     match destinations_in with
     | Some d =>
         if negb (List.length origins_in =? List.length d)%nat
         then raise ValueError else ret tt
     | None => raise TypeError
     end
   else ret tt) ;;;
  na <- get ;;
  rows <- lift (_validate_weight (rules na) (gdf (network na))) ;;
  put (set_network (set_gdf rows (network na)) na) ;;;
  start <- max_node_id ;;
  modify (set_origins (Some (_make_temp_idx (start + 1) origins_in))) ;;;
  match destinations_in with
  | Some d =>
      start <- max_temp_idx ;;
      modify (set_destinations (Some (_make_temp_idx (start + 1) d)))
  | None => modify (set_destinations None)
  end ;;;
  na <- get ;;
  when (negb (_graph_is_up_to_date na) || negb (_nodes_are_up_to_date (network na)))
    (modify (fun na => set_network (_update_nodes_if (network na)) na) ;;;
     ewi <- _get_edges_and_weights ;;
     na <- get ;;
     g <- lift (_make_graph (fst (fst ewi)) (snd (fst ewi)) (snd ewi)
                            (_as_directed (network na))) ;;
     put (set_graph (Some g) na) ;;;
     _add_missing_vertices) ;;;
  _update_wkts ;;;
  modify (fun na => set_rules (_update_rules (rules na)) na).

(** [_runlog]: one more record in the log; only the name of the method is
    kept of it. *)
Definition _runlog (method : string) : M unit :=
  modify (fun na => set_log (log na ++ [method]) na).

Definition map_ids (o d : gmap nat Label) (results : list ResultRow) : list ResultRow :=
  List.map (fun r => {| origin := map_id o (origin r);
                        destination := map_id d (destination r);
                        cost := cost r; route := route r; k := k r |}) results.

(** Lines 465-484, shared by [od_cost_matrix], [get_route] and
    [get_k_routes]: map the ids, undo the split, write the log. *)
Definition finish_od (method : string) (results : list ResultRow) : M (list ResultRow) :=
  na <- get ;;
  o <- attr (origins na) ;;
  d <- attr (destinations na) ;;
  let results := map_ids (idx_dict o) (idx_dict d) results in
  when (split_lines (rules na)) _unsplit_network ;;;
  when (_log na) (_runlog method) ;;;
  ret results.

Definition od_cost_matrix (origins_in destinations_in : list (Label * Coord))
    (rowwise lines : bool) : M (list ResultRow) :=
  _prepare_network_analysis origins_in (Some destinations_in) rowwise ;;;
  na <- get ;;
  g <- attr (graph na) ;;
  o <- attr (origins na) ;;
  d <- attr (destinations na) ;;
  results <- lift (_od_cost_matrix g (points_gdf o) (points_gdf d)
                     (weight_col (rules na)) lines rowwise) ;;
  finish_od "od_cost_matrix" results.

Definition get_route (origins_in destinations_in : list (Label * Coord))
    (rowwise : bool) : M (list ResultRow) :=
  _prepare_network_analysis origins_in (Some destinations_in) rowwise ;;;
  na <- get ;;
  g <- attr (graph na) ;;
  o <- attr (origins na) ;;
  d <- attr (destinations na) ;;
  results <- lift (_get_route g (points_gdf o) (points_gdf d)
                     (weight_col (rules na)) (gdf (network na)) rowwise) ;;
  finish_od "get_route" results.

Definition get_k_routes (origins_in destinations_in : list (Label * Coord))
    (k_routes : nat) (drop_middle_percent : Z) (rowwise : bool) : M (list ResultRow) :=
  if negb ((0 <=? drop_middle_percent)%Z && (drop_middle_percent <=? 100)%Z)
  then raise ValueError
  else
  _prepare_network_analysis origins_in (Some destinations_in) rowwise ;;;
  na <- get ;;
  g <- attr (graph na) ;;
  o <- attr (origins na) ;;
  d <- attr (destinations na) ;;
  results <- lift (_get_k_routes g (points_gdf o) (points_gdf d)
                     (weight_col (rules na)) (gdf (network na)) rowwise
                     k_routes drop_middle_percent) ;;
  finish_od "get_k_routes" results.

(** [sort_values(frequency_col)] *)
Definition sort_by_frequency (rows : list FrequencyRow) : list FrequencyRow :=
  sort_by (fun a b => fle (frequency a) (frequency b)) rows.

Definition get_route_frequencies (origins_in destinations_in : list (Label * Coord))
    (weight_df : option WeightDf) (rowwise : bool) : M (list FrequencyRow) :=
  weight_df <-
    match weight_df with
    | Some w => w' <- lift (_prepare_weight_df w origins_in destinations_in) ;; ret (Some w')
    | None => ret None
    end ;;
  _prepare_network_analysis origins_in (Some destinations_in) rowwise ;;;
  na <- get ;;
  g <- attr (graph na) ;;
  o <- attr (origins na) ;;
  d <- attr (destinations na) ;;
  let weight_df := option_map (fun w => reindex_weight_df w (idx_dict o) (idx_dict d)) weight_df in
  results <- lift (_get_route_frequencies g (points_gdf o) (points_gdf d)
                     (gdf (network na)) weight_df rowwise) ;;
  let results := sort_by_frequency results in
  when (split_lines (rules na)) _unsplit_network ;;;
  when (_log na) (_runlog "get_route_frequencies") ;;;
  ret results.

(** [_sort_breaks] on a sequence of numbers *)
Definition _sort_breaks (breaks : list Float) : list Float :=
  sort_by fle breaks.

(** Keys of [drop_duplicates(["source_target_weight", "origin"])]. *)
Definition cell_eqb (a b : IdCell) : bool :=
  match a, b with
  | TempId x, TempId y => Nat.eqb x y
  | Index x, Index y => String.eqb x y
  | _, _ => false
  end.

Definition opt_cell_eqb (a b : option IdCell) : bool :=
  match a, b with
  | Some x, Some y => cell_eqb x y
  | _, _ => false
  end.

Definition same_edge_and_origin (a b : AreaRow) : bool :=
  bool_decide (area_edge a = area_edge b) && bool_decide (area_origin a = area_origin b).

(** Keys of [dissolve(by=["origin", weight])]; a row with NaN in a key
    belongs to no group. *)
Definition same_group (a b : AreaRow) : bool :=
  opt_cell_eqb (area_origin a) (area_origin b) && float_eqb (area_cost a) (area_cost b).

Definition has_key (r : AreaRow) : bool := same_group r r.

Definition cell_leb (a b : IdCell) : bool :=
  match a, b with
  | TempId x, TempId y => Nat.leb x y
  | TempId _, _ => true
  | Index x, Index y => String.leb x y
  | Index _, NoId => true
  | NoId, NoId => true
  | _, _ => false
  end.

Definition group_leb (a b : AreaRow) : bool :=
  match area_origin a, area_origin b with
  | Some x, Some y =>
      if cell_eqb x y then fle (area_cost a) (area_cost b) else cell_leb x y
  | _, _ => true
  end.

Definition dissolve (results : list AreaRow) : list AreaRow :=
  let keyed := List.filter has_key results in
  let groups := sort_by group_leb (nodup_by same_group keyed) in
  List.map (fun g =>
              {| area_origin := area_origin g;
                 area_cost := area_cost g;
                 area_edge := None;
                 area_geometry :=
                   unary_union (List.map area_geometry
                                  (List.filter (same_group g) keyed)) |})
           groups.

(** The origins without a row in the table ("add missing rows as NaNs"). *)
Definition missing_rows (o : Points) (results : list AreaRow) : list AreaRow :=
  List.map (fun p => {| area_origin := Some (TempId (temp_idx p));
                        area_cost := NaN;
                        area_edge := None;
                        area_geometry := None |})
    (List.filter (fun p => negb (existsb (fun r => opt_cell_eqb (Some (TempId (temp_idx p)))
                                                     (area_origin r)) results))
                 (points_gdf o)).

Definition all_geometry_isna (results : list AreaRow) : bool :=
  forallb (fun r => match area_geometry r with None => true | Some _ => false end) results.

(** Lines 1009-1030 of [service_area] and lines 1136-1158 of
    [precice_service_area]. *)
Definition assemble_areas (o : Points) (dissolve_ : bool) (drop_origin : bool)
    (results : list AreaRow) : list AreaRow :=
  if negb (all_geometry_isna results) then
    let results := nodup_by same_edge_and_origin results in
    let results := if dissolve_ then dissolve results else results in
    let results := results ++ missing_rows o results in
    let results :=
      List.map (fun r => {| area_origin := option_map (map_id (idx_dict o)) (area_origin r);
                            area_cost := area_cost r;
                            area_edge := area_edge r;
                            area_geometry := area_geometry r |}) results in
    if drop_origin
    then List.map (fun r => {| area_origin := None;
                               area_cost := area_cost r;
                               area_edge := area_edge r;
                               area_geometry := area_geometry r |}) results
    else results
  else results.

Definition service_area_with (precice : bool) (origins_in : list (Label * Coord))
    (breaks : list Float) (dissolve_ : bool) : M (list AreaRow) :=
  _prepare_network_analysis origins_in None false ;;;
  let breaks := _sort_breaks breaks in
  na <- get ;;
  g <- attr (graph na) ;;
  o <- attr (origins na) ;;
  results <- lift (_service_area g (points_gdf o) breaks (weight_col (rules na))
                     (gdf (network na)) (nodes (network na))
                     (_as_directed (network na)) precice) ;;
  let results := assemble_areas o dissolve_ precice results in
  when (split_lines (rules na)) _unsplit_network ;;;
  when (_log na) (_runlog "service_area") ;;;
  ret results.

Definition service_area := service_area_with false.

Definition precice_service_area := service_area_with true.

(** *** Notions used in the theorems *)

(** The state of the lines after a call, compared with the lines the call
    started to work with (the network after [_validate_weight]). *)
Definition lines_restored (na na' : NA) : Prop :=
  exists validated,
    _validate_weight (rules na) (gdf (network na)) = inr validated
    /\ _not_splitted (network na') = None
    /\ List.length (gdf (network na')) = List.length validated
    /\ Permutation (List.map geometry (gdf (network na'))) (List.map geometry validated).

End Source.

(** What is asked of [split_lines_by_nearest_point]: its result consists
    of the lines it did not cut, as they were, and of pieces; every piece
    carries [splitted = 1] and the [temp_idx__] of the line it was cut
    from, and every line that was cut leaves at least one piece. *)
Definition splits_cleanly
    (split : list NetRow -> list PointRecord -> Float -> list NetRow) : Prop :=
  forall rows points tolerance,
  exists (cut : NetRow -> bool) (pieces : list NetRow),
    Permutation (split rows points tolerance)
                (List.filter (fun r => negb (cut r)) rows ++ pieces)
    /\ (forall p, In p pieces ->
          is_splitted p = true
          /\ exists r, In r rows /\ cut r = true /\ temp_idx__ p = temp_idx__ r)
    /\ (forall r, In r rows -> cut r = true ->
          exists p, In p pieces /\ temp_idx__ p = temp_idx__ r).

(** The lines of the network as the cleanup sees them: their geometry
    and whether they are pieces of a split. *)
Definition shape (r : NetRow) : LineString * bool := (geometry r, is_splitted r).

(** What the cleanup and the log depend on. *)
Definition view (na : NA) : list NetRow * option (list NetRow) * bool * bool :=
  (gdf (network na), _not_splitted (network na), split_lines (rules na), _log na).

(** A computation is quiet when a returning run leaves the lines, the
    saved lines, the [split_lines] rule and the log switch alone. *)
Definition quiet {A : Type} (c : M A) : Prop :=
  forall na a na', c na = (inr a, na') -> view na' = view na.

(** The network is split: the lines that are not pieces, together with
    the saved lines, have the geometries [G0]. *)
Definition split_state (G0 : list LineString) (na : NA) : Prop :=
  exists saved,
    _not_splitted (network na) = Some saved
    /\ Permutation
         (List.map geometry (List.filter (fun r => negb (is_splitted r)) (gdf (network na)))
          ++ List.map geometry saved)
         G0.

(** The mapping of the ids on one row, and the row of an origin without
    any line. *)
Definition relabel (d : gmap nat Label) (r : AreaRow) : AreaRow :=
  {| area_origin := option_map (map_id d) (area_origin r);
     area_cost := area_cost r;
     area_edge := area_edge r;
     area_geometry := area_geometry r |}.

Definition null_row (t : nat) : AreaRow :=
  {| area_origin := Some (TempId t); area_cost := NaN;
     area_edge := None; area_geometry := None |}.

Definition of_origin (t : nat) (r : AreaRow) : bool :=
  bool_decide (area_origin r = Some (TempId t)).

End NetworkAnalysis.

(** ** The static methods of [NetworkAnalysis] *)

Module StaticMethods.

(** *** [_sort_breaks] *)

(** What a caller may pass as [breaks]: a text, an iterable of numbers, one
    number, or something else. *)
Inductive Breaks : Type :=
| BreakText (s : string)
| BreakSeq (l : list Float)
| BreakNumber (x : Float)
| BreakOther.

Section SortBreaks.

(** [float(text)]; it raises [ValueError] for a text that is no number. *)
Variable float_of_text : string -> option Float.

(** A text is turned into its number before anything else, so it is never
    iterated; a number that is not iterable makes a list of one. *)
Definition _sort_breaks (breaks : Breaks) : Res (list Float) :=
  match breaks with
  | BreakText s =>
      match float_of_text s with
      | Some x => inr [x]
      | None => inl ValueError
      end
  | BreakSeq l => inr (NetworkAnalysis._sort_breaks l)
  | BreakNumber x => inr [x]
  | BreakOther => inl ValueError
  end.

End SortBreaks.

(** *** [_prepare_weight_df] *)

Section WeightDf.

(** The values of index labels and cells, compared with [==]. *)
Context {V : Type} `{EqDecision V}.

(** The index of a table: a plain index, or a [MultiIndex] of one level or
    of two and more levels (the first two levels and the further ones). *)
Inductive Index : Type :=
| Flat (labels : list V)
| Multi1 (labels : list V)
| Multi (tuples : list (V * V * list V)).

(** A table: its index and its columns, each a label and the cells; the
    labels of the columns are distinct. *)
Record DataFrame : Type := {
  index : Index;
  columns : list (string * list V)
}.

Inductive WeightDfArg : Type :=
| NotADataFrame
| ADataFrame (df : DataFrame).

(** The ways the method raises: [ValueError] with one of its eight
    messages, in the order of the code, or the [IndexError] of
    [get_level_values(1)] on an index of one level. *)
Inductive Refusal : Type :=
| WrongShape
| DuplicatePairs
| DuplicateOrigins
| DuplicateDestinations
| NoOriginKnown
| NoDestinationKnown
| NotAllOriginsKnown
| NotAllDestinationsKnown
| TooManyLevels.

(** [isinstance(index, pd.MultiIndex)] *)
Definition is_multi (i : Index) : bool :=
  match i with
  | Flat _ => false
  | _ => true
  end.

(** [index.is_unique] *)
Definition is_unique (i : Index) : bool :=
  match i with
  | Flat l | Multi1 l => bool_decide (NoDup l)
  | Multi ts => bool_decide (NoDup ts)
  end.

(** [index.get_level_values(0)] and [index.get_level_values(1)] *)
Definition level_0 (i : Index) : list V :=
  match i with
  | Flat l | Multi1 l => l
  | Multi ts => List.map (fun t => fst (fst t)) ts
  end.

Definition level_1 (i : Index) : Refusal + list V :=
  match i with
  | Flat _ | Multi1 _ => inl TooManyLevels
  | Multi ts => inr (List.map (fun t => snd (fst t)) ts)
  end.

(** [values.isin(labels)] on one value *)
Definition isin (labels : list V) (v : V) : bool :=
  existsb (fun l => bool_decide (v = l)) labels.

(** [weight_df.set_index(list(weight_df.columns[:2]))] on a table of three
    columns: the cells of the first two columns become the two levels of
    the index, which replaces the index the table had. *)
Definition set_index_first_two (df : DataFrame) : DataFrame :=
  match columns df with
  | [(_, a); (_, b); c] =>
      {| index := Multi (List.map (fun p => (fst p, snd p, [])) (combine a b));
         columns := [c] |}
  | _ => df
  end.

Definition _prepare_weight_df (weight_df : WeightDfArg)
    (origins_index destinations_index : list V) : Refusal + DataFrame :=
  match weight_df with
  | NotADataFrame => inl WrongShape
  | ADataFrame weight_df =>
      let weight_df :=
        if (List.length (columns weight_df) =? 3)%nat
        then set_index_first_two weight_df else weight_df in
      if negb (List.length (columns weight_df) =? 1)%nat && is_multi (index weight_df)
      then inl WrongShape
      else if negb (is_unique (index weight_df)) then inl DuplicatePairs
      else if negb (bool_decide (NoDup origins_index)) then inl DuplicateOrigins
      else if negb (bool_decide (NoDup destinations_index)) then inl DuplicateDestinations
      else
        let level0 := level_0 (index weight_df) in
        if negb (existsb (isin origins_index) level0) then inl NoOriginKnown
        else
          match level_1 (index weight_df) with
          | inl e => inl e
          | inr level1 =>
              if negb (existsb (isin destinations_index) level1) then inl NoDestinationKnown
              else if negb (forallb (isin origins_index) level0) then inl NotAllOriginsKnown
              else if negb (forallb (isin destinations_index) level1)
                   then inl NotAllDestinationsKnown
                   else inr weight_df
          end
  end.

(** Lines 881-888 of [get_route_frequencies].  [idx_dict.items()] is the
    list of (temporary id, index label) in the order of insertion;
    [{v: k for k, v in ...}] lets a later pair override an earlier one, and
    [.get] answers [None] for a label without a pair.  The index of the
    table is mapped tuple by tuple with [multiindex_mapper]. *)
Definition idx_mapper (items : list (nat * V)) (label : V) : option nat :=
  option_map fst (List.find (fun kv => bool_decide (snd kv = label)) (rev items)).

Definition multiindex_mapper (ori_items des_items : list (nat * V)) (x : V * V * list V)
    : option nat * option nat :=
  (idx_mapper ori_items (fst (fst x)), idx_mapper des_items (snd (fst x))).

End WeightDf.

Arguments Index V : clear implicits.
Arguments DataFrame V : clear implicits.
Arguments WeightDfArg V : clear implicits.

End StaticMethods.

(** ** sgis/geopandas_tools/general.py *)

Module General.

Section Frames.
Context {V : Type}.

(** A frame as far as its columns go: the labels in their order, the name
    of the active geometry column, and every row as the cells it holds. *)
Record GeoDataFrame : Type := {
  columns : list string;
  _geometry_column_name : string;
  rows : list (gmap string V)
}.

(** [frame.reindex(columns=labels)].  When the labels are the ones the
    frame has, the frame comes back as it is.  Otherwise the labels of the
    frame must be distinct ("cannot reindex on an axis with duplicate
    labels"); the new frame has the columns [labels], each with the cells
    it had before, and no cell in a column the frame did not have. *)
Definition reindex (labels : list string) (gdf : GeoDataFrame) : Res GeoDataFrame :=
  if bool_decide (columns gdf = labels) then inr gdf
  else if bool_decide (NoDup (columns gdf)) then
    inr {| columns := labels;
           _geometry_column_name := _geometry_column_name gdf;
           rows := List.map (filter (fun kv => fst kv ∈ labels)) (rows gdf) |}
  else inl ValueError.

(** [_push_geom_col] *)
Definition _push_geom_col (gdf : GeoDataFrame) : Res GeoDataFrame :=
  let geom_col := _geometry_column_name gdf in
  reindex (List.filter (fun c => negb (String.eqb c geom_col)) (columns gdf) ++ [geom_col]) gdf.

End Frames.

Arguments GeoDataFrame V : clear implicits.

End General.

(** ** Sample inputs *)

Module OdSamples.
Import OdCostMatrix.

(** Points whose geometry is given by its text. *)
#[export] Instance wkt_of_text : HasWkt string := fun s => s.

(** A backend that reports cost 0 whenever both vertices snap onto the
    same network node, and 5/2 between the two nodes. *)
Definition node_of (v : nat) : nat := Nat.modulo v 2.

Definition same_node_graph : Graph :=
  {| distances := fun a b => if (node_of a =? node_of b)%nat then zero else Fin (5 # 2) |}.

Definition flat_graph : Graph := {| distances := fun _ _ => Fin (5 # 2) |}.

Definition one_origin : list (PointRow string) :=
  [ {| temp_idx := 10; geometry := "POINT (0 0)" |} ].

Definition one_destination : list (PointRow string) :=
  [ {| temp_idx := 12; geometry := "POINT (0 0)" |} ].

Definition two_origins : list (PointRow string) :=
  [ {| temp_idx := 10; geometry := "POINT (0 0)" |};
    {| temp_idx := 11; geometry := "POINT (3 0)" |} ].

Definition two_destinations : list (PointRow string) :=
  [ {| temp_idx := 12; geometry := "POINT (0 0)" |};
    {| temp_idx := 14; geometry := "POINT (0 4)" |} ].

End OdSamples.

Module DirectedSamples.
Import DirectedNetwork.

(** A kernel in which every line takes one minute, and node ids leave the
    frame alone. *)
#[export] Instance plain_kernel : Kernel :=
  {| minutes_from_speed := fun _ _ => Fin 1;
     over_five_percent := fun bad total => (total <? 20 * bad)%nat;
     _make_node_ids := fun fr => fr;
     _check_percent_bidirectional := fun _ => 0%Z |}.

Definition road (d : string) (fw bw : Q) (g : LineString) : Row :=
  {| geometry := g;
     direction := Some d;
     cells := <["drivetime_fw" := Fin fw]> (<["drivetime_bw" := Fin bw]> ∅) |}.

Definition road_columns : list string :=
  ["oneway"; "drivetime_fw"; "drivetime_bw"; "geometry"].

(** Four roads; the last one carries a fourth direction code. *)
Definition roads_with_stray_code : Frame :=
  {| columns := road_columns;
     rows := [ road "B" 1 1 [(0, 0); (1, 0)];
               road "FT" 2 (-1) [(1, 0); (2, 0)];
               road "TF" (-1) 3 [(2, 0); (3, 0)];
               road "X" 4 4 [(3, 0); (4, 0)] ]%Q;
     crs_unit := Some "metre" |}.

(** One road open in both directions whose backward drive time is
    negative. *)
Definition road_closed_backwards : Frame :=
  {| columns := road_columns;
     rows := [ road "B" 1 (-1) [(0, 0); (1, 0)] ]%Q;
     crs_unit := Some "metre" |}.

Definition three_roads : Frame :=
  {| columns := road_columns;
     rows := [ road "B" 1 1 [(0, 0); (1, 0)];
               road "FT" 2 (-1) [(1, 0); (2, 0)];
               road "TF" (-1) 3 [(2, 0); (3, 0)] ]%Q;
     crs_unit := Some "metre" |}.

End DirectedSamples.

Module NetworkSamples.
Import NetworkAnalysis.

Definition number_text (q : Q) : string :=
  pretty (Qnum q) +:+ "/" +:+ pretty (Zpos (Qden q)).

Definition coord_text (c : Coord) : string :=
  number_text (fst c) +:+ " " +:+ number_text (snd c).

Definition coord_eqb (a b : Coord) : bool :=
  Qeq_bool (fst a) (fst b) && Qeq_bool (snd a) (snd b).

(** A toy splitter: a line of three coordinates is cut at its middle
    coordinate when one of the points lies there.  As
    [split_lines_by_nearest_point] does, it returns the lines it did not
    touch followed by the pieces, which carry [splitted = 1]. *)
Definition cut_here (points : list PointRecord) (r : NetRow) : bool :=
  match geometry r with
  | [_; m; _] => existsb (fun p => coord_eqb (point p) m) points
  | _ => false
  end.

Definition piece_of (r : NetRow) (g : LineString) : NetRow :=
  {| geometry := g; weight := weight r; meters_ := meters_ r;
     temp_idx__ := temp_idx__ r; splitted := Some 1%Z;
     source_target_weight := source_target_weight r |}.

Definition pieces_of (r : NetRow) : list NetRow :=
  match geometry r with
  | [a; m; b] => [piece_of r [a; m]; piece_of r [m; b]]
  | _ => []
  end.

Definition toy_split (rows : list NetRow) (points : list PointRecord) (tolerance : Float)
    : list NetRow :=
  List.filter (fun r => negb (cut_here points r)) rows
  ++ flat_map pieces_of (List.filter (cut_here points) rows).

Definition all_pairs (origins destinations : list PointRecord) : list ResultRow :=
  flat_map (fun o =>
    List.map (fun d => {| origin := TempId (temp_idx o); destination := TempId (temp_idx d);
                          cost := Fin 1; route := None; k := None |})
             destinations)
    origins.

(** The toy collaborators.  Points named "far" are out of reach of the
    network.  [_get_route] raises when no destination can be reached
    ("ValueError: if no paths were found"); [_service_area] reports two
    lines within reach of every origin for each break, and a row without
    geometry for an origin out of reach. *)
#[export] Instance toy : Collaborators :=
  {| WeightDf := unit;
     line_wkt := fun g => String.concat ", " (List.map coord_text g);
     point_wkt := coord_text;
     line_length := fun g => of_int (Z.of_nat (List.length g) - 1);
     rescale_weight := fun w _ _ => w;
     unary_union := fun gs =>
       match List.concat (omap (fun g => g) gs) with
       | [] => None
       | lines => Some lines
       end;
     split_lines_by_nearest_point := toy_split;
     _validate_weight := fun _ rows => inr rows;
     _nodes_are_up_to_date := fun _ => false;
     node_ids := fun rows => seq 0 (S (List.length rows));
     get_edges := fun nw => List.map (fun i => (i, S i)) (seq 0 (List.length (gdf nw)));
     _create_edge_ids := fun edges _ =>
       List.map (fun e => pretty (fst e) +:+ "_" +:+ pretty (snd e)) edges;
     points_edges_and_weights := fun pts _ _ =>
       (List.map (fun p => (temp_idx p, 0%nat)) (points_gdf pts),
        List.map (fun _ => zero) (points_gdf pts));
     _prepare_weight_df := fun w _ _ => inr w;
     reindex_weight_df := fun w _ _ => w;
     _od_cost_matrix := fun _ o d _ _ _ => inr (all_pairs o d);
     _get_route := fun _ o d _ _ _ =>
       match all_pairs o (List.filter (fun p => negb (String.eqb (index p) "far")) d) with
       | [] => inl ValueError
       | rows => inr rows
       end;
     _get_k_routes := fun _ o d _ _ _ _ _ => inr (all_pairs o d);
     _get_route_frequencies := fun _ _ _ roads _ _ =>
       inr (List.map (fun r => {| line := r; frequency := Fin 1 |}) roads);
     _service_area := fun _ o breaks _ _ _ _ _ =>
       inr (flat_map (fun p =>
              flat_map (fun b =>
                if String.eqb (index p) "far"
                then [ {| area_origin := Some (TempId (temp_idx p)); area_cost := b;
                          area_edge := None; area_geometry := None |} ]
                else [ {| area_origin := Some (TempId (temp_idx p)); area_cost := b;
                          area_edge := Some "0_1";
                          area_geometry := Some [[(0, 0); (1, 0)]%Q] |};
                       {| area_origin := Some (TempId (temp_idx p)); area_cost := b;
                          area_edge := Some "1_2";
                          area_geometry := Some [[(1, 0); (2, 0)]%Q] |} ])
                breaks)
              o) |}.

Definition street (w : Q) (g : LineString) : NetRow :=
  {| geometry := g; weight := Fin w; meters_ := NaN; temp_idx__ := None;
     splitted := None; source_target_weight := None |}.

(** Two streets; the first one bends at (1, 0). *)
Definition two_streets : Network :=
  {| gdf := [ street 2 [(0, 0); (1, 0); (2, 0)]; street 1 [(2, 0); (3, 0)] ]%Q;
     nodes := [0; 1; 2]%nat;
     _not_splitted := None;
     _as_directed := false |}.

Definition splitting_rules : Rules :=
  {| weight_col := "minutes"; search_tolerance := Fin 250; search_factor := Fin 10;
     split_lines := true; _cached_rules := None |}.

Definition fresh : NA :=
  {| network := two_streets; rules := splitting_rules; origins := None;
     destinations := None; graph := None; wkts := None; _log := true; log := [] |}.

(** A point on the bend of the first street, a point elsewhere. *)
Definition at_the_bend : list (Label * Coord) := [ ("a", (1, 0)%Q) ].
Definition elsewhere : list (Label * Coord) := [ ("b", (3, 0)%Q) ].
Definition far_away : list (Label * Coord) := [ ("far", (9, 9)%Q) ].

Definition fresh_with_origin : NA :=
  set_origins (Some (_make_temp_idx 3 at_the_bend)) fresh.

End NetworkSamples.

Module MoreSamples.
Import NetworkAnalysis NetworkSamples.

(** A weight table in the documented form of three columns. *)
Definition od_weights : StaticMethods.WeightDfArg string :=
  StaticMethods.ADataFrame
    {| StaticMethods.index := StaticMethods.Flat ["0"; "1"];
       StaticMethods.columns := [ ("origin", ["a"; "a"]); ("destination", ["x"; "y"]);
                                  ("weight", ["10"; "20"]) ] |}.

(** The analysis with an origin on the bend, a destination elsewhere, and
    a graph over the nodes of the two streets that has the origin as a
    vertex but not the destination. *)
Definition street_graph : Graph :=
  {| directed := false;
     vs_name := [0; 1; 2; 3]%nat;
     es_weight := [Fin 2; Fin 1; zero];
     es_source_target_weight := ["0_1"; "1_2"; "3_0"];
     es_edge_tuples := [(0, 1); (1, 2); (3, 0)]%nat;
     es_source := [0; 1; 3]%nat;
     es_target := [1; 2; 0]%nat |}.

Definition with_graph : NA :=
  set_graph (Some street_graph)
    (set_destinations (Some (_make_temp_idx 4 elsewhere)) fresh_with_origin).

End MoreSamples.

(* ===================================================================== *)
(** * Part II: theorems                                                   *)
(* ===================================================================== *)

(** ** Order facts on cells *)

Module FloatFacts.

Lemma Qle_bool_false (x y : Q) : Qle_bool x y = false -> (y < x)%Q.
Proof.
  intros Hf. apply Qnot_le_lt. intros Hle.
  apply Qle_bool_iff in Hle. congruence.
Qed.

Lemma Qle_bool_true (x y : Q) : Qle_bool x y = true -> (x <= y)%Q.
Proof. apply Qle_bool_iff. Qed.

Lemma Qlt_bool_intro (x y : Q) : (x < y)%Q -> negb (Qle_bool y x) = true.
Proof.
  intros Hlt. destruct (Qle_bool y x) eqn:E; [|reflexivity].
  apply Qle_bool_iff in E. exfalso. exact (Qlt_not_le _ _ Hlt E).
Qed.

Lemma Qlt_bool_elim (x y : Q) : negb (Qle_bool y x) = true -> (x < y)%Q.
Proof.
  intros Hn. apply Qle_bool_false. destruct (Qle_bool y x); [discriminate|reflexivity].
Qed.

Lemma flt_irrefl (a : Float) : flt a a = false.
Proof.
  destruct a as [| |q|]; simpl; try reflexivity.
  destruct (Qle_bool q q) eqn:E; [reflexivity|].
  apply Qle_bool_false in E. exfalso. exact (Qlt_irrefl _ E).
Qed.

Lemma flt_trans (a b c : Float) : flt a b = true -> flt b c = true -> flt a c = true.
Proof.
  destruct a as [| |x|], b as [| |y|], c as [| |z|]; simpl; try discriminate; try reflexivity.
  intros H1 H2. apply Qlt_bool_elim in H1, H2. apply Qlt_bool_intro.
  eapply Qlt_trans; eassumption.
Qed.

Lemma flt_fle_trans (a b c : Float) : flt a b = true -> fle b c = true -> flt a c = true.
Proof.
  destruct a as [| |x|], b as [| |y|], c as [| |z|]; simpl; try discriminate; try reflexivity.
  intros H1 H2. apply Qlt_bool_elim in H1. apply Qle_bool_true in H2.
  apply Qlt_bool_intro. eapply Qlt_le_trans; eassumption.
Qed.

Lemma fle_trans (a b c : Float) : fle a b = true -> fle b c = true -> fle a c = true.
Proof.
  destruct a as [| |x|], b as [| |y|], c as [| |z|]; simpl; try discriminate; try reflexivity.
  intros H1 H2. apply Qle_bool_true in H1, H2. apply Qle_bool_iff.
  eapply Qle_trans; eassumption.
Qed.

Lemma fle_refl_fin (q : Q) : fle (Fin q) (Fin q) = true.
Proof. simpl. apply Qle_bool_iff. apply Qle_refl. Qed.

(** Among numbers, [a < b] fails exactly when [b <= a]. *)
Lemma flt_false_fle (x y : Q) : flt (Fin x) (Fin y) = false -> fle (Fin y) (Fin x) = true.
Proof. simpl. destruct (Qle_bool y x); [reflexivity|discriminate]. Qed.

(** The running minimum of [py_min] is never above an item, in the sense
    of the comparison the loop performs. *)
Lemma running_min_below (rest : list Float) (x : Float) (seen : list Float) :
  (forall w, In w seen -> flt w x = false) ->
  forall w, In w (seen ++ rest) ->
    flt w (fold_left (fun m item => if flt item m then item else m) rest x) = false.
Proof.
  revert x seen. induction rest as [|item rest IH]; intros x seen Hseen w Hw; simpl.
  - rewrite app_nil_r in Hw. auto.
  - apply (IH _ (seen ++ [item])).
    + intros v Hin. apply in_app_or in Hin. destruct Hin as [Hin|[<-|[]]].
      * destruct (flt item x) eqn:E; [|auto].
        destruct (flt v item) eqn:E'; [|reflexivity].
        rewrite <- (Hseen v Hin). symmetry. eapply flt_trans; eassumption.
      * destruct (flt item x) eqn:E; [apply flt_irrefl|exact E].
    + rewrite <- app_assoc. exact Hw.
Qed.

Lemma py_min_below (l : list Float) (m : Float) :
  py_min l = Some m -> forall w, In w l -> flt w m = false.
Proof.
  destruct l as [|x rest]; simpl; [discriminate|].
  intros [= <-] w Hw.
  apply (running_min_below rest x [x]).
  - intros w' [<-|[]]. apply flt_irrefl.
  - exact Hw.
Qed.

End FloatFacts.

(** ** Facts on the list helpers *)

Module ListFacts.

Lemma sort_by_Permutation {A : Type} (leb : A -> A -> bool) (l : list A) :
  Permutation (sort_by leb l) l.
Proof. unfold sort_by. apply merge_sort_Permutation. Qed.

Lemma sort_by_length {A : Type} (leb : A -> A -> bool) (l : list A) :
  List.length (sort_by leb l) = List.length l.
Proof. apply Permutation_length, sort_by_Permutation. Qed.

Lemma nodup_by_In {A : Type} (eqb : A -> A -> bool) (l : list A) (x : A) :
  In x (nodup_by eqb l) -> In x l.
Proof.
  induction l as [|a t IH]; simpl; [tauto|].
  intros [->|Hx]; [now left|].
  apply filter_In in Hx. right. tauto.
Qed.

(** What [nodup_by] keeps is the first item of its class. *)
Lemma nodup_by_first {A : Type} (eqb : A -> A -> bool) (l : list A) (x : A) :
  In x (nodup_by eqb l) ->
  exists before after, l = before ++ x :: after /\ forall y, In y before -> eqb y x = false.
Proof.
  induction l as [|a t IH]; simpl; [tauto|].
  intros [->|Hx].
  - exists [], t. split; [reflexivity|]. intros y [].
  - apply filter_In in Hx. destruct Hx as [Hx Hax].
    destruct (IH Hx) as (before & after & -> & Hfirst).
    exists (a :: before), after. split; [reflexivity|].
    intros y [<-|Hy]; [now apply negb_true_iff|auto].
Qed.

Section Reflecting.
Context {A : Type} (eqb : A -> A -> bool).
Hypothesis eqb_spec : forall a b, eqb a b = true <-> a = b.

Lemma nodup_by_complete (l : list A) (x : A) : In x l -> In x (nodup_by eqb l).
Proof.
  induction l as [|a t IH]; simpl; [tauto|].
  intros [->|Hx]; [now left|].
  destruct (eqb a x) eqn:E.
  - left. now apply eqb_spec.
  - right. apply filter_In. split; [auto|]. now rewrite E.
Qed.

Lemma nodup_by_NoDup (l : list A) : List.NoDup (nodup_by eqb l).
Proof.
  induction l as [|a t IH]; simpl; constructor.
  - intros Hin. apply filter_In in Hin. destruct Hin as [_ Hne].
    assert (E : eqb a a = true) by now apply eqb_spec.
    rewrite E in Hne. discriminate.
  - now apply List.NoDup_filter.
Qed.

End Reflecting.

(** With a partial equivalence for [eqb], every class that occurs in [l]
    occurs exactly once in [nodup_by eqb l]. *)
Section Classes.
Context {A : Type} (eqb : A -> A -> bool).
Hypothesis eqb_sym : forall a b, eqb a b = eqb b a.
Hypothesis eqb_trans : forall a b c, eqb a b = true -> eqb b c = true -> eqb a c = true.

Lemma filter_class_out (x a : A) (l : list A) :
  eqb x a = true ->
  List.filter (eqb x) (List.filter (fun y => negb (eqb a y)) l) = [].
Proof.
  intros Hxa. induction l as [|y t IH]; simpl; [reflexivity|].
  destruct (eqb a y) eqn:Eay; simpl; [exact IH|].
  destruct (eqb x y) eqn:Exy; [|exact IH].
  exfalso. rewrite eqb_sym in Hxa.
  rewrite (eqb_trans a x y Hxa Exy) in Eay. discriminate.
Qed.

Lemma filter_class_keep (x a : A) (l : list A) :
  eqb x a = false ->
  List.filter (eqb x) (List.filter (fun y => negb (eqb a y)) l) = List.filter (eqb x) l.
Proof.
  intros Hxa. induction l as [|y t IH]; simpl; [reflexivity|].
  destruct (eqb a y) eqn:Eay; simpl.
  - destruct (eqb x y) eqn:Exy; [|exact IH].
    exfalso. rewrite (eqb_sym a y) in Eay.
    rewrite (eqb_trans x y a Exy Eay) in Hxa. discriminate.
  - destruct (eqb x y); [f_equal|]; exact IH.
Qed.

Lemma nodup_by_count (x : A) (l : list A) :
  List.length (List.filter (eqb x) (nodup_by eqb l))
  = if existsb (eqb x) l then 1%nat else 0%nat.
Proof.
  induction l as [|a t IH]; simpl; [reflexivity|].
  destruct (eqb x a) eqn:E; simpl.
  - now rewrite filter_class_out.
  - now rewrite filter_class_keep.
Qed.

End Classes.

Lemma omap_length_total {A B : Type} (f : A -> option B) (l : list A) :
  (forall x, In x l -> exists y, f x = Some y) ->
  List.length (omap f l) = List.length l.
Proof.
  induction l as [|a t IH]; intros Hall; simpl; [reflexivity|].
  destruct (Hall a (or_introl eq_refl)) as [y ->]. simpl. f_equal.
  apply IH. intros x Hx. apply Hall. now right.
Qed.

Lemma in_omap {A B : Type} (f : A -> option B) (l : list A) (y : B) :
  In y (omap f l) -> exists x, In x l /\ f x = Some y.
Proof.
  induction l as [|a t IH]; simpl; [tauto|].
  destruct (f a) eqn:E; simpl.
  - intros [<-|Hy]; [exists a; auto|].
    destruct (IH Hy) as (x & Hx & Hfx). exists x; auto.
  - intros Hy. destruct (IH Hy) as (x & Hx & Hfx). exists x; auto.
Qed.

Lemma filter_split_perm {A : Type} (p : A -> bool) (l : list A) :
  Permutation (List.filter p l ++ List.filter (fun x => negb (p x)) l) l.
Proof.
  induction l as [|a t IH]; simpl; [constructor|].
  destruct (p a); simpl.
  - now constructor.
  - apply Permutation_sym, Permutation_cons_app, Permutation_sym, IH.
Qed.

Lemma existsb_filter {A : Type} (p q : A -> bool) (l : list A) :
  existsb p (List.filter q l) = existsb (fun x => p x && q x) l.
Proof.
  induction l as [|a t IH]; simpl; [reflexivity|].
  destruct (q a); simpl; rewrite IH.
  - now rewrite andb_true_r.
  - now rewrite andb_false_r.
Qed.

Lemma distinct_keys_injective {A B : Type} (f : A -> B) (l : list A) (x y : A) :
  List.NoDup (List.map f l) -> In x l -> In y l -> f x = f y -> x = y.
Proof.
  induction l as [|a t IH]; simpl; [tauto|].
  intros Hnd Hx Hy E. inversion Hnd as [|? ? Hnot Hnd']; subst.
  destruct Hx as [->|Hx], Hy as [->|Hy]; auto.
  - exfalso. apply Hnot. rewrite E. now apply in_map.
  - exfalso. apply Hnot. rewrite <- E. now apply in_map.
Qed.

Lemma Permutation_filter_bool {A : Type} (p : A -> bool) (l l' : list A) :
  Permutation l l' -> Permutation (List.filter p l) (List.filter p l').
Proof.
  induction 1 as [|x l l' _ IH|x y l|l l' l'' _ IH1 _ IH2]; simpl.
  - constructor.
  - destruct (p x); [now constructor|exact IH].
  - destruct (p x), (p y); try reflexivity. constructor.
  - etransitivity; eassumption.
Qed.

Lemma filter_none {A : Type} (p : A -> bool) (l : list A) :
  (forall x, In x l -> p x = false) -> List.filter p l = [].
Proof.
  induction l as [|a t IH]; simpl; intros Hall; [reflexivity|].
  rewrite (Hall a (or_introl eq_refl)). apply IH. intros x Hx. apply Hall. now right.
Qed.

Lemma count_in_distinct (keys : list nat) (key : nat) :
  List.NoDup keys ->
  List.length (List.filter (fun k => (k =? key)%nat) keys)
  = if existsb (fun k => (k =? key)%nat) keys then 1%nat else 0%nat.
Proof.
  induction keys as [|k keys IH]; intros Hnd; [reflexivity|].
  inversion Hnd as [|? ? Hnot Hnd']; subst. cbn [List.filter existsb].
  destruct (Nat.eqb_spec k key) as [->|_]; cbn [orb]; [|now apply IH].
  cbn [List.length]. f_equal. rewrite filter_none; [reflexivity|].
  intros k Hk. apply Nat.eqb_neq. intros ->. contradiction.
Qed.

Lemma filter_twice {A : Type} (p q : A -> bool) (l : list A) :
  List.filter p (List.filter q l) = List.filter (fun x => q x && p x) l.
Proof.
  induction l as [|a t IH]; simpl; [reflexivity|].
  destruct (q a); simpl; [destruct (p a); now rewrite IH|exact IH].
Qed.

End ListFacts.

(** ** Sorting along a boolean order *)

Module SortFacts.
Import ListFacts FloatFacts.

Section Agreement.
Context {A : Type} (R1 R2 : relation A).
Context (dec1 : forall x y, Decision (R1 x y)) (dec2 : forall x y, Decision (R2 x y)).
Variable P : A -> Prop.
Hypothesis agree : forall a b, P a -> P b -> (R1 a b <-> R2 a b).

Lemma list_merge_agree (l1 l2 : list A) :
  Forall P l1 -> Forall P l2 ->
  @list_merge A R1 dec1 l1 l2 = @list_merge A R2 dec2 l1 l2.
Proof.
  intros H1. revert l2. induction H1 as [|x1 l1 Hx1 H1 IH1]; intros l2 H2.
  - now destruct l2.
  - induction H2 as [|x2 l2 Hx2 H2 IH2]; [reflexivity|].
    cbn [list_merge]. 
    destruct (dec1 x1 x2) as [Y1|N1], (dec2 x1 x2) as [Y2|N2].
    + f_equal. apply IH1. now constructor.
    + destruct N2. now apply (agree x1 x2).
    + destruct N1. now apply (agree x1 x2).
    + f_equal. exact IH2.
Qed.

Lemma merge_list_to_stack_agree (st : list (option (list A))) (l : list A) :
  Forall P (merge_stack_flatten st) -> Forall P l ->
  @merge_list_to_stack A R1 dec1 st l = @merge_list_to_stack A R2 dec2 st l.
Proof.
  revert l. induction st as [|[l'|] st IH]; intros l Hst Hl; cbn [merge_list_to_stack];
    [reflexivity| |reflexivity].
  cbn [merge_stack_flatten] in Hst. apply Forall_app in Hst. destruct Hst as [Hl' Hst].
  rewrite (list_merge_agree l' l Hl' Hl). f_equal. apply IH; [exact Hst|].
  apply (Permutation_Forall (Permutation_sym (merge_Permutation R2 l' l))).
  apply Forall_app. auto.
Qed.

Lemma merge_stack_agree (st : list (option (list A))) :
  Forall P (merge_stack_flatten st) ->
  @merge_stack A R1 dec1 st = @merge_stack A R2 dec2 st.
Proof.
  induction st as [|[l|] st IH]; intros Hst; cbn [merge_stack]; [reflexivity| |auto].
  cbn [merge_stack_flatten] in Hst. apply Forall_app in Hst. destruct Hst as [Hl Hst].
  rewrite (IH Hst). apply list_merge_agree; [exact Hl|].
  apply (Permutation_Forall (Permutation_sym (merge_stack_Permutation R2 st))).
  exact Hst.
Qed.

Lemma merge_sort_aux_agree (st : list (option (list A))) (l : list A) :
  Forall P (merge_stack_flatten st) -> Forall P l ->
  @merge_sort_aux A R1 dec1 st l = @merge_sort_aux A R2 dec2 st l.
Proof.
  revert st. induction l as [|x l IH]; intros st Hst Hl; cbn [merge_sort_aux].
  - now apply merge_stack_agree.
  - inversion Hl as [|? ? Hx Hl']; subst.
    rewrite (merge_list_to_stack_agree st [x] Hst) by (constructor; [exact Hx|constructor]).
    apply IH; [|exact Hl'].
    apply (Permutation_Forall (Permutation_sym (merge_list_to_stack_Permutation R2 st [x]))).
    constructor; assumption.
Qed.

Lemma merge_sort_agree (l : list A) :
  Forall P l -> @merge_sort A R1 dec1 l = @merge_sort A R2 dec2 l.
Proof. intros Hl. apply merge_sort_aux_agree; [constructor|exact Hl]. Qed.

End Agreement.

(** A total and transitive order. *)
Lemma sort_by_sorted {A : Type} (leb : A -> A -> bool) (l : list A) :
  (forall a b c, leb a b = true -> leb b c = true -> leb a c = true) ->
  (forall a b, leb a b = true \/ leb b a = true) ->
  StronglySorted (fun a b => leb a b = true) (sort_by leb l).
Proof.
  intros Htrans Htotal. unfold sort_by.
  apply StronglySorted_merge_sort.
  - intros a b c. apply Htrans.
  - intros a b. apply Htotal.
Qed.

Lemma hdrel_weaken {A : Type} (R1 R2 : relation A) (P : A -> Prop) (x : A) (l : list A) :
  (forall a b, P a -> P b -> R1 a b -> R2 a b) ->
  P x -> Forall P l -> HdRel R1 x l -> HdRel R2 x l.
Proof.
  intros Himp Hx Hl Hhd. destruct Hhd as [|y l Hxy]; constructor.
  inversion Hl; subst. auto.
Qed.

Lemma sorted_weaken {A : Type} (R1 R2 : relation A) (P : A -> Prop) (l : list A) :
  (forall a b, P a -> P b -> R1 a b -> R2 a b) ->
  Forall P l -> Sorted R1 l -> Sorted R2 l.
Proof.
  intros Himp Hl Hs. induction Hs as [|x l Hs IH Hhd]; constructor;
    inversion Hl; subst; [auto|].
  eapply hdrel_weaken; eassumption.
Qed.

(** Numbers sort like numbers: on cells that are not NaN the order [fle]
    is total, and the sorted list ascends. *)
Lemma sort_by_fle_sorted {A : Type} (key : A -> Float) (l : list A) :
  Forall (fun x => isna (key x) = false) l ->
  StronglySorted (fun a b => fle (key a) (key b) = true)
    (sort_by (fun a b => fle (key a) (key b)) l).
Proof.
  intros Hl. unfold sort_by.
  set (R1 := fun a b : A => fle (key a) (key b) = true).
  set (R2 := fun a b : A => flt (key b) (key a) = false).
  assert (Hdec2 : forall a b, Decision (R2 a b)) by (intros a b; unfold R2; apply _).
  assert (Hagree : forall a b, isna (key a) = false -> isna (key b) = false ->
            (R1 a b <-> R2 a b)).
  { intros a b Ha Hb. unfold R1, R2.
    destruct (key a) as [| |x|], (key b) as [| |y|]; cbn in *; try discriminate;
      try (split; congruence); try tauto.
    rewrite negb_false_iff. tauto. }
  rewrite (merge_sort_agree R1 R2 _ Hdec2 (fun x => isna (key x) = false) Hagree l Hl).
  assert (Hperm : Forall (fun x => isna (key x) = false) (@merge_sort A R2 Hdec2 l)).
  { apply (Permutation_Forall (Permutation_sym (merge_sort_Permutation R2 l))). exact Hl. }
  apply Sorted_StronglySorted.
  - intros a b c. unfold R1. apply fle_trans.
  - apply (sorted_weaken R2 R1 (fun x => isna (key x) = false)); [|exact Hperm|].
    + intros a b Ha Hb. now apply Hagree.
    + apply Sorted_merge_sort. intros a b. unfold R2.
      destruct (flt (key b) (key a)) eqn:E; [right|now left].
      destruct (key a) as [| |x|], (key b) as [| |y|]; cbn in *; try discriminate;
        try reflexivity.
      apply negb_true_iff in E. apply negb_false_iff.
      apply Qle_bool_iff. apply Qlt_le_weak. apply Qnot_le_lt. intros Hle.
      apply Qle_bool_iff in Hle. congruence.
Qed.

End SortFacts.

(** ** gis_utils/od_cost_matrix.py *)

Module OdCostMatrixFacts.
Import OdCostMatrix ListFacts FloatFacts.

Section Facts.
Context {G : Type} `{HasWkt G}.

Lemma set_cost_same (r : ODRow) : set_cost (cost r) r = r.
Proof. now destruct r. Qed.

Lemma wkt_dict_untouched (points : list (PointRow G)) (m : gmap nat string) (key : nat) :
  ~ In key (List.map temp_idx points) ->
  fold_left (fun m p => <[temp_idx p := wkt (geometry p)]> m) points m !! key = m !! key.
Proof.
  revert m. induction points as [|p t IH]; intros m Hnot; simpl; [reflexivity|].
  rewrite IH.
  - apply lookup_insert_ne. intros E. apply Hnot. left. exact E.
  - intros Hin. apply Hnot. now right.
Qed.

Lemma wkt_dict_lookup_from (points : list (PointRow G)) (m : gmap nat string) (p : PointRow G) :
  List.NoDup (List.map temp_idx points) -> In p points ->
  fold_left (fun m p => <[temp_idx p := wkt (geometry p)]> m) points m !! temp_idx p
  = Some (wkt (geometry p)).
Proof.
  revert m. induction points as [|a t IH]; intros m Hnd Hin; simpl in *; [tauto|].
  inversion Hnd as [|? ? Hnot Hnd']; subst.
  destruct Hin as [->|Hin].
  - rewrite wkt_dict_untouched by exact Hnot. apply lookup_insert_eq.
  - now apply IH.
Qed.

Lemma wkt_dict_lookup (points : list (PointRow G)) (p : PointRow G) :
  List.NoDup (List.map temp_idx points) -> In p points ->
  wkt_dict points !! temp_idx p = Some (wkt (geometry p)).
Proof. apply wkt_dict_lookup_from. Qed.

Lemma raw_table_origin (graph : Graph) (sp ep : list (PointRow G)) (rowwise : bool) (r : ODRow) :
  In r (raw_table graph sp ep rowwise) -> exists s, In s sp /\ origin r = temp_idx s.
Proof.
  unfold raw_table. destruct rowwise.
  - intros Hin. apply in_map_iff in Hin. destruct Hin as ([s e] & <- & Hse).
    exists s. split; [eapply in_combine_l; eassumption|reflexivity].
  - intros Hin. apply in_flat_map in Hin. destruct Hin as (s & Hs & Hr).
    apply in_map_iff in Hr. destruct Hr as (e & <- & _).
    exists s. auto.
Qed.

Lemma apply_cutoff_filter (cutoff : option Z) (out : list ODRow) :
  apply_cutoff cutoff out = List.filter (fun r => below_cutoff cutoff (cost r)) out.
Proof.
  unfold apply_cutoff, below_cutoff.
  destruct cutoff as [v|]; [destruct (truthy (Some v))|];
    [reflexivity|symmetry; apply filter_true|symmetry; apply filter_true].
Qed.

(** The rows that reach the grouping step are the usable rows of the raw
    table, unchanged. *)
Lemma candidates_are_usable (cutoff : option Z) (df : list ODRow) :
  List.filter (fun r => negb (isna (cost r))) (apply_cutoff cutoff (tidy df))
  = List.filter (fun r => usable cutoff (cost r)) df.
Proof.
  rewrite apply_cutoff_filter. unfold tidy.
  assert (Husable : forall c, usable cutoff c =
            match c with Fin _ => fgt c zero && below_cutoff cutoff c | _ => false end)
    by reflexivity.
  induction df as [|r t IH]; [reflexivity|].
  cbn [List.filter List.map]. rewrite Husable.
  destruct r as [o d c ln]. unfold tidy_mask. cbn [cost].
  destruct c as [| |q|]; cbn [isna orb fgt flt zero].
  - cbn [List.map List.filter set_cost cost replace_inf].
    destruct (below_cutoff cutoff NaN); cbn [List.filter cost isna negb]; exact IH.
  - exact IH.
  - destruct (negb (Qle_bool q 0)) eqn:E;
      cbn [andb orb List.map List.filter set_cost cost replace_inf]; [|exact IH].
    destruct (below_cutoff cutoff (Fin q)); cbn [List.filter cost isna negb];
      [f_equal|]; exact IH.
  - cbn [List.map List.filter set_cost cost replace_inf].
    destruct (below_cutoff cutoff NaN); cbn [List.filter cost isna negb]; exact IH.
Qed.

Lemma idxmin_fold_cost (rest : list ODRow) (r : ODRow) :
  cost (fold_left (fun m x => if flt (cost x) (cost m) then x else m) rest r)
  = fold_left (fun m item => if flt item m then item else m) (List.map cost rest) (cost r).
Proof.
  revert r. induction rest as [|x t IH]; intros r; simpl; [reflexivity|].
  rewrite IH. now destruct (flt (cost x) (cost r)).
Qed.

Lemma idxmin_fold_In (rest : list ODRow) (r : ODRow) :
  In (fold_left (fun m x => if flt (cost x) (cost m) then x else m) rest r) (r :: rest).
Proof.
  revert r. induction rest as [|x t IH]; intros r; simpl; [now left|].
  destruct (IH (if flt (cost x) (cost r) then x else r)) as [E|Hin].
  - rewrite <- E. destruct (flt (cost x) (cost r)); [right; now left|now left].
  - right. now right.
Qed.

Lemma idxmin_In (rows : list ODRow) (m : ODRow) : idxmin rows = Some m -> In m rows.
Proof.
  destruct rows as [|r rest]; simpl; [discriminate|].
  intros [= <-]. apply idxmin_fold_In.
Qed.

Lemma idxmin_least (rows : list ODRow) (m : ODRow) :
  idxmin rows = Some m -> forall r, In r rows -> flt (cost r) (cost m) = false.
Proof.
  destruct rows as [|r0 rest]; simpl; [discriminate|].
  intros [= <-] r Hr. rewrite idxmin_fold_cost.
  apply (py_min_below (List.map cost (r0 :: rest))); [reflexivity|].
  now apply in_map.
Qed.

Lemma usable_is_number (cutoff : option Z) (c : Float) :
  usable cutoff c = true -> exists q, c = Fin q.
Proof. destruct c; simpl; try discriminate. eauto. Qed.

Lemma finish_row_origin (wo wd : gmap nat string) (lines : bool) (r : ODRow) :
  origin (finish_row wo wd lines r) = origin r.
Proof. reflexivity. Qed.

Lemma finish_row_destination (wo wd : gmap nat string) (lines : bool) (r : ODRow) :
  destination (finish_row wo wd lines r) = destination r.
Proof. reflexivity. Qed.

Lemma group_keys_spec (out : list ODRow) (key : nat) :
  In key (group_keys out) <-> exists r, In r out /\ origin r = key.
Proof.
  unfold group_keys. split.
  - intros Hin.
    apply (Permutation_in _ (sort_by_Permutation _ _)) in Hin.
    apply nodup_by_In in Hin. apply in_map_iff in Hin.
    destruct Hin as (r & <- & Hr). eauto.
  - intros (r & Hr & <-).
    apply (Permutation_in _ (Permutation_sym (sort_by_Permutation _ _))).
    apply (nodup_by_complete _ Nat.eqb_eq). now apply in_map.
Qed.

Lemma group_keys_NoDup (out : list ODRow) : List.NoDup (group_keys out).
Proof.
  unfold group_keys.
  eapply Permutation_NoDup; [apply Permutation_sym, sort_by_Permutation|].
  apply (nodup_by_NoDup _ Nat.eqb_eq).
Qed.

Lemma group_keys_existsb (out : list ODRow) (key : nat) :
  existsb (fun k => (k =? key)%nat) (group_keys out)
  = existsb (fun r => (origin r =? key)%nat) out.
Proof.
  apply eq_true_iff_eq. rewrite !existsb_exists. split.
  - intros (k & Hk & E). apply Nat.eqb_eq in E. subst k.
    apply group_keys_spec in Hk. destruct Hk as (r & Hr & <-).
    exists r. split; [exact Hr|apply Nat.eqb_refl].
  - intros (r & Hr & E). apply Nat.eqb_eq in E.
    exists key. split; [|apply Nat.eqb_refl].
    apply group_keys_spec. eauto.
Qed.

(** One row comes out of every group, in the order of the keys. *)
Lemma cheapest_of_every_group (out : list ODRow) (keys : list nat) :
  (forall key, In key keys -> exists r, In r out /\ origin r = key) ->
  List.map origin (omap (fun key => idxmin (group key out)) keys) = keys.
Proof.
  induction keys as [|key keys IH]; intros Hkeys; [reflexivity|].
  cbn [omap list_omap]. destruct (Hkeys key (or_introl eq_refl)) as (r & Hr & Hkey).
  destruct (idxmin (group key out)) as [m|] eqn:Emin.
  - cbn [List.map]. f_equal.
    + apply idxmin_In in Emin. unfold group in Emin. apply filter_In in Emin.
      destruct Emin as [_ E]. now apply Nat.eqb_eq in E.
    + apply IH. intros k Hk. apply Hkeys. now right.
  - exfalso. unfold group in Emin.
    assert (Hin : In r (List.filter (fun r0 => (origin r0 =? key)%nat) out))
      by (apply filter_In; split; [exact Hr|now apply Nat.eqb_eq]).
    destruct (List.filter _ out); [destruct Hin|discriminate].
Qed.

Lemma trimmed_length (sp : list (PointRow G)) (cands : list ODRow) :
  List.NoDup (List.map temp_idx sp) ->
  (forall r, In r cands -> exists s, In s sp /\ origin r = temp_idx s) ->
  List.length (omap (fun key => idxmin (group key cands)) (group_keys cands))
  = List.length
      (List.filter (fun s => existsb (fun r => (origin r =? temp_idx s)%nat) cands) sp).
Proof.
  intros Hnd Horigin.
  rewrite omap_length_total.
  - rewrite <- (length_map temp_idx (List.filter _ sp)).
    apply Permutation_length, Stdlib.Sorting.Permutation.NoDup_Permutation.
    + apply group_keys_NoDup.
    + clear Horigin. induction sp as [|s t IH]; simpl; [constructor|].
      inversion Hnd as [|? ? Hnot Hnd']; subst.
      destruct (existsb _ cands); simpl; [|auto].
      constructor; [|auto].
      intros Hin. apply Hnot. apply in_map_iff in Hin.
      destruct Hin as (s' & E & Hs'). apply filter_In in Hs'.
      apply in_map_iff. exists s'. tauto.
    + intros key. rewrite group_keys_spec. split.
      * intros (r & Hr & <-). destruct (Horigin r Hr) as (s & Hs & E).
        apply in_map_iff. exists s. split; [auto|].
        apply filter_In. split; [exact Hs|].
        apply existsb_exists. exists r. split; [exact Hr|]. now apply Nat.eqb_eq.
      * intros Hin. apply in_map_iff in Hin. destruct Hin as (s & <- & Hs).
        apply filter_In in Hs. destruct Hs as [_ Hex].
        apply existsb_exists in Hex. destruct Hex as (r & Hr & E).
        apply Nat.eqb_eq in E. eauto.
  - intros key Hkey. apply group_keys_spec in Hkey. destruct Hkey as (r & Hr & E).
    unfold group.
    assert (Hin : In r (List.filter (fun r0 => (origin r0 =? key)%nat) cands)).
    { apply filter_In. split; [exact Hr|]. now apply Nat.eqb_eq. }
    destruct (List.filter _ cands) as [|x rest]; [destruct Hin|].
    simpl. eauto.
Qed.

Lemma raw_row_shape (graph : Graph) (sp ep : list (PointRow G)) (rowwise : bool) (r : ODRow) :
  In r (raw_table graph sp ep rowwise) -> r = od_row (origin r) (destination r) (cost r).
Proof.
  unfold raw_table. destruct rowwise; intros Hin.
  - apply in_map_iff in Hin. now destruct Hin as (ft & <- & _).
  - apply in_flat_map in Hin. destruct Hin as (s & _ & Hr).
    apply in_map_iff in Hr. now destruct Hr as (e & <- & _).
Qed.

Lemma wkt_differ_same (w : string) : wkt_differ (Some w) (Some w) = false.
Proof. simpl. now rewrite String.eqb_refl. Qed.

(** C2, as amended.  For an origin and a destination that are the same
    point: every row of the returned table for this pair has cost exactly 0,
    whatever the backend reported; and when neither [cutoff] nor
    [destination_count] is given, the all-pairs table does contain such a
    row as soon as the reported cost is positive, infinite or NaN. *)
Theorem identical_points_cost_zero (graph : Graph) (startpoints endpoints : list (PointRow G))
    (lines rowwise : bool) (cutoff destination_count : option Z) (s e : PointRow G) :
  List.NoDup (List.map temp_idx startpoints) ->
  List.NoDup (List.map temp_idx endpoints) ->
  In s startpoints -> In e endpoints ->
  geometry s = geometry e ->
  (forall r,
      In r (od_cost_matrix graph startpoints endpoints lines rowwise cutoff destination_count) ->
      origin r = temp_idx s -> destination r = temp_idx e -> cost r = zero)
  /\ (rowwise = false -> truthy cutoff = false -> truthy destination_count = false ->
      fgt (distances graph (temp_idx s) (temp_idx e)) zero
        || isna (distances graph (temp_idx s) (temp_idx e)) = true ->
      exists r,
        In r (od_cost_matrix graph startpoints endpoints lines rowwise cutoff destination_count)
        /\ origin r = temp_idx s /\ destination r = temp_idx e /\ cost r = zero).
Proof.
  intros Hsp Hep Hs He Hgeom.
  assert (Hrow : forall r0, origin r0 = temp_idx s -> destination r0 = temp_idx e ->
            cost (finish_row (wkt_dict startpoints) (wkt_dict endpoints) lines r0) = zero).
  { intros r0 Ho Hd. unfold finish_row. cbn [cost]. rewrite Ho, Hd.
    rewrite (wkt_dict_lookup startpoints s Hsp Hs), (wkt_dict_lookup endpoints e Hep He).
    rewrite Hgeom. now rewrite wkt_differ_same. }
  split.
  - intros r Hin Ho Hd. unfold od_cost_matrix in Hin.
    apply in_map_iff in Hin. destruct Hin as (r0 & <- & _).
    apply Hrow; assumption.
  - intros -> Hcut Hcount Hmask.
    set (c := distances graph (temp_idx s) (temp_idx e)) in *.
    set (r0 := set_cost (replace_inf c) (od_row (temp_idx s) (temp_idx e) c)).
    exists (finish_row (wkt_dict startpoints) (wkt_dict endpoints) lines r0).
    split; [|split; [reflexivity|split; [reflexivity|now apply Hrow]]].
    unfold od_cost_matrix. apply in_map.
    unfold apply_destination_count. rewrite Hcount.
    replace (apply_cutoff cutoff (tidy (raw_table graph startpoints endpoints false)))
      with (tidy (raw_table graph startpoints endpoints false))
      by (unfold apply_cutoff; destruct cutoff; [now rewrite Hcut|reflexivity]).
    unfold tidy.
    apply (in_map (fun r => set_cost (replace_inf (cost r)) r) _
                  (od_row (temp_idx s) (temp_idx e) c)).
    apply filter_In. split; [|exact Hmask].
    unfold raw_table. apply in_flat_map. exists s. split; [exact Hs|].
    apply (in_map (fun t => od_row (temp_idx s) (temp_idx t)
                              (distances graph (temp_idx s) (temp_idx t)))). exact He.
Qed.

(** C8, as amended.  With [destination_count=1] the table has exactly one
    row for every origin that has a destination at a usable cost (a
    positive number, below the cutoff if one is given) and no row for any
    other origin: the rows with a given origin are one or none; their
    number is that of the origins with a usable cost; and the row kept for
    an origin is one of least cost among its usable rows. *)
Theorem destination_count_keeps_cheapest (graph : Graph)
    (startpoints endpoints : list (PointRow G)) (lines rowwise : bool) (cutoff : option Z) :
  List.NoDup (List.map temp_idx startpoints) ->
  (forall key,
      List.length
        (List.filter (fun r => (origin r =? key)%nat)
           (od_cost_matrix graph startpoints endpoints lines rowwise cutoff (Some 1%Z)))
      = if existsb (fun r => (origin r =? key)%nat && usable cutoff (cost r))
             (raw_table graph startpoints endpoints rowwise)
        then 1%nat else 0%nat)
  /\ List.length (od_cost_matrix graph startpoints endpoints lines rowwise cutoff (Some 1%Z))
     = List.length
         (List.filter
            (fun s => existsb (fun r => (origin r =? temp_idx s)%nat && usable cutoff (cost r))
                        (raw_table graph startpoints endpoints rowwise))
            startpoints)
  /\ forall r,
      In r (od_cost_matrix graph startpoints endpoints lines rowwise cutoff (Some 1%Z)) ->
      exists c,
        In (od_row (origin r) (destination r) c)
           (raw_table graph startpoints endpoints rowwise)
        /\ usable cutoff c = true
        /\ forall r', In r' (raw_table graph startpoints endpoints rowwise) ->
             origin r' = origin r -> usable cutoff (cost r') = true ->
             fle c (cost r') = true.
Proof.
  intros Hnd.
  set (raw := raw_table graph startpoints endpoints rowwise).
  set (cands := List.filter (fun r => usable cutoff (cost r)) raw).
  assert (Hout : od_cost_matrix graph startpoints endpoints lines rowwise cutoff (Some 1%Z)
                 = List.map (finish_row (wkt_dict startpoints) (wkt_dict endpoints) lines)
                     (omap (fun key => idxmin (group key cands)) (group_keys cands))).
  { unfold od_cost_matrix, apply_destination_count. cbn [truthy Z.eqb negb].
    now rewrite candidates_are_usable. }
  rewrite Hout. split; [|split].
  - intros key.
    rewrite <- (length_map origin), <- (filter_map_swap (fun k => (k =? key)%nat) origin).
    rewrite map_map.
    erewrite map_ext; [|intros r; apply finish_row_origin].
    rewrite cheapest_of_every_group by (intros k Hk; now apply group_keys_spec).
    rewrite (count_in_distinct _ _ (group_keys_NoDup cands)), group_keys_existsb.
    subst cands. now rewrite existsb_filter.
  - rewrite length_map, (trimmed_length startpoints).
    + f_equal. apply filter_ext. intros s. apply existsb_filter.
    + exact Hnd.
    + intros r Hr. apply filter_In in Hr. destruct Hr as [Hr _].
      eapply raw_table_origin. exact Hr.
  - intros r Hr. apply in_map_iff in Hr. destruct Hr as (r0 & <- & Hr0).
    apply in_omap in Hr0. destruct Hr0 as (key & _ & Hmin).
    pose proof (idxmin_In _ _ Hmin) as Hin.
    unfold group in Hin. apply filter_In in Hin. destruct Hin as [Hin Hkey].
    apply filter_In in Hin. destruct Hin as [Hraw Husable].
    apply Nat.eqb_eq in Hkey.
    exists (cost r0). rewrite finish_row_origin, finish_row_destination.
    split; [|split; [exact Husable|]].
    + rewrite <- (raw_row_shape graph startpoints endpoints rowwise r0 Hraw). exact Hraw.
    + intros r' Hr' Ho Hu.
      assert (Hlt : flt (cost r') (cost r0) = false).
      { apply (idxmin_least _ _ Hmin). unfold group.
        apply filter_In. split; [apply filter_In; auto|].
        apply Nat.eqb_eq. congruence. }
      destruct (usable_is_number _ _ Husable) as [q Eq].
      destruct (usable_is_number _ _ Hu) as [q' Eq'].
      rewrite Eq, Eq' in *. now apply flt_false_fle.
Qed.

End Facts.

Import OdSamples.

Ltac distinct_ids :=
  simpl; repeat constructor; simpl; intuition (try discriminate; try lia).

Lemma identical_points_cost_zero_witness :
  (forall r,
      In r (od_cost_matrix flat_graph two_origins two_destinations false false None None) ->
      origin r = 10%nat -> destination r = 12%nat -> cost r = zero)
  /\ exists r,
      In r (od_cost_matrix flat_graph two_origins two_destinations false false None None)
      /\ origin r = 10%nat /\ destination r = 12%nat /\ cost r = zero.
Proof.
  destruct (identical_points_cost_zero flat_graph two_origins two_destinations
              false false None None
              {| temp_idx := 10; geometry := "POINT (0 0)" |}
              {| temp_idx := 12; geometry := "POINT (0 0)" |})
    as [Hzero Hrow].
  - distinct_ids.
  - distinct_ids.
  - simpl. auto.
  - simpl. auto.
  - reflexivity.
  - split; [exact Hzero|].
    apply Hrow; reflexivity.
Defined.

(** C2, as stated, fails: the origin and the destination are the same
    point, the backend reports cost 0 for the pair, and the returned table
    has no row for it. *)
Lemma identical_pair_without_row :
  In {| temp_idx := 10; geometry := "POINT (0 0)" |} one_origin
  /\ In {| temp_idx := 12; geometry := "POINT (0 0)" |} one_destination
  /\ distances same_node_graph 10 12 = zero
  /\ od_cost_matrix same_node_graph one_origin one_destination false false None None = []
  /\ ~ (exists r,
         In r (od_cost_matrix same_node_graph one_origin one_destination
                 false false None None)
         /\ origin r = 10%nat /\ destination r = 12%nat /\ cost r = zero).
Proof.
  assert (E : od_cost_matrix same_node_graph one_origin one_destination
                false false None None = []) by (vm_compute; reflexivity).
  split; [|split; [|split; [|split]]].
  - simpl. auto.
  - simpl. auto.
  - reflexivity.
  - exact E.
  - rewrite E. intros (r & [] & _).
Qed.

Lemma destination_count_keeps_cheapest_witness :
  List.length (List.filter (fun r => (origin r =? 10)%nat)
                 (od_cost_matrix flat_graph two_origins two_destinations
                    false false None (Some 1%Z))) = 1%nat
  /\ List.length (List.filter (fun r => (origin r =? 11)%nat)
                    (od_cost_matrix flat_graph two_origins two_destinations
                       false false None (Some 1%Z))) = 1%nat
  /\ List.length (od_cost_matrix flat_graph two_origins two_destinations
                    false false None (Some 1%Z)) = 2%nat.
Proof.
  destruct (destination_count_keeps_cheapest flat_graph two_origins two_destinations
              false false None) as (Hone & Hlen & _).
  - distinct_ids.
  - split; [|split].
    + rewrite (Hone 10%nat). vm_compute. reflexivity.
    + rewrite (Hone 11%nat). vm_compute. reflexivity.
    + rewrite Hlen. vm_compute. reflexivity.
Defined.

(** C8, as stated, fails: the only cost of the origin is 0, not NaN, and
    with [destination_count=1] the origin has no row. *)
Lemma zero_cost_origin_without_row :
  List.map (fun e => replace_inf (distances same_node_graph 10 (temp_idx e))) one_destination
    = [zero]
  /\ List.length
       (List.filter
          (fun s => negb (forallb
                            (fun e => isna (replace_inf
                                              (distances same_node_graph (temp_idx s) (temp_idx e))))
                            one_destination))
          one_origin) = 1%nat
  /\ List.length (od_cost_matrix same_node_graph one_origin one_destination
                    false false None (Some 1%Z)) = 0%nat.
Proof. repeat split; vm_compute; reflexivity. Qed.

End OdCostMatrixFacts.

(** ** gis_utils/directednetwork.py *)

Module DirectedNetworkFacts.
Import DirectedNetwork ListFacts.

Lemma reverse_involutive (g : LineString) : reverse (reverse g) = g.
Proof. apply rev_involutive. Qed.

Lemma geoms_loc_drop (c v : string) (fr : Frame) :
  geoms (loc (direction_is v) (drop_column c fr))
  = List.map geometry (List.filter (direction_is v) (rows fr)).
Proof.
  unfold geoms, loc, drop_column. cbn [rows with_rows].
  rewrite filter_map_swap, map_map. reflexivity.
Qed.

Lemma geoms_rename (old new : string) (fr : Frame) : geoms (rename old new fr) = geoms fr.
Proof. unfold geoms, rename. cbn [rows]. now rewrite map_map. Qed.

Lemma geoms_reverse (fr : Frame) : geoms (reverse_geometry fr) = List.map reverse (geoms fr).
Proof. unfold geoms, reverse_geometry. cbn [rows with_rows]. now rewrite !map_map. Qed.

Lemma geoms_concat4 (crs : option string) (a b c d : Frame) :
  geoms (gdf_concat crs [a; b; c; d]) = geoms a ++ geoms b ++ geoms c ++ geoms d.
Proof.
  unfold geoms, gdf_concat. cbn [rows List.map concat].
  now rewrite !map_app, app_nil_r.
Qed.

Lemma has_column_union (c : string) (acc cols : list string) :
  existsb (String.eqb c)
    (acc ++ List.filter (fun c' => negb (existsb (String.eqb c') acc)) cols)
  = existsb (String.eqb c) acc || existsb (String.eqb c) cols.
Proof.
  rewrite existsb_app. destruct (existsb (String.eqb c) acc) eqn:E; [reflexivity|].
  simpl. induction cols as [|x t IH]; simpl; [reflexivity|].
  destruct (String.eqb c x) eqn:Ecx.
  - apply String.eqb_eq in Ecx. subst x. rewrite E. simpl.
    now rewrite String.eqb_refl.
  - destruct (existsb (String.eqb x) acc); simpl; [exact IH|].
    now rewrite Ecx.
Qed.

Lemma has_column_concat (c : string) (crs : option string) (parts : list Frame) :
  has_column c (gdf_concat crs parts) = existsb (has_column c) parts.
Proof.
  unfold has_column at 1, gdf_concat. cbn [columns].
  assert (Hgen : forall acc,
            existsb (String.eqb c)
              (fold_left (fun acc fr =>
                 acc ++ List.filter (fun c' => negb (existsb (String.eqb c') acc)) (columns fr))
                 parts acc)
            = existsb (String.eqb c) acc || existsb (has_column c) parts).
  { induction parts as [|fr t IH]; intros acc; simpl.
    - now rewrite orb_false_r.
    - rewrite IH, has_column_union. unfold has_column. now rewrite orb_assoc. }
  now rewrite Hgen.
Qed.

Section Facts.
Context `{Kernel}.

Lemma geoms_from_speed_col (speed_col : option string) (default_speed : option Float)
    (fr fr' : Frame) :
  from_speed_col speed_col default_speed fr = inr fr' -> geoms fr' = geoms fr.
Proof.
  unfold from_speed_col, geoms.
  destruct speed_col as [c|]; [|now intros [= <-]].
  destruct (str_truthy (Some c)); [|now intros [= <-]].
  destruct (negb (has_column c fr)); [discriminate|].
  destruct default_speed as [d|].
  - destruct (float_truthy (Some d)).
    + cbn [res_bind]. intros [= <-]. cbn [rows with_rows]. rewrite !map_map.
      apply map_ext. intros r. now destruct (is_missing_speed (cell c r)).
    + destruct (over_five_percent _ _); [discriminate|].
      cbn [res_bind]. intros [= <-]. cbn [rows]. now rewrite map_map.
  - destruct (over_five_percent _ _); [discriminate|].
    cbn [res_bind]. intros [= <-]. cbn [rows]. now rewrite map_map.
Qed.

Lemma has_minutes_from_speed_col (speed_col : option string) (default_speed : option Float)
    (fr fr' : Frame) :
  str_truthy speed_col = false ->
  from_speed_col speed_col default_speed fr = inr fr' -> fr' = fr.
Proof.
  unfold from_speed_col. intros Hs.
  destruct speed_col as [c|]; [rewrite Hs|]; now intros [= <-].
Qed.

Lemma geoms_from_flat_speed (flat_speed : option Z) (fr : Frame) :
  geoms (from_flat_speed flat_speed fr) = geoms fr.
Proof.
  unfold from_flat_speed, geoms.
  destruct flat_speed as [v|]; [|reflexivity].
  destruct (truthy (Some v)); [|reflexivity].
  cbn [rows]. now rewrite map_map.
Qed.

Lemma geoms_loc (v : string) (fr : Frame) :
  geoms (loc (direction_is v) fr) = List.map geometry (List.filter (direction_is v) (rows fr)).
Proof. reflexivity. Qed.

(** What a returning call has done: the frame [pre] of line 177 holds the
    built rows, and the result is [pre] after the minutes filter and the
    node ids. *)
Lemma make_directed_network_returns (self_gdf : Frame) (direction_col : string)
    (vals : list string) (minute_cols : MinuteCols) (speed_col : option string)
    (default_speed : option Float) (flat_speed : option Z) (reverse_tofrom : bool)
    (nw : Network) :
  make_directed_network self_gdf direction_col vals minute_cols speed_col default_speed
    flat_speed reverse_tofrom = inr nw ->
  exists b f t pre,
    vals = [b; f; t]
    /\ geoms pre = built b f t reverse_tofrom (rows self_gdf)
    /\ gdf nw = _make_node_ids (keep_nonnegative_minutes pre)
    /\ (mc_truthy minute_cols = false -> str_truthy speed_col = false ->
        truthy flat_speed = false ->
        has_column "minutes" pre = has_column "minutes" self_gdf).
Proof.
  unfold make_directed_network.
  destruct vals as [|b [|f [|t [|x vals]]]]; try discriminate.
  destruct (1 <? _)%nat; [discriminate|].
  destruct (negb (has_column direction_col self_gdf)); [discriminate|].
  destruct (negb (py_all _)); [discriminate|].
  set (gdf0 := if mc_truthy minute_cols then drop_column "minutes" self_gdf else self_gdf).
  assert (Hloc : forall v, geoms (loc (direction_is v) gdf0)
                           = List.map geometry (List.filter (direction_is v) (rows self_gdf))).
  { intros v. subst gdf0. destruct (mc_truthy minute_cols);
      [apply geoms_loc_drop|apply geoms_loc]. }
  assert (Hcrs : crs_unit gdf0 = crs_unit self_gdf)
    by (subst gdf0; now destruct (mc_truthy minute_cols)).
  intros Hrun.
  assert (Hparts : exists bw bw2 ft tf,
             geoms bw = geoms (loc (direction_is b) gdf0)
             /\ geoms bw2 = geoms (loc (direction_is b) gdf0)
             /\ geoms ft = geoms (loc (direction_is f) gdf0)
             /\ geoms tf = geoms (loc (direction_is t) gdf0)
             /\ (mc_truthy minute_cols = false ->
                 columns bw = columns self_gdf /\ columns bw2 = columns self_gdf
                 /\ columns ft = columns self_gdf /\ columns tf = columns self_gdf)
             /\ (let self_gdf := gdf_concat (crs_unit gdf0)
                                   [bw; reverse_geometry bw2; ft;
                                    if reverse_tofrom then reverse_geometry tf else tf] in
                 let* unit :=
                   match crs_unit self_gdf with
                   | Some u => inr u
                   | None => inl AttributeError
                   end in
                 if (truthy flat_speed || str_truthy speed_col) && negb (String.eqb unit "metre")
                 then inl ValueError
                 else
                 let* self_gdf := from_speed_col speed_col default_speed self_gdf in
                 let self_gdf := from_flat_speed flat_speed self_gdf in
                 let self_gdf := keep_nonnegative_minutes self_gdf in
                 let self_gdf := _make_node_ids self_gdf in
                 inr {| gdf := self_gdf;
                        _percent_bidirectional := _check_percent_bidirectional self_gdf |})
                = inr nw).
  { destruct (mc_truthy minute_cols) eqn:Emc.
    - destruct (minute_names minute_cols) as [e|[min_f min_t]]; [discriminate|].
      cbn [res_bind fst snd] in Hrun.
      exists (rename min_f "minutes" (loc (direction_is b) gdf0)),
             (rename min_t "minutes" (loc (direction_is b) gdf0)),
             (rename min_f "minutes" (loc (direction_is f) gdf0)),
             (rename min_t "minutes" (loc (direction_is t) gdf0)).
      do 4 (split; [apply geoms_rename|]).
      split; [discriminate|exact Hrun].
    - cbn [res_bind] in Hrun.
      exists (loc (direction_is b) gdf0), (loc (direction_is b) gdf0),
             (loc (direction_is f) gdf0), (loc (direction_is t) gdf0).
      do 4 (split; [reflexivity|]).
      split; [|exact Hrun].
      intros _. subst gdf0. now repeat split. }
  clear Hrun. destruct Hparts as (bw & bw2 & ft & tf & Hbw & Hbw2 & Hft & Htf & Hcols & Hrun).
  cbv zeta in Hrun.
  set (pre0 := gdf_concat (crs_unit gdf0)
                 [bw; reverse_geometry bw2; ft;
                  if reverse_tofrom then reverse_geometry tf else tf]) in *.
  destruct (crs_unit pre0) as [unit|]; [|discriminate].
  cbn [res_bind] in Hrun.
  destruct (_ && negb (String.eqb unit "metre")); [discriminate|].
  destruct (from_speed_col speed_col default_speed pre0) as [e|pre1] eqn:Espeed;
    [discriminate|].
  cbn [res_bind] in Hrun. injection Hrun as <-.
  exists b, f, t, (from_flat_speed flat_speed pre1).
  split; [reflexivity|]. split; [|split; [reflexivity|]].
  - rewrite geoms_from_flat_speed, (geoms_from_speed_col _ _ _ _ Espeed).
    subst pre0. rewrite geoms_concat4, geoms_reverse, Hbw, Hbw2, Hft, !Hloc.
    unfold built. do 3 f_equal.
    destruct reverse_tofrom; [rewrite geoms_reverse|]; now rewrite Htf, Hloc.
  - intros Emc Es Ef.
    rewrite (has_minutes_from_speed_col _ _ _ _ Es Espeed).
    unfold from_flat_speed. destruct flat_speed as [v|]; [rewrite Ef|].
    + subst pre0. rewrite has_column_concat. cbn [existsb].
      destruct (Hcols Emc) as (E1 & E2 & E3 & E4).
      unfold has_column at 1 2 3 4.
      replace (columns (reverse_geometry bw2)) with (columns bw2) by reflexivity.
      replace (columns (if reverse_tofrom then reverse_geometry tf else tf))
        with (columns tf) by (now destruct reverse_tofrom).
      rewrite E1, E2, E3, E4. unfold has_column.
      now destruct (existsb _ (columns self_gdf)).
    + subst pre0. rewrite has_column_concat. cbn [existsb].
      destruct (Hcols Emc) as (E1 & E2 & E3 & E4).
      unfold has_column at 1 2 3 4.
      replace (columns (reverse_geometry bw2)) with (columns bw2) by reflexivity.
      replace (columns (if reverse_tofrom then reverse_geometry tf else tf))
        with (columns tf) by (now destruct reverse_tofrom).
      rewrite E1, E2, E3, E4. unfold has_column.
      now destruct (existsb _ (columns self_gdf)).
Qed.

Lemma direction_is_exclusive (v w : string) (r : Row) :
  v <> w -> direction_is v r = true -> direction_is w r = false.
Proof.
  unfold direction_is. destruct (direction r) as [d|]; [|discriminate].
  intros Hne Hv. apply String.eqb_eq in Hv. subst d.
  now apply String.eqb_neq.
Qed.

(** The four blocks put together at line 177 hold, in another order, the
    copies of every row. *)
Lemma blocks_are_expansion {X : Type} (fwd bwd : Row -> X) (b f t : string) (rs : list Row) :
  b <> f -> b <> t -> f <> t ->
  Permutation
    (List.map fwd (List.filter (direction_is b) rs)
     ++ List.map bwd (List.filter (direction_is b) rs)
     ++ List.map fwd (List.filter (direction_is f) rs)
     ++ List.map bwd (List.filter (direction_is t) rs))
    (flat_map (fun r => if direction_is b r then [fwd r; bwd r]
                        else if direction_is f r then [fwd r]
                        else if direction_is t r then [bwd r]
                        else []) rs).
Proof.
  intros Hbf Hbt Hft.
  induction rs as [|r rs IH]; [constructor|].
  cbn [List.filter flat_map].
  destruct (direction_is b r) eqn:Eb.
  - rewrite (direction_is_exclusive b f r Hbf Eb), (direction_is_exclusive b t r Hbt Eb).
    cbn [List.map app]. constructor.
    etransitivity; [apply Permutation_sym, Permutation_middle|].
    now constructor.
  - destruct (direction_is f r) eqn:Ef.
    + rewrite (direction_is_exclusive f t r Hft Ef). cbn [List.map app].
      rewrite !app_assoc. etransitivity; [|apply Permutation_cons; [reflexivity|]].
      * rewrite <- app_assoc. rewrite (app_assoc _ _ (fwd r :: _)).
        apply Permutation_sym, Permutation_middle.
      * rewrite <- !app_assoc. rewrite !app_assoc in IH. rewrite <- !app_assoc in IH.
        exact IH.
    + destruct (direction_is t r) eqn:Et; cbn [List.map app]; [|exact IH].
      etransitivity; [|apply Permutation_cons; [reflexivity|exact IH]].
      rewrite !app_assoc. apply Permutation_sym, Permutation_middle.
Qed.

Lemma rows_concat4 (crs : option string) (a b c d : Frame) :
  rows (gdf_concat crs [a; b; c; d]) = rows a ++ rows b ++ rows c ++ rows d.
Proof. unfold gdf_concat. cbn [rows List.map concat]. now rewrite app_nil_r. Qed.

Lemma has_minutes_renamed (old : string) (fr : Frame) :
  has_column "minutes" fr = false ->
  has_column "minutes" (rename old "minutes" fr) = has_column old fr.
Proof.
  unfold has_column, rename. cbn [columns]. intros Hno.
  induction (columns fr) as [|c cols IH]; [reflexivity|].
  cbn [existsb List.map] in *. apply orb_false_iff in Hno. destruct Hno as [Hc Hcols].
  rewrite (IH Hcols). f_equal.
  destruct (String.eqb_spec c old) as [->|Hne].
  - now rewrite !String.eqb_refl.
  - rewrite Hc. symmetry. apply String.eqb_neq. congruence.
Qed.

Lemma no_minutes_after_drop (fr : Frame) :
  has_column "minutes" (drop_column "minutes" fr) = false.
Proof.
  unfold has_column, drop_column. cbn [columns].
  induction (columns fr) as [|c cols IH]; [reflexivity|].
  cbn [List.filter]. destruct (String.eqb_spec c "minutes") as [->|Hne]; cbn [negb]; [exact IH|].
  cbn [existsb]. rewrite IH, orb_false_r. apply String.eqb_neq. congruence.
Qed.

Lemma timed_renamed (old : string) (g : LineString) (d : option string) (r : Row) :
  cell "minutes"
    {| geometry := g; direction := d;
       cells := rename_cells old "minutes" (delete "minutes" (cells r)) |}
  = if String.eqb old "minutes" then NaN else cell old r.
Proof.
  unfold cell, rename_cells. cbn [cells].
  destruct (String.eqb_spec old "minutes") as [->|Hne].
  - rewrite lookup_delete_eq. now rewrite lookup_delete_eq.
  - rewrite lookup_delete_ne by congruence.
    destruct (cells r !! old) as [v|] eqn:E.
    + now rewrite lookup_insert_eq.
    + now rewrite lookup_delete_eq.
Qed.


Lemma renamed_part (name v : string) (fr : Frame) :
  rows (rename name "minutes" (loc (direction_is v) (drop_column "minutes" fr)))
  = List.map (fun r => {| geometry := geometry r; direction := direction r;
                          cells := rename_cells name "minutes"
                                     (delete "minutes" (cells r)) |})
      (List.filter (direction_is v) (rows fr)).
Proof.
  unfold rename, loc, drop_column. cbn [rows with_rows].
  rewrite filter_map_swap, map_map. reflexivity.
Qed.

Lemma rows_reversed (fr : Frame) :
  rows (reverse_geometry fr)
  = List.map (fun r => {| geometry := reverse (geometry r); direction := direction r;
                          cells := cells r |}) (rows fr).
Proof. reflexivity. Qed.

Lemma has_added_column (c : string) (fr : Frame) :
  existsb (String.eqb c) (add_column c fr) = true.
Proof.
  unfold add_column. destruct (has_column c fr) eqn:E; [exact E|].
  rewrite existsb_app. cbn. now rewrite String.eqb_refl, !orb_true_r.
Qed.

Lemma timed_set_cell (x : Float) (r : Row) :
  timed (set_cell "minutes" x r) = (geometry r, x).
Proof. unfold timed, cell, set_cell. cbn [geometry cells]. now rewrite lookup_insert_eq. Qed.

Lemma from_flat_speed_none (flat_speed : option Z) (fr : Frame) :
  truthy flat_speed = false -> from_flat_speed flat_speed fr = fr.
Proof.
  unfold from_flat_speed. intros Hf. destruct flat_speed as [v|]; [now rewrite Hf|reflexivity].
Qed.

Lemma at_most_one_source (a b c : bool) :
  (1 <? count_true [a; b; c])%nat = false ->
  (a = true -> b = false /\ c = false)
  /\ (b = true -> a = false /\ c = false)
  /\ (c = true -> a = false /\ b = false).
Proof. destruct a, b, c; cbn; intros; repeat split; congruence. Qed.

Lemma from_speed_col_none (speed_col : option string) (default_speed : option Float)
    (fr : Frame) :
  str_truthy speed_col = false -> from_speed_col speed_col default_speed fr = inr fr.
Proof.
  unfold from_speed_col. intros Hs. destruct speed_col as [c|]; [now rewrite Hs|reflexivity].
Qed.

Lemma from_speed_col_rows (c : string) (default_speed : option Float) (fr fr' : Frame) :
  str_truthy (Some c) = true ->
  from_speed_col (Some c) default_speed fr = inr fr' ->
  has_column "minutes" fr' = true
  /\ List.map timed (rows fr')
     = List.map (fun r => (geometry r,
                           minutes_from_speed (geometry r) (speed_of default_speed c r)))
         (rows fr).
Proof.
  intros Hs. unfold from_speed_col. rewrite Hs.
  destruct (negb (has_column c fr)); [discriminate|].
  assert (Hdone : forall fr0,
            List.map geometry (rows fr0) = List.map geometry (rows fr) ->
            List.map (cell c) (rows fr0) = List.map (speed_of default_speed c) (rows fr) ->
            @inr Exc Frame
                {| columns := add_column "minutes" fr0;
                   rows := List.map (fun r => set_cell "minutes"
                                      (minutes_from_speed (geometry r) (cell c r)) r)
                             (rows fr0);
                   crs_unit := crs_unit fr0 |} = inr fr' ->
            has_column "minutes" fr' = true
            /\ List.map timed (rows fr')
               = List.map (fun r => (geometry r,
                                     minutes_from_speed (geometry r)
                                       (speed_of default_speed c r)))
                   (rows fr)).
  { intros fr0 Hg Hc [= <-]. split; [apply has_added_column|].
    cbn [rows]. rewrite map_map.
    erewrite map_ext; [|intros r; apply timed_set_cell].
    revert Hg Hc. generalize (rows fr0). induction (rows fr) as [|r rs IH];
      intros [|r0 rs0]; try discriminate; [reflexivity|].
    cbn [List.map]. intros [= Hg Hgs] [= Hc Hcs].
    rewrite Hg, Hc. f_equal. now apply IH. }
  destruct default_speed as [d|].
  - destruct (float_truthy (Some d)) eqn:Ed.
    + cbn [res_bind]. apply Hdone; cbn [rows with_rows]; rewrite map_map;
        apply map_ext; intros r.
      * now destruct (is_missing_speed (cell c r)).
      * unfold speed_of. rewrite Ed. cbn [andb default].
        destruct (is_missing_speed (cell c r)); [|reflexivity].
        unfold cell, set_cell. cbn [cells]. now rewrite lookup_insert_eq.
    + destruct (over_five_percent _ _); [discriminate|].
      cbn [res_bind]. apply Hdone; [reflexivity|].
      apply map_ext. intros r. unfold speed_of. now rewrite Ed.
  - destruct (over_five_percent _ _); [discriminate|].
    cbn [res_bind]. apply Hdone; [reflexivity|].
    apply map_ext. intros r. reflexivity.
Qed.

(** What a returning call has built when the last filter runs: the frame
    [pre] holds, block by block, the copies of the rows with their
    minutes. *)
Lemma built_rows (self_gdf : Frame) (direction_col b f t : string)
    (minute_cols : MinuteCols) (speed_col : option string) (default_speed : option Float)
    (flat_speed : option Z) (min_f min_t : string) (nw : Network) :
  (mc_truthy minute_cols = true -> minute_names minute_cols = inr (min_f, min_t)) ->
  make_directed_network self_gdf direction_col [b; f; t] minute_cols speed_col default_speed
    flat_speed true = inr nw ->
  exists pre,
    gdf nw = _make_node_ids (keep_nonnegative_minutes pre)
    /\ has_column "minutes" pre
       = has_minutes minute_cols speed_col flat_speed min_f min_t self_gdf
    /\ List.map timed (rows pre)
       = List.map (forward_copy minute_cols speed_col default_speed flat_speed min_f)
           (List.filter (direction_is b) (rows self_gdf))
         ++ List.map (backward_copy minute_cols speed_col default_speed flat_speed min_t)
              (List.filter (direction_is b) (rows self_gdf))
         ++ List.map (forward_copy minute_cols speed_col default_speed flat_speed min_f)
              (List.filter (direction_is f) (rows self_gdf))
         ++ List.map (backward_copy minute_cols speed_col default_speed flat_speed min_t)
              (List.filter (direction_is t) (rows self_gdf)).
Proof.
  intros Hnames. unfold make_directed_network.
  destruct (1 <? _)%nat eqn:Eone; [discriminate|].
  apply at_most_one_source in Eone. destruct Eone as (Hmc & Hsp & Hfl).
  destruct (negb (has_column direction_col self_gdf)); [discriminate|].
  destruct (negb (py_all _)); [discriminate|].
  destruct (mc_truthy minute_cols) eqn:Emc.
  - destruct (Hmc eq_refl) as [Es Ef]. rewrite (Hnames eq_refl).
    cbn [res_bind fst snd].
    set (gdf0 := drop_column "minutes" self_gdf).
    set (pre := gdf_concat _ _).
    destruct (crs_unit pre) as [unit|]; [|discriminate]. cbn [res_bind].
    rewrite Es, Ef. cbn [orb andb].
    rewrite (from_speed_col_none _ _ _ Es). cbn [res_bind].
    rewrite (from_flat_speed_none _ _ Ef).
    intros [= <-]. exists pre. split; [reflexivity|]. split.
    + subst pre. rewrite has_column_concat. cbn [existsb].
      unfold has_minutes. rewrite Emc. fold gdf0.
      assert (Hpart : forall old v,
                has_column "minutes" (rename old "minutes" (loc (direction_is v) gdf0))
                = has_column old gdf0).
      { intros old v. rewrite has_minutes_renamed; [reflexivity|].
        apply no_minutes_after_drop. }
      assert (Hrev : forall fr, has_column "minutes" (reverse_geometry fr)
                                = has_column "minutes" fr) by reflexivity.
      rewrite !Hrev, !Hpart.
      destruct (has_column min_f gdf0), (has_column min_t gdf0); reflexivity.
    + subst pre. rewrite rows_concat4, !map_app. subst gdf0.
      rewrite !rows_reversed, !renamed_part, !map_map.
      unfold forward_copy, backward_copy, copy_minutes. rewrite Emc.
      f_equal; [|f_equal; [|f_equal]]; apply map_ext; intros r; unfold timed;
        cbn [geometry direction cells]; now rewrite timed_renamed.
  - cbn [res_bind].
    set (pre0 := gdf_concat _ _).
    assert (Hrows0 : rows pre0
              = List.filter (direction_is b) (rows self_gdf)
                ++ List.map (fun r => {| geometry := reverse (geometry r);
                                         direction := direction r; cells := cells r |})
                     (List.filter (direction_is b) (rows self_gdf))
                ++ List.filter (direction_is f) (rows self_gdf)
                ++ List.map (fun r => {| geometry := reverse (geometry r);
                                         direction := direction r; cells := cells r |})
                     (List.filter (direction_is t) (rows self_gdf))).
    { subst pre0. now rewrite rows_concat4, !rows_reversed. }
    assert (Hcols0 : has_column "minutes" pre0 = has_column "minutes" self_gdf).
    { subst pre0. rewrite has_column_concat. cbn [existsb].
      change (has_column "minutes" (reverse_geometry ?fr)) with (has_column "minutes" fr).
      change (has_column "minutes" (loc ?p self_gdf)) with (has_column "minutes" self_gdf).
      now destruct (has_column "minutes" self_gdf). }
    clearbody pre0.
    destruct (crs_unit pre0) as [unit|]; [|discriminate]. cbn [res_bind].
    destruct (_ && negb (String.eqb unit "metre")); [discriminate|].
    destruct (str_truthy speed_col) eqn:Es.
    + destruct (Hsp eq_refl) as [_ Ef].
      destruct speed_col as [c|]; [|discriminate].
      destruct (from_speed_col (Some c) default_speed pre0) as [e|pre1] eqn:Espeed;
        [discriminate|].
      cbn [res_bind]. rewrite (from_flat_speed_none _ _ Ef). intros [= <-].
      destruct (from_speed_col_rows _ _ _ _ Es Espeed) as [Hcol Hrows].
      exists pre1. split; [reflexivity|]. split.
      * unfold has_minutes. now rewrite Emc, Es.
      * rewrite Hrows, Hrows0, !map_app, !map_map.
        unfold forward_copy, backward_copy, copy_minutes. rewrite Emc, Es.
        reflexivity.
    + rewrite (from_speed_col_none _ _ _ Es). cbn [res_bind].
      destruct (truthy flat_speed) eqn:Ef.
      * destruct flat_speed as [v|]; [|discriminate].
        unfold from_flat_speed. rewrite Ef. intros [= <-].
        eexists. split; [reflexivity|]. split.
        -- unfold has_minutes, has_column. cbn [columns].
           now rewrite Emc, Es, Ef, has_added_column.
        -- cbn [rows]. rewrite Hrows0, !map_app, !map_map.
           unfold forward_copy, backward_copy, copy_minutes. rewrite Emc, Es, Ef.
           cbn [default].
           f_equal; [|f_equal; [|f_equal]]; apply map_ext; intros r;
             now rewrite timed_set_cell.
      * rewrite (from_flat_speed_none _ _ Ef). intros [= <-].
        exists pre0. split; [reflexivity|]. split.
        -- unfold has_minutes. now rewrite Emc, Es, Ef.
        -- rewrite Hrows0, !map_app, !map_map.
           unfold forward_copy, backward_copy, copy_minutes. rewrite Emc, Es, Ef.
           reflexivity.
Qed.
Lemma timed_copies_geometries (b f t : string) (minute_cols : MinuteCols)
    (speed_col : option string) (default_speed : option Float) (flat_speed : option Z)
    (min_f min_t : string) (r : Row) :
  List.map fst
    (spec_timed_copies b f t minute_cols speed_col default_speed flat_speed min_f min_t r)
  = spec_directed_copies b f t r.
Proof.
  unfold spec_timed_copies, spec_directed_copies.
  destruct (direction_is b r); [reflexivity|].
  destruct (direction_is f r); [reflexivity|].
  now destruct (direction_is t r).
Qed.

(** C5, as amended.  For pairwise different direction codes and
    [reverse_tofrom=True], a returning call gives each both-ways row its
    line and the reversed line (mutual reverses), each forward row its line
    unchanged and each backward row its reversed line; of these copies the
    output holds exactly the ones whose minutes are [>= 0] when the frame
    has a column 'minutes' at the end (a copy with negative or missing
    minutes is dropped), and all of them when it has none.  [min_f] and
    [min_t] are the names the method binds when [minute_cols] is given.
    The direction column is a column of its own, not the column 'minutes'
    that the method drops and fills, and the node ids of the base class
    are taken to leave the lines as they are. *)
Theorem directed_rows_follow_direction_codes (self_gdf : Frame) (direction_col b f t : string)
    (minute_cols : MinuteCols) (speed_col : option string) (default_speed : option Float)
    (flat_speed : option Z) (min_f min_t : string) (nw : Network) :
  (forall fr, List.map geometry (rows (_make_node_ids fr)) = List.map geometry (rows fr)) ->
  b <> f -> b <> t -> f <> t ->
  direction_col <> "minutes" ->
  (mc_truthy minute_cols = true -> minute_names minute_cols = inr (min_f, min_t)) ->
  make_directed_network self_gdf direction_col [b; f; t] minute_cols speed_col default_speed
    flat_speed true = inr nw ->
  (forall g : LineString, reverse (reverse g) = g)
  /\ (forall r,
        List.map fst
          (spec_timed_copies b f t minute_cols speed_col default_speed flat_speed
             min_f min_t r)
        = spec_directed_copies b f t r)
  /\ Permutation
       (List.map geometry (rows (gdf nw)))
       (List.map fst
          (List.filter (kept minute_cols speed_col flat_speed min_f min_t self_gdf)
             (flat_map
                (spec_timed_copies b f t minute_cols speed_col default_speed flat_speed
                   min_f min_t)
                (rows self_gdf))))
  /\ (has_minutes minute_cols speed_col flat_speed min_f min_t self_gdf = false ->
      Permutation (List.map geometry (rows (gdf nw)))
                  (flat_map (spec_directed_copies b f t) (rows self_gdf))).
Proof.
  intros Hnodes Hbf Hbt Hft _ Hnames Hrun.
  destruct (built_rows _ _ _ _ _ _ _ _ _ _ _ _ Hnames Hrun) as (pre & Hgdf & Hcol & Hrows).
  assert (Hout : Permutation
            (List.map geometry (rows (gdf nw)))
            (List.map fst
               (List.filter (kept minute_cols speed_col flat_speed min_f min_t self_gdf)
                  (flat_map
                     (spec_timed_copies b f t minute_cols speed_col default_speed
                        flat_speed min_f min_t)
                     (rows self_gdf))))).
  { rewrite Hgdf, Hnodes.
    assert (Hkeep : List.map geometry (rows (keep_nonnegative_minutes pre))
                    = List.map fst
                        (List.filter
                           (kept minute_cols speed_col flat_speed min_f min_t self_gdf)
                           (List.map timed (rows pre)))).
    { unfold keep_nonnegative_minutes, kept. rewrite Hcol.
      destruct (has_minutes _ _ _ _ _ _).
      - cbn [loc rows with_rows]. rewrite filter_map_swap, map_map. reflexivity.
      - rewrite filter_true, map_map. reflexivity. }
    rewrite Hkeep, Hrows.
    apply Permutation_map, Permutation_filter_bool.
    now apply blocks_are_expansion. }
  split; [exact reverse_involutive|].
  split; [apply timed_copies_geometries|].
  split; [exact Hout|].
  intros Hno. etransitivity; [exact Hout|].
  unfold kept. rewrite Hno, filter_true.
  assert (Egeom : forall rs,
            List.map fst
              (flat_map (spec_timed_copies b f t minute_cols speed_col default_speed
                           flat_speed min_f min_t) rs)
            = flat_map (spec_directed_copies b f t) rs).
  { induction rs as [|r rs IH]; [reflexivity|].
    cbn [flat_map]. now rewrite map_app, IH, timed_copies_geometries. }
  now rewrite Egeom.
Qed.


(** The test on the direction column looks at the column labels only. *)
Lemma direction_check_reads_labels (values : list string) (fr : Frame) :
  py_all (loc (isin values) fr) = forallb (fun c => negb (String.eqb c "")) (columns fr).
Proof. reflexivity. Qed.

End Facts.

Import DirectedSamples.

Lemma directed_rows_follow_direction_codes_witness :
  (exists nw,
      make_directed_network three_roads "oneway" ["B"; "FT"; "TF"]
        (MCSeq ["drivetime_fw"; "drivetime_bw"]) None None None true = inr nw
      /\ Permutation (List.map geometry (rows (gdf nw)))
                     [ [(0, 0); (1, 0)]; [(1, 0); (0, 0)];
                       [(1, 0); (2, 0)]; [(3, 0); (2, 0)] ]%Q)
  /\ (exists nw,
        make_directed_network road_closed_backwards "oneway" ["B"; "FT"; "TF"]
          (MCSeq ["drivetime_fw"; "drivetime_bw"]) None None None true = inr nw
        /\ Permutation (List.map geometry (rows (gdf nw))) [ [(0, 0); (1, 0)] ]%Q).
Proof.
  split.
  - destruct (make_directed_network three_roads "oneway" ["B"; "FT"; "TF"]
                (MCSeq ["drivetime_fw"; "drivetime_bw"]) None None None true)
      as [e|nw] eqn:E.
    + vm_compute in E. discriminate.
    + exists nw. split; [reflexivity|].
      destruct (directed_rows_follow_direction_codes three_roads "oneway" "B" "FT" "TF"
                  (MCSeq ["drivetime_fw"; "drivetime_bw"]) None None None
                  "drivetime_fw" "drivetime_bw" nw)
        as (_ & _ & Hkept & _); try discriminate.
      * intros fr. reflexivity.
      * intros _. reflexivity.
      * exact E.
      * exact Hkept.
  - destruct (make_directed_network road_closed_backwards "oneway" ["B"; "FT"; "TF"]
                (MCSeq ["drivetime_fw"; "drivetime_bw"]) None None None true)
      as [e|nw] eqn:E.
    + vm_compute in E. discriminate.
    + exists nw. split; [reflexivity|].
      destruct (directed_rows_follow_direction_codes road_closed_backwards "oneway"
                  "B" "FT" "TF" (MCSeq ["drivetime_fw"; "drivetime_bw"]) None None None
                  "drivetime_fw" "drivetime_bw" nw)
        as (_ & _ & Hkept & _); try discriminate.
      * intros fr. reflexivity.
      * intros _. reflexivity.
      * exact E.
      * exact Hkept.
Defined.

(** C5, as stated, fails: the only input row is coded both-ways, its
    backward minutes are negative, and the output has one row. *)
Lemma both_ways_row_with_one_copy :
  List.map direction (rows road_closed_backwards) = [Some "B"]
  /\ exists nw,
      make_directed_network road_closed_backwards "oneway" ["B"; "FT"; "TF"]
        (MCSeq ["drivetime_fw"; "drivetime_bw"]) None None None true = inr nw
      /\ List.map geometry (rows (gdf nw)) = [[(0, 0); (1, 0)]%Q].
Proof.
  split; [reflexivity|].
  destruct (make_directed_network road_closed_backwards "oneway" ["B"; "FT"; "TF"]
              (MCSeq ["drivetime_fw"; "drivetime_bw"]) None None None true)
    as [e|nw] eqn:E.
  - vm_compute in E. discriminate.
  - exists nw. split; [reflexivity|].
    assert (Hg : match make_directed_network road_closed_backwards "oneway"
                         ["B"; "FT"; "TF"] (MCSeq ["drivetime_fw"; "drivetime_bw"])
                         None None None true with
                 | inr n => List.map geometry (rows (gdf n))
                 | inl _ => []
                 end = [[(0, 0); (1, 0)]%Q]) by (vm_compute; reflexivity).
    now rewrite E in Hg.
Qed.

(** C3: a direction column with four distinct codes is not rejected; the
    rows with the fourth code are left out of the result. *)
Lemma stray_direction_code_not_rejected :
  List.map direction (rows roads_with_stray_code)
    = [Some "B"; Some "FT"; Some "TF"; Some "X"]
  /\ exists nw,
      make_directed_network roads_with_stray_code "oneway" ["B"; "FT"; "TF"]
        MCNone None None None true = inr nw
      /\ List.map direction (rows (gdf nw)) = [Some "B"; Some "B"; Some "FT"; Some "TF"].
Proof.
  split; [reflexivity|].
  destruct (make_directed_network roads_with_stray_code "oneway" ["B"; "FT"; "TF"]
              MCNone None None None true) as [e|nw] eqn:E.
  - vm_compute in E. discriminate.
  - exists nw. split; [reflexivity|].
    assert (Hd : match make_directed_network roads_with_stray_code "oneway"
                         ["B"; "FT"; "TF"] MCNone None None None true with
                 | inr n => List.map direction (rows (gdf n))
                 | inl _ => []
                 end = [Some "B"; Some "B"; Some "FT"; Some "TF"])
      by (vm_compute; reflexivity).
    now rewrite E in Hd.
Qed.


End DirectedNetworkFacts.

(** ** sgis/networkanalysis/networkanalysis.py *)

Module NetworkAnalysisFacts.
Import NetworkAnalysis ListFacts FloatFacts.

(** *** The graph *)

(** C9.  A graph that [_make_graph] returns has passed the check that its
    minimum edge weight is at least 0, and none of its edge weights is
    negative; with a negative weight among the edges no graph is
    returned. *)
Theorem graph_weights_not_negative (edges : list (nat * nat)) (weights : list Float)
    (edge_ids : list string) (directed : bool) (g : Graph) :
  _make_graph edges weights edge_ids directed = inr g ->
  es_weight g = weights
  /\ (exists m, py_min (es_weight g) = Some m /\ fge m zero = true)
  /\ forall w, In w (es_weight g) -> flt w zero = false.
Proof.
  unfold _make_graph.
  destruct (negb _); [discriminate|]. cbn [es_weight].
  destruct (py_min weights) as [m|] eqn:Emin; [|discriminate].
  destruct (fge m zero) eqn:Ege; [|discriminate].
  intros [= <-]. cbn [es_weight]. split; [reflexivity|]. split; [eauto|].
  intros w Hw. pose proof (py_min_below _ _ Emin w Hw) as Hlow.
  destruct (flt w zero) eqn:Eneg; [|reflexivity].
  rewrite <- Hlow. symmetry. apply (flt_fle_trans w zero m Eneg). exact Ege.
Qed.

Lemma graph_weights_not_negative_witness :
  exists g,
    _make_graph [(0, 1); (1, 2); (2, 0)]%nat [Fin 2; zero; Fin (1 # 2)] ["a"; "b"; "c"] false
      = inr g
    /\ es_weight g = [Fin 2; zero; Fin (1 # 2)]
    /\ flt (Fin (1 # 2)) zero = false.
Proof.
  destruct (_make_graph [(0, 1); (1, 2); (2, 0)]%nat [Fin 2; zero; Fin (1 # 2)]
              ["a"; "b"; "c"] false) as [e|g] eqn:E.
  - vm_compute in E. discriminate.
  - destruct (graph_weights_not_negative _ _ _ _ _ E) as (Hw & _ & Hall).
    exists g. split; [reflexivity|]. split; [exact Hw|].
    apply Hall. rewrite Hw. simpl. auto.
Defined.

(** The check lets a NaN weight through when it is not the first one: a
    NaN is never below the running minimum, and it is not negative. *)
Lemma nan_weight_passes_the_check :
  exists g, _make_graph [(0, 1); (1, 2)]%nat [Fin 1; NaN] ["a"; "b"] false = inr g.
Proof. eexists. vm_compute. reflexivity. Qed.

(** *** Splitting and unsplitting the lines *)

Lemma opt_nat_eqb_eq (a b : option nat) : opt_nat_eqb a b = true <-> a = b.
Proof.
  destruct a as [x|], b as [y|]; simpl; try (split; congruence).
  rewrite Nat.eqb_eq. split; congruence.
Qed.

Lemma number_rows_geometry (start : nat) (rows : list NetRow) :
  List.map geometry (number_rows start rows) = List.map geometry rows.
Proof. revert start. induction rows as [|r t IH]; intros start; simpl; [|rewrite IH]; reflexivity. Qed.

Lemma number_rows_idx (start : nat) (rows : list NetRow) :
  List.map temp_idx__ (number_rows start rows)
  = List.map Some (seq start (List.length rows)).
Proof. revert start. induction rows as [|r t IH]; intros start; simpl; [|rewrite IH]; reflexivity. Qed.

Lemma number_rows_distinct (start : nat) (rows : list NetRow) :
  List.NoDup (List.map temp_idx__ (number_rows start rows)).
Proof.
  rewrite number_rows_idx. apply Finite.Injective_map_NoDup.
  - intros a b [= ->]. reflexivity.
  - apply seq_NoDup.
Qed.

Lemma shape_unsplitted_geometry (l1 l2 : list NetRow) :
  List.map shape l1 = List.map shape l2 ->
  List.map geometry (List.filter (fun r => negb (is_splitted r)) l1)
  = List.map geometry (List.filter (fun r => negb (is_splitted r)) l2).
Proof.
  revert l2. induction l1 as [|a t IH]; intros [|b u]; simpl; try discriminate; [reflexivity|].
  unfold shape at 1 3. intros [= Hg Hs Ht]. rewrite Hs.
  destruct (is_splitted b); simpl; [|rewrite Hg; f_equal]; now apply IH.
Qed.

(** The heart of the round trip: what [_unsplit_network] puts together
    from the result of a clean split has the geometries of the lines that
    went into the split. *)
Lemma unsplit_after_split (rows out : list NetRow) (cut : NetRow -> bool)
    (pieces : list NetRow) :
  List.NoDup (List.map temp_idx__ rows) ->
  Permutation out (List.filter (fun r => negb (cut r)) rows ++ pieces) ->
  (forall p, In p pieces ->
     is_splitted p = true
     /\ exists r, In r rows /\ cut r = true /\ temp_idx__ p = temp_idx__ r) ->
  (forall r, In r rows -> cut r = true ->
     exists p, In p pieces /\ temp_idx__ p = temp_idx__ r) ->
  Permutation
    (List.map geometry (List.filter (fun r => negb (is_splitted r)) out)
     ++ List.map geometry
          (List.filter
             (fun r => existsb (opt_nat_eqb (temp_idx__ r))
                         (List.map temp_idx__ (List.filter is_splitted out)))
             rows))
    (List.map geometry rows).
Proof.
  intros Hnd Hout Hpieces Hcut.
  assert (Hsaved : forall r, In r rows ->
            existsb (opt_nat_eqb (temp_idx__ r))
              (List.map temp_idx__ (List.filter is_splitted out))
            = cut r || is_splitted r).
  { intros r Hr. apply eq_true_iff_eq. rewrite existsb_exists, orb_true_iff. split.
    - intros (i & Hi & E). apply opt_nat_eqb_eq in E. subst i.
      apply in_map_iff in Hi. destruct Hi as (x & Ex & Hx).
      apply filter_In in Hx. destruct Hx as [Hx Hflag].
      apply (Permutation_in _ Hout) in Hx. apply in_app_or in Hx.
      destruct Hx as [Hx|Hx].
      + apply filter_In in Hx. destruct Hx as [Hx _].
        right. now rewrite <- (distinct_keys_injective temp_idx__ rows x r Hnd Hx Hr Ex).
      + destruct (Hpieces x Hx) as (_ & r0 & Hr0 & Hc & E0).
        left. rewrite <- (distinct_keys_injective temp_idx__ rows r0 r Hnd Hr0 Hr); [exact Hc|].
        congruence.
    - intros [Hc|Hflag].
      + destruct (Hcut r Hr Hc) as (p0 & Hp0 & E0).
        exists (temp_idx__ p0). split; [|apply opt_nat_eqb_eq; congruence].
        apply in_map. apply filter_In. split; [|apply (Hpieces p0 Hp0)].
        apply (Permutation_in _ (Permutation_sym Hout)). apply in_or_app. now right.
      + destruct (cut r) eqn:Ec.
        * destruct (Hcut r Hr Ec) as (p0 & Hp0 & E0).
          exists (temp_idx__ p0). split; [|apply opt_nat_eqb_eq; congruence].
          apply in_map. apply filter_In. split; [|apply (Hpieces p0 Hp0)].
          apply (Permutation_in _ (Permutation_sym Hout)). apply in_or_app. now right.
        * exists (temp_idx__ r). split; [|now apply opt_nat_eqb_eq].
          apply in_map. apply filter_In. split; [|exact Hflag].
          apply (Permutation_in _ (Permutation_sym Hout)). apply in_or_app. left.
          apply filter_In. split; [exact Hr|]. now rewrite Ec. }
  rewrite (filter_ext_in _ (fun r => cut r || is_splitted r) rows Hsaved).
  assert (Hkept : Permutation (List.filter (fun r => negb (is_splitted r)) out)
                    (List.filter (fun r => negb (cut r || is_splitted r)) rows)).
  { etransitivity; [apply Permutation_filter_bool, Hout|].
    rewrite List.filter_app, (filter_none _ pieces), app_nil_r.
    - rewrite filter_twice. erewrite filter_ext; [reflexivity|].
      intros r. cbv beta. now destruct (cut r), (is_splitted r).
    - intros x Hx. destruct (Hpieces x Hx) as [-> _]. reflexivity. }
  rewrite (Permutation_map geometry Hkept), <- map_app.
  apply Permutation_map.
  etransitivity; [apply Permutation_app_comm|].
  apply (filter_split_perm (fun r => cut r || is_splitted r)).
Qed.

(** *** Running the methods *)

Lemma bind_inv {A B : Type} (c : M A) (f : A -> M B) (na na2 : NA) (b : B) :
  bind c f na = (inr b, na2) ->
  exists a na1, c na = (inr a, na1) /\ f a na1 = (inr b, na2).
Proof. unfold bind. destruct (c na) as [[e|a] na1]; [discriminate|eauto]. Qed.

Lemma ret_inv {A : Type} (a b : A) (na na' : NA) :
  ret a na = (inr b, na') -> b = a /\ na' = na.
Proof. unfold ret. intros [= -> ->]. auto. Qed.

Lemma get_inv (na na' a : NA) : get na = (inr a, na') -> a = na /\ na' = na.
Proof. unfold get. intros [= -> ->]. auto. Qed.

Lemma put_inv (x na na' : NA) (u : unit) : put x na = (inr u, na') -> na' = x.
Proof. unfold put. intros [= _ ->]. auto. Qed.

Lemma modify_inv (f : NA -> NA) (na na' : NA) (u : unit) :
  modify f na = (inr u, na') -> na' = f na.
Proof. unfold modify. intros [= _ ->]. auto. Qed.

Lemma lift_inv {A : Type} (r : Res A) (na na' : NA) (a : A) :
  lift r na = (inr a, na') -> r = inr a /\ na' = na.
Proof. unfold lift. intros [= -> ->]. auto. Qed.

Lemma attr_inv {A : Type} (o : option A) (na na' : NA) (a : A) :
  attr o na = (inr a, na') -> o = Some a /\ na' = na.
Proof. destruct o as [x|]; simpl; [|discriminate]. unfold ret. intros [= -> ->]. auto. Qed.

Lemma raise_inv {A : Type} (e : Exc) (na na' : NA) (a : A) :
  raise e na = (inr a, na') -> False.
Proof. discriminate. Qed.

(** One step of a returning run. *)
Ltac run_step H :=
  lazymatch type of H with
  | bind _ _ _ = (inr _, _) =>
      let a := fresh "a" in
      let na := fresh "na" in
      let Hs := fresh "Hstep" in
      apply bind_inv in H; destruct H as (a & na & Hs & H)
  | ret _ _ = (inr _, _) => apply ret_inv in H; destruct H as [? ?]; subst
  | get _ = (inr _, _) => apply get_inv in H; destruct H as [? ?]; subst
  | put _ _ = (inr _, _) => apply put_inv in H; subst
  | modify _ _ = (inr _, _) => apply modify_inv in H; subst
  | lift _ _ = (inr _, _) => apply lift_inv in H; destruct H as [H ?]; subst
  | attr _ _ = (inr _, _) => apply attr_inv in H; destruct H as [H ?]; subst
  | raise _ _ = (inr _, _) => destruct (raise_inv _ _ _ _ H)
  end.

(** All steps of the returning runs among the hypotheses. *)
Ltac run_all :=
  repeat match goal with
         | H : _ = (inr _, _) |- _ => run_step H
         | H : (match ?x with _ => _ end) _ = (inr _, _) |- _ => destruct x eqn:?
         | H : (if ?x then _ else _) _ = (inr _, _) |- _ => destruct x eqn:?
         | H : when ?b _ _ = (inr _, _) |- _ => unfold when in H
         end.

Lemma quiet_ret {A : Type} (a : A) : quiet (ret a).
Proof. intros na b na' Hrun. run_step Hrun. reflexivity. Qed.

Lemma quiet_bind {A B : Type} (c : M A) (f : A -> M B) :
  quiet c -> (forall a, quiet (f a)) -> quiet (bind c f).
Proof.
  intros Hc Hf na b na2 Hrun. run_step Hrun.
  rewrite (Hf _ _ _ _ Hrun). eapply Hc. eassumption.
Qed.

Lemma quiet_get : quiet get.
Proof. intros na b na' Hrun. run_step Hrun. reflexivity. Qed.

Lemma quiet_lift {A : Type} (r : Res A) : quiet (lift r).
Proof. intros na b na' Hrun. run_step Hrun. reflexivity. Qed.

Lemma quiet_attr {A : Type} (o : option A) : quiet (attr o).
Proof. intros na b na' Hrun. run_step Hrun. reflexivity. Qed.

Lemma quiet_raise {A : Type} (e : Exc) : quiet (@raise A e).
Proof. intros na b na' Hrun. run_step Hrun. Qed.

Lemma quiet_modify (f : NA -> NA) : (forall na, view (f na) = view na) -> quiet (modify f).
Proof. intros Hf na b na' Hrun. run_step Hrun. apply Hf. Qed.

Lemma quiet_when (b : bool) (c : M unit) : quiet c -> quiet (when b c).
Proof. intros Hc. destruct b; [exact Hc|apply quiet_ret]. Qed.

Create HintDb quiet.
#[local] Hint Resolve quiet_ret quiet_get quiet_lift quiet_attr quiet_raise quiet_when : quiet.

Ltac quietly :=
  repeat first
    [ apply quiet_bind; [|intros ?]
    | apply quiet_modify; intros ?; reflexivity
    | progress auto with quiet
    | match goal with
      | |- quiet (match ?x with _ => _ end) => destruct x
      | |- quiet (if ?x then _ else _) => destruct x
      end ].

Section Runs.
Context `{Collaborators}.

Lemma quiet_max_node_id : quiet max_node_id.
Proof. unfold max_node_id. quietly. Qed.

Lemma quiet_max_temp_idx : quiet max_temp_idx.
Proof. unfold max_temp_idx. quietly. Qed.

Lemma quiet_renumber_origins (start : nat) : quiet (renumber origins set_origins start).
Proof. intros na a na' Hrun. unfold renumber in Hrun. run_all. reflexivity. Qed.

Lemma quiet_renumber_destinations (start : nat) :
  quiet (renumber destinations set_destinations start).
Proof. intros na a na' Hrun. unfold renumber in Hrun. run_all. reflexivity. Qed.

Lemma quiet_add_missing_vertices : quiet _add_missing_vertices.
Proof.
  intros na a na' Hrun. unfold _add_missing_vertices in Hrun.
  run_all; reflexivity.
Qed.

Lemma quiet_update_wkts : quiet _update_wkts.
Proof. unfold _update_wkts. apply quiet_modify. intros na. reflexivity. Qed.

Lemma quiet_runlog (method : string) : quiet (_runlog method).
Proof. unfold _runlog. apply quiet_modify. intros na. reflexivity. Qed.

Ltac views :=
  repeat match goal with
         | H : max_node_id _ = (inr _, _) |- _ => apply quiet_max_node_id in H
         | H : max_temp_idx _ = (inr _, _) |- _ => apply quiet_max_temp_idx in H
         | H : renumber origins set_origins _ _ = (inr _, _) |- _ =>
             apply quiet_renumber_origins in H
         | H : renumber destinations set_destinations _ _ = (inr _, _) |- _ =>
             apply quiet_renumber_destinations in H
         | H : _add_missing_vertices _ = (inr _, _) |- _ =>
             apply quiet_add_missing_vertices in H
         | H : _update_wkts _ = (inr _, _) |- _ => apply quiet_update_wkts in H
         | H : _runlog _ _ = (inr _, _) |- _ => apply quiet_runlog in H
         end.

Ltac open_views :=
  unfold view in *;
  cbn [network rules _log gdf _not_splitted split_lines set_network set_rules set_origins
       set_destinations set_graph set_wkts set_log set_gdf set_not_splitted
       _update_rules] in *;
  repeat match goal with
         | H : (_, _, _, _) = (_, _, _, _) |- _ => injection H as ? ? ? ?
         end.

Lemma update_nodes_gdf (nw : Network) : gdf (_update_nodes_if nw) = gdf nw.
Proof. unfold _update_nodes_if. now destruct (_nodes_are_up_to_date nw). Qed.

Lemma update_nodes_saved (nw : Network) :
  _not_splitted (_update_nodes_if nw) = _not_splitted nw.
Proof. unfold _update_nodes_if. now destruct (_nodes_are_up_to_date nw). Qed.

Lemma graph_never_up_to_date (na : NA) : _graph_is_up_to_date na = false.
Proof.
  unfold _graph_is_up_to_date.
  destruct (graph na), (wkts na); try reflexivity.
  now destruct (_rules_have_changed (rules na)).
Qed.

Lemma split_state_shape (G0 : list LineString) (na na' : NA) :
  List.map shape (gdf (network na')) = List.map shape (gdf (network na)) ->
  _not_splitted (network na') = _not_splitted (network na) ->
  split_state G0 na -> split_state G0 na'.
Proof.
  intros Hshape Hsaved (saved & Hs & Hperm). exists saved.
  split; [congruence|]. now rewrite (shape_unsplitted_geometry _ _ Hshape).
Qed.

Lemma split_state_view (G0 : list LineString) (na na' : NA) :
  view na' = view na -> split_state G0 na -> split_state G0 na'.
Proof.
  unfold view. intros [= Hg Hs _ _]. apply split_state_shape; congruence.
Qed.

Lemma with_weight_shape (x : Float) (r : NetRow) : shape (with_weight x r) = shape r.
Proof. reflexivity. Qed.

Lemma split_lines_run (na na' : NA) (u : unit) :
  splits_cleanly split_lines_by_nearest_point ->
  _split_lines na = (inr u, na') ->
  split_state (List.map geometry (gdf (network na))) na'
  /\ split_lines (rules na') = split_lines (rules na) /\ _log na' = _log na.
Proof.
  intros Hclean Hrun. unfold _split_lines in Hrun. run_all.
  split; [|split; reflexivity].
  set (points := drop_duplicate_points _).
  set (rows := number_rows 0 (List.map _ (gdf (network na)))).
  destruct (Hclean rows points (search_tolerance (rules na)))
    as (cut & pieces & Hout & Hpieces & Hcut).
  eexists. split; [reflexivity|]. cbn [network gdf set_network set_gdf].
  rewrite filter_map_swap, map_map. cbn [geometry is_splitted with_weight].
  replace (List.map geometry (gdf (network na))) with (List.map geometry rows).
  - apply (unsplit_after_split rows _ cut pieces); try assumption.
    apply number_rows_distinct.
  - subst rows. rewrite number_rows_geometry, map_map. reflexivity.
Qed.

Lemma set_edge_ids_shape (ids : list string) (rows rows' : list NetRow) :
  set_edge_ids ids rows = inr rows' -> List.map shape rows' = List.map shape rows.
Proof.
  unfold set_edge_ids. destruct (Nat.eqb_spec (List.length ids) (List.length rows)) as [E|];
    [|discriminate].
  intros [= <-]. rewrite map_map. revert ids E.
  induction rows as [|r t IH]; intros [|i ids] E; simpl in *; try discriminate; [reflexivity|].
  f_equal. apply IH. lia.
Qed.

Lemma get_edges_and_weights_run (na na' : NA)
    (result : list (nat * nat) * list Float * list string) :
  splits_cleanly split_lines_by_nearest_point ->
  split_lines (rules na) = true ->
  _get_edges_and_weights na = (inr result, na') ->
  split_state (List.map geometry (gdf (network na))) na'
  /\ split_lines (rules na') = true /\ _log na' = _log na.
Proof.
  intros Hclean Hsplit Hrun. unfold _get_edges_and_weights in Hrun.
  run_all; views; try congruence.
  all: change (view (set_network (_make_node_ids (network ?x)) ?x)) with (view x) in *.
  all: match goal with
       | Hs : _split_lines _ = (inr _, ?n0),
         He : set_edge_ids _ (gdf (network ?n1)) = inr ?rows |- _ =>
           destruct (split_lines_run _ _ _ Hclean Hs) as (Hstate & Hr & Hl);
           assert (V : view n1 = view n0) by congruence;
           pose proof (set_edge_ids_shape _ _ _ He) as Hshape;
           pose proof (split_state_view _ _ _ V Hstate) as Hstate1;
           unfold view in V; injection V as _ _ Vs Vl
       end.
  all: split;
    [ eapply split_state_shape; [exact Hshape|reflexivity|exact Hstate1]
    | cbn [rules _log set_network]; split; congruence ].
Qed.

(** A returning [_prepare_network_analysis] under [split_lines] has
    validated the weights and left the network split. *)
Lemma prepare_run (origins_in : list (Label * Coord))
    (destinations_in : option (list (Label * Coord))) (rowwise : bool)
    (na na' : NA) (u : unit) :
  splits_cleanly split_lines_by_nearest_point ->
  split_lines (rules na) = true ->
  _prepare_network_analysis origins_in destinations_in rowwise na = (inr u, na') ->
  exists validated,
    _validate_weight (rules na) (gdf (network na)) = inr validated
    /\ split_state (List.map geometry validated) na'
    /\ split_lines (rules na') = true /\ _log na' = _log na.
Proof.
  intros Hclean Hsplit Hrun. unfold _prepare_network_analysis in Hrun.
  run_all; views;
    try match goal with
        | E : negb (_graph_is_up_to_date _) || _ = false |- _ =>
            rewrite graph_never_up_to_date in E; discriminate
        end;
    match goal with
    | Hv : _validate_weight _ _ = inr ?rows,
      Hg : _get_edges_and_weights ?x = (inr _, ?n2) |- _ =>
        exists rows; split; [exact Hv|];
        assert (Hx : split_lines (rules x) = true /\ gdf (network x) = rows
                     /\ _log x = _log na)
          by (open_views; rewrite ?update_nodes_gdf; repeat split; congruence);
        destruct Hx as (Hx1 & Hx2 & Hx3);
        destruct (get_edges_and_weights_run _ _ _ Hclean Hx1 Hg) as (Hstate & Hs & Hl);
        rewrite Hx2 in Hstate;
        assert (V : view n2 = view n2) by reflexivity;
        open_views;
        split; [|split; congruence];
        apply (split_state_shape _ n2); [cbn; congruence|cbn; congruence|exact Hstate]
    end.
Qed.

Lemma unsplit_run (G0 : list LineString) (na na' : NA) (u : unit) :
  split_state G0 na ->
  _unsplit_network na = (inr u, na') ->
  _not_splitted (network na') = None
  /\ Permutation (List.map geometry (gdf (network na'))) G0
  /\ split_lines (rules na') = split_lines (rules na) /\ _log na' = _log na.
Proof.
  intros (saved & Hsaved & Hperm) Hrun. unfold _unsplit_network in Hrun. run_all.
  cbn [network gdf _not_splitted set_network set_gdf set_not_splitted rules _log].
  split; [reflexivity|]. split; [|split; reflexivity].
  rewrite map_map. cbn [geometry with_temp_idx].
  assert (E : a0 = saved) by congruence. subst a0.
  rewrite map_app. exact Hperm.
Qed.

(** In a split network the cleanup always runs to its end. *)
Lemma unsplit_returns (G0 : list LineString) (na : NA) :
  split_state G0 na -> exists na', _unsplit_network na = (inr tt, na').
Proof.
  intros (saved & Hsaved & _). unfold _unsplit_network, bind, get, attr.
  rewrite Hsaved. unfold ret, put. eauto.
Qed.

Lemma restored_intro (na na' : NA) (validated : list NetRow) :
  _validate_weight (rules na) (gdf (network na)) = inr validated ->
  _not_splitted (network na') = None ->
  Permutation (List.map geometry (gdf (network na'))) (List.map geometry validated) ->
  lines_restored na na'.
Proof.
  intros Hv Hs Hp. exists validated. repeat split; try assumption.
  apply Permutation_length in Hp. now rewrite !length_map in Hp.
Qed.

(** The common end of a call that went through
    [_prepare_network_analysis]: the cleanup, then the log. *)
Lemma cleanup_run {A : Type} (na na1 na' : NA) (validated : list NetRow) (method : string)
    (r r' : A) :
  _validate_weight (rules na) (gdf (network na)) = inr validated ->
  split_state (List.map geometry validated) na1 ->
  split_lines (rules na1) = true ->
  (when (split_lines (rules na1)) _unsplit_network ;;;
   when (_log na1) (_runlog method) ;;; ret r) na1 = (inr r', na') ->
  lines_restored na na'.
Proof.
  intros Hv Hstate Hsplit Hrun. rewrite Hsplit in Hrun. cbn [when] in Hrun.
  run_step Hrun. destruct (unsplit_run _ _ _ _ Hstate Hstep) as (Hnone & Hperm & _).
  assert (V : view na' = view na0).
  { run_step Hrun. run_step Hrun. destruct (_log na1); cbn [when] in Hstep0.
    - now apply quiet_runlog in Hstep0.
    - now run_step Hstep0. }
  unfold view in V. injection V as Hg Hs _ _.
  apply (restored_intro na na' validated Hv); congruence.
Qed.

(** The first step of a returning run, resolved when it only reads. *)
Ltac run_head H :=
  let a := fresh "a" in
  let n := fresh "na" in
  let Hs := fresh "Hstep" in
  apply bind_inv in H; destruct H as (a & n & Hs & H);
  first [ run_step Hs | idtac ].

Ltac after_prepare Hclean Hsplit :=
  match goal with
  | Hp : _prepare_network_analysis _ _ _ _ = (inr _, _) |- _ =>
      let validated := fresh "validated" in
      let Hv := fresh "Hv" in
      let Hstate := fresh "Hstate" in
      let Hs := fresh "Hs" in
      let Hl := fresh "Hl" in
      destruct (prepare_run _ _ _ _ _ _ Hclean Hsplit Hp)
        as (validated & Hv & Hstate & Hs & Hl)
  end.

Section Calls.
Variable na : NA.
Hypothesis clean : splits_cleanly split_lines_by_nearest_point.
Hypothesis split_on : split_lines (rules na) = true.

Lemma od_cost_matrix_restores (o d : list (Label * Coord)) (rowwise lines : bool)
    (results : list ResultRow) (na' : NA) :
  od_cost_matrix o d rowwise lines na = (inr results, na') -> lines_restored na na'.
Proof.
  intros Hrun. unfold od_cost_matrix, finish_od in Hrun.
  do 9 run_head Hrun. after_prepare clean split_on.
  eapply cleanup_run; eassumption.
Qed.

Lemma get_route_restores (o d : list (Label * Coord)) (rowwise : bool)
    (results : list ResultRow) (na' : NA) :
  get_route o d rowwise na = (inr results, na') -> lines_restored na na'.
Proof.
  intros Hrun. unfold get_route, finish_od in Hrun.
  do 9 run_head Hrun. after_prepare clean split_on.
  eapply cleanup_run; eassumption.
Qed.

Lemma get_k_routes_restores (o d : list (Label * Coord)) (k_routes : nat)
    (drop_middle_percent : Z) (rowwise : bool) (results : list ResultRow) (na' : NA) :
  get_k_routes o d k_routes drop_middle_percent rowwise na = (inr results, na') ->
  lines_restored na na'.
Proof.
  intros Hrun. unfold get_k_routes, finish_od in Hrun.
  destruct (negb _); [run_step Hrun|].
  do 9 run_head Hrun. after_prepare clean split_on.
  eapply cleanup_run; eassumption.
Qed.

Lemma get_route_frequencies_restores (o d : list (Label * Coord))
    (weight_df : option WeightDf) (rowwise : bool) (results : list FrequencyRow) (na' : NA) :
  get_route_frequencies o d weight_df rowwise na = (inr results, na') ->
  lines_restored na na'.
Proof.
  intros Hrun. unfold get_route_frequencies in Hrun.
  run_head Hrun.
  assert (na0 = na) by (destruct weight_df; run_all; reflexivity). subst na0.
  do 6 run_head Hrun. after_prepare clean split_on.
  eapply cleanup_run; eassumption.
Qed.

Lemma service_area_with_restores (precice : bool) (o : list (Label * Coord))
    (breaks : list Float) (dissolve_ : bool) (results : list AreaRow) (na' : NA) :
  service_area_with precice o breaks dissolve_ na = (inr results, na') ->
  lines_restored na na'.
Proof.
  intros Hrun. unfold service_area_with in Hrun.
  do 5 run_head Hrun. after_prepare clean split_on.
  eapply cleanup_run; eassumption.
Qed.

End Calls.

(** C1, as amended.  With [rules.split_lines] set, every one of the six
    analysis calls that returns a result has undone the split before it
    returns: the saved lines are released, and the network holds as many
    lines, with the same geometries, as the call started to work with
    (the lines after the validation of the weights). *)
Theorem split_undone_when_call_returns (na : NA) :
  splits_cleanly split_lines_by_nearest_point ->
  split_lines (rules na) = true ->
  (forall o d rowwise lines results na',
      od_cost_matrix o d rowwise lines na = (inr results, na') -> lines_restored na na')
  /\ (forall o d rowwise results na',
         get_route o d rowwise na = (inr results, na') -> lines_restored na na')
  /\ (forall o d k_routes drop_middle_percent rowwise results na',
         get_k_routes o d k_routes drop_middle_percent rowwise na = (inr results, na') ->
         lines_restored na na')
  /\ (forall o d weight_df rowwise results na',
         get_route_frequencies o d weight_df rowwise na = (inr results, na') ->
         lines_restored na na')
  /\ (forall o breaks dissolve_ results na',
         service_area o breaks dissolve_ na = (inr results, na') -> lines_restored na na')
  /\ (forall o breaks dissolve_ results na',
         precice_service_area o breaks dissolve_ na = (inr results, na') ->
         lines_restored na na').
Proof.
  intros Hclean Hsplit. repeat split; intros.
  - eapply od_cost_matrix_restores; eassumption.
  - eapply get_route_restores; eassumption.
  - eapply get_k_routes_restores; eassumption.
  - eapply get_route_frequencies_restores; eassumption.
  - eapply (service_area_with_restores na Hclean Hsplit false); eassumption.
  - eapply (service_area_with_restores na Hclean Hsplit true); eassumption.
Qed.

(** When the routing raises after the preparation the call ends there:
    the cleanup is not reached and the network stays split. *)
Lemma get_route_raises_with_network_split (na na1 : NA) (o d : list (Label * Coord))
    (rowwise : bool) (g : Graph) (po pd : Points) (e : Exc) :
  splits_cleanly split_lines_by_nearest_point ->
  split_lines (rules na) = true ->
  _prepare_network_analysis o (Some d) rowwise na = (inr tt, na1) ->
  graph na1 = Some g -> origins na1 = Some po -> destinations na1 = Some pd ->
  _get_route g (points_gdf po) (points_gdf pd) (weight_col (rules na1))
    (gdf (network na1)) rowwise = inl e ->
  get_route o d rowwise na = (inl e, na1)
  /\ exists validated,
       _validate_weight (rules na) (gdf (network na)) = inr validated
       /\ split_state (List.map geometry validated) na1.
Proof.
  intros Hclean Hsplit Hprep Hg Ho Hd He. split.
  - unfold get_route, bind. rewrite Hprep. unfold get, attr.
    rewrite Hg, Ho, Hd. unfold ret, lift. now rewrite He.
  - destruct (prepare_run _ _ _ _ _ _ Hclean Hsplit Hprep) as (validated & Hv & Hstate & _).
    eauto.
Qed.


Lemma split_lines_returns (na : NA) (o : Points) :
  origins na = Some o -> exists na1, _split_lines na = (inr tt, na1).
Proof.
  intros Ho. unfold _split_lines, bind, get, attr. rewrite Ho. unfold ret, put. eauto.
Qed.

(** C6.  Splitting the lines for a call and then running the cleanup of
    [_unsplit_network] gives back the line set of before the split: the
    same number of lines and the same geometries. *)
Theorem split_then_unsplit_restores (na : NA) (o : Points) :
  splits_cleanly split_lines_by_nearest_point ->
  origins na = Some o ->
  exists na',
    (_split_lines ;;; _unsplit_network) na = (inr tt, na')
    /\ List.length (gdf (network na')) = List.length (gdf (network na))
    /\ Permutation (List.map geometry (gdf (network na')))
                   (List.map geometry (gdf (network na)))
    /\ _not_splitted (network na') = None.
Proof.
  intros Hclean Ho.
  destruct (split_lines_returns na o Ho) as (na1 & Hsplit).
  destruct (split_lines_run _ _ _ Hclean Hsplit) as (Hstate & _ & _).
  destruct (unsplit_returns _ _ Hstate) as (na' & Hunsplit).
  destruct (unsplit_run _ _ _ _ Hstate Hunsplit) as (Hnone & Hperm & _).
  exists na'. split; [|split; [|split; [exact Hperm|exact Hnone]]].
  - unfold bind. now rewrite Hsplit.
  - apply Permutation_length in Hperm. now rewrite !length_map in Hperm.
Qed.

End Runs.

(** *** Service areas *)

Lemma cell_eqb_sym (a b : IdCell) : cell_eqb a b = cell_eqb b a.
Proof.
  destruct a, b; simpl; try reflexivity; [apply Nat.eqb_sym|apply String.eqb_sym].
Qed.

Lemma cell_eqb_trans (a b c : IdCell) :
  cell_eqb a b = true -> cell_eqb b c = true -> cell_eqb a c = true.
Proof.
  destruct a, b, c; simpl; try discriminate.
  - rewrite !Nat.eqb_eq. congruence.
  - rewrite !String.eqb_eq. congruence.
Qed.

Lemma opt_cell_eqb_sym (a b : option IdCell) : opt_cell_eqb a b = opt_cell_eqb b a.
Proof. destruct a, b; simpl; try reflexivity. apply cell_eqb_sym. Qed.

Lemma opt_cell_eqb_trans (a b c : option IdCell) :
  opt_cell_eqb a b = true -> opt_cell_eqb b c = true -> opt_cell_eqb a c = true.
Proof. destruct a, b, c; simpl; try discriminate. apply cell_eqb_trans. Qed.

Lemma float_eqb_sym (a b : Float) : float_eqb a b = float_eqb b a.
Proof. unfold float_eqb. apply andb_comm. Qed.

Lemma float_eqb_trans (a b c : Float) :
  float_eqb a b = true -> float_eqb b c = true -> float_eqb a c = true.
Proof.
  unfold float_eqb. rewrite !andb_true_iff. intros [H1 H2] [H3 H4].
  split; eapply fle_trans; eassumption.
Qed.

Lemma float_eqb_nan (a : Float) : float_eqb a NaN = false.
Proof. now destruct a. Qed.

Lemma same_group_sym (a b : AreaRow) : same_group a b = same_group b a.
Proof. unfold same_group. now rewrite opt_cell_eqb_sym, float_eqb_sym. Qed.

Lemma same_group_trans (a b c : AreaRow) :
  same_group a b = true -> same_group b c = true -> same_group a c = true.
Proof.
  unfold same_group. rewrite !andb_true_iff. intros [H1 H2] [H3 H4].
  split; [eapply opt_cell_eqb_trans|eapply float_eqb_trans]; eassumption.
Qed.

Lemma same_group_has_key (x r : AreaRow) : same_group x r = true -> has_key r = true.
Proof.
  intros Hxr. unfold has_key. apply (same_group_trans r x r); [|exact Hxr].
  now rewrite same_group_sym.
Qed.

Lemma opt_cell_eqb_temp (t : nat) (c : option IdCell) :
  opt_cell_eqb (Some (TempId t)) c = bool_decide (c = Some (TempId t)).
Proof.
  apply eq_true_iff_eq. rewrite bool_decide_eq_true. split.
  - intros E. destruct c as [[n|l|]|]; simpl in E; try discriminate.
    apply Nat.eqb_eq in E. now subst.
  - intros ->. simpl. apply Nat.eqb_refl.
Qed.

Section Areas.
Context `{Collaborators}.

Lemma dissolve_count (x : AreaRow) (rows : list AreaRow) :
  List.length (List.filter (same_group x) (dissolve rows))
  = if existsb (same_group x) rows then 1%nat else 0%nat.
Proof.
  unfold dissolve. rewrite filter_map_swap, length_map.
  erewrite filter_ext; [|intros g; unfold same_group; cbn [area_origin area_cost];
                         reflexivity].
  fold (same_group x).
  rewrite (Permutation_length
             (Permutation_filter_bool (same_group x) _ _ (sort_by_Permutation _ _))).
  rewrite (nodup_by_count same_group same_group_sym same_group_trans).
  rewrite existsb_filter.
  replace (existsb (fun r => same_group x r && has_key r) rows)
    with (existsb (same_group x) rows); [reflexivity|].
  induction rows as [|r t IH]; simpl; [reflexivity|]. rewrite IH. f_equal.
  destruct (same_group x r) eqn:E; [|reflexivity].
  now rewrite (same_group_has_key x r E).
Qed.

Lemma dissolve_origin (rows : list AreaRow) (g : AreaRow) :
  In g (dissolve rows) -> exists r, In r rows /\ area_origin r = area_origin g.
Proof.
  unfold dissolve. intros Hg. apply in_map_iff in Hg. destruct Hg as (r & <- & Hr).
  apply (Permutation_in _ (sort_by_Permutation _ _)) in Hr.
  apply nodup_by_In, filter_In in Hr. exists r. tauto.
Qed.

Lemma missing_rows_of_origin (o : Points) (table : list AreaRow) (p : PointRecord) :
  List.NoDup (List.map temp_idx (points_gdf o)) ->
  In p (points_gdf o) ->
  (forall r, In r table -> area_origin r <> Some (TempId (temp_idx p))) ->
  List.filter (of_origin (temp_idx p)) (missing_rows o table) = [null_row (temp_idx p)].
Proof.
  unfold missing_rows. intros Hnd Hp Habsent.
  assert (Hmiss : negb (existsb (fun r => opt_cell_eqb (Some (TempId (temp_idx p)))
                                            (area_origin r)) table) = true).
  { apply negb_true_iff. apply not_true_is_false. intros Hex.
    apply existsb_exists in Hex. destruct Hex as (r & Hr & E).
    rewrite opt_cell_eqb_temp in E. apply bool_decide_eq_true in E.
    exact (Habsent r Hr E). }
  induction (points_gdf o) as [|q pts IH]; [destruct Hp|].
  cbn [List.map] in Hnd. inversion Hnd as [|? ? Hnot Hnd']; subst.
  assert (Hothers : forall pts', (forall q', In q' pts' -> temp_idx q' <> temp_idx p) ->
            List.filter (of_origin (temp_idx p))
              (List.map (fun p0 => {| area_origin := Some (TempId (temp_idx p0));
                                      area_cost := NaN; area_edge := None;
                                      area_geometry := None |})
                 (List.filter (fun p0 => negb (existsb
                                 (fun r => opt_cell_eqb (Some (TempId (temp_idx p0)))
                                             (area_origin r)) table)) pts')) = []).
  { intros pts' Hne. apply filter_none. intros r Hr.
    apply in_map_iff in Hr. destruct Hr as (q' & <- & Hq').
    apply filter_In in Hq'. destruct Hq' as [Hq' _].
    unfold of_origin. cbn [area_origin]. apply bool_decide_eq_false.
    intros [= E]. exact (Hne q' Hq' E). }
  destruct Hp as [->|Hp].
  - cbn [List.filter]. rewrite Hmiss. cbn [List.map List.filter].
    unfold of_origin at 1. cbn [area_origin].
    rewrite bool_decide_eq_true_2 by reflexivity.
    unfold null_row. f_equal. apply Hothers.
    intros q' Hq' E. apply Hnot. rewrite <- E. now apply in_map.
  - cbn [List.filter].
    assert (Hq : temp_idx q <> temp_idx p)
      by (intros E; apply Hnot; rewrite E; now apply in_map).
    destruct (negb (existsb (fun r => opt_cell_eqb (Some (TempId (temp_idx q)))
                                        (area_origin r)) table)); [|now apply IH].
    cbn [List.map List.filter]. unfold of_origin at 1. cbn [area_origin].
    rewrite bool_decide_eq_false_2 by congruence. now apply IH.
Qed.

(** What lines 1010-1026 make of a computed table that holds at least one
    geometry, whatever the collaborators are.  With [dissolve=True] an
    (origin, break) pair has a row exactly when one of its rows is left
    after [drop_duplicates] on (line, origin), and then one row; with
    [dissolve=False] the remaining lines are kept row by row; and an input
    origin that has no row in the computed table is given a single row with
    null geometry and NaN for the break, however many breaks were asked
    for. *)
Lemma service_area_rows (o : Points) (dissolve_ : bool) (results : list AreaRow) :
  all_geometry_isna results = false ->
  List.NoDup (List.map temp_idx (points_gdf o)) ->
  exists table,
    assemble_areas o dissolve_ false results = List.map (relabel (idx_dict o)) table
    /\ (dissolve_ = true ->
        forall x,
          List.length (List.filter (same_group x) table)
          = if existsb (same_group x) (nodup_by same_edge_and_origin results)
            then 1%nat else 0%nat)
    /\ (dissolve_ = false ->
        exists nulls,
          table = nodup_by same_edge_and_origin results ++ nulls
          /\ forall r, In r nulls -> area_geometry r = None)
    /\ (forall p, In p (points_gdf o) ->
          (forall r, In r results -> area_origin r <> Some (TempId (temp_idx p))) ->
          List.filter (of_origin (temp_idx p)) table = [null_row (temp_idx p)]).
Proof.
  intros Hsome Hnd.
  set (remaining := nodup_by same_edge_and_origin results).
  set (kept := if dissolve_ then dissolve remaining else remaining).
  exists (kept ++ missing_rows o kept).
  assert (Hkept : forall r, In r kept ->
            exists r0, In r0 results /\ area_origin r0 = area_origin r).
  { intros r Hr. subst kept. destruct dissolve_.
    - destruct (dissolve_origin _ _ Hr) as (r0 & Hr0 & E).
      exists r0. split; [|exact E]. eapply nodup_by_In. exact Hr0.
    - exists r. split; [|reflexivity]. eapply nodup_by_In. exact Hr. }
  split; [|split; [|split]].
  - unfold assemble_areas. rewrite Hsome. cbn [negb]. reflexivity.
  - intros -> x. subst kept. rewrite List.filter_app, length_app, dissolve_count.
    rewrite (filter_none (same_group x) (missing_rows o (dissolve remaining))); [simpl; lia|].
    intros r Hr. unfold missing_rows in Hr. apply in_map_iff in Hr.
    destruct Hr as (p & <- & _). unfold same_group. cbn [area_cost].
    now rewrite float_eqb_nan, andb_false_r.
  - intros ->. subst kept. exists (missing_rows o remaining). split; [reflexivity|].
    intros r Hr. unfold missing_rows in Hr. apply in_map_iff in Hr.
    now destruct Hr as (p & <- & _).
  - intros p Hp Habsent. rewrite List.filter_app.
    rewrite (filter_none (of_origin (temp_idx p)) kept).
    + apply missing_rows_of_origin; try assumption.
      intros r Hr E. destruct (Hkept r Hr) as (r0 & Hr0 & E0).
      apply (Habsent r0 Hr0). congruence.
    + intros r Hr. unfold of_origin. apply bool_decide_eq_false. intros E.
      destruct (Hkept r Hr) as (r0 & Hr0 & E0).
      apply (Habsent r0 Hr0). congruence.
Qed.

(** The keys of [drop_duplicates] leave out the break.  So, whatever the
    collaborators are: when every row that the computed table lists for an
    origin under some break repeats a line (or the missing line of a row
    without geometry) that the table has listed for this origin before,
    the dissolved result has no row for this origin and break. *)
Lemma repeated_lines_leave_no_row (o : Points) (results : list AreaRow) (x : AreaRow) :
  all_geometry_isna results = false ->
  (forall before r after,
      results = before ++ r :: after -> same_group x r = true ->
      exists r0, In r0 before /\ same_edge_and_origin r0 r = true) ->
  exists table,
    assemble_areas o true false results = List.map (relabel (idx_dict o)) table
    /\ List.filter (same_group x) table = [].
Proof.
  intros Hsome Hrepeats.
  set (remaining := nodup_by same_edge_and_origin results).
  exists (dissolve remaining ++ missing_rows o (dissolve remaining)).
  split.
  - unfold assemble_areas. rewrite Hsome. cbn [negb]. reflexivity.
  - rewrite List.filter_app.
    rewrite (filter_none (same_group x) (missing_rows o (dissolve remaining))).
    + rewrite app_nil_r. apply length_zero_iff_nil. rewrite dissolve_count.
      destruct (existsb (same_group x) remaining) eqn:Ex; [exfalso|reflexivity].
      apply existsb_exists in Ex. destruct Ex as (r & Hr & Hgroup).
      destruct (nodup_by_first _ _ _ Hr) as (before & after & Hsplit & Hfirst).
      destruct (Hrepeats before r after Hsplit Hgroup) as (r0 & Hr0 & Hsame).
      rewrite (Hfirst r0 Hr0) in Hsame. discriminate.
    + intros r Hr. unfold missing_rows in Hr. apply in_map_iff in Hr.
      destruct Hr as (p & <- & _). unfold same_group. cbn [area_cost].
      now rewrite float_eqb_nan, andb_false_r.
Qed.

(** When every computed geometry is null the table is handed back as it
    was computed: the ids are not mapped. *)
Lemma assemble_areas_all_null (o : Points) (dissolve_ drop_origin : bool)
    (results : list AreaRow) :
  all_geometry_isna results = true ->
  assemble_areas o dissolve_ drop_origin results = results.
Proof. intros Hnull. unfold assemble_areas. now rewrite Hnull. Qed.



End Areas.

Import NetworkSamples.

Lemma toy_split_is_clean : splits_cleanly toy_split.
Proof.
  intros rows points tolerance.
  exists (cut_here points), (flat_map pieces_of (List.filter (cut_here points) rows)).
  split; [reflexivity|]. split.
  - intros p Hp. apply in_flat_map in Hp. destruct Hp as (r & Hr & Hp).
    apply filter_In in Hr. destruct Hr as [Hr Hc].
    unfold pieces_of in Hp.
    destruct (geometry r) as [|a [|m [|b [|x g]]]]; try (destruct Hp; fail).
    destruct Hp as [<-|[<-|[]]]; (split; [reflexivity|exists r; auto]).
  - intros r Hr Hc.
    assert (Hpieces : exists p, In p (pieces_of r) /\ temp_idx__ p = temp_idx__ r).
    { unfold cut_here in Hc. unfold pieces_of.
      destruct (geometry r) as [|a [|m [|b [|x g]]]]; try discriminate.
      eexists. split; [left; reflexivity|reflexivity]. }
    destruct Hpieces as (p & Hp & E). exists p. split; [|exact E].
    apply in_flat_map. exists r. split; [|exact Hp].
    apply filter_In. auto.
Qed.

Lemma split_undone_when_call_returns_witness :
  exists results na',
    od_cost_matrix at_the_bend elsewhere false false fresh = (inr results, na')
    /\ lines_restored fresh na'.
Proof.
  destruct (od_cost_matrix at_the_bend elsewhere false false fresh)
    as [[e|results] na'] eqn:E.
  - vm_compute in E. discriminate.
  - exists results, na'. split; [reflexivity|].
    destruct (@split_undone_when_call_returns toy fresh toy_split_is_clean eq_refl)
      as (Hod & _).
    exact (Hod _ _ _ _ _ _ E).
Defined.

(** C1, as stated, fails: [get_route] splits the first street at the
    origin, the routing raises because the destination is out of reach,
    and the call ends with the network still split: three lines instead of
    two, and the saved line still held aside. *)
Lemma split_left_behind_when_routing_raises :
  split_lines (rules fresh) = true
  /\ List.map geometry (gdf (network fresh))
     = [[(0, 0); (1, 0); (2, 0)]; [(2, 0); (3, 0)]]%Q
  /\ fst (get_route at_the_bend far_away false fresh) = inl ValueError
  /\ List.map geometry (gdf (network (snd (get_route at_the_bend far_away false fresh))))
     = [[(2, 0); (3, 0)]; [(0, 0); (1, 0)]; [(1, 0); (2, 0)]]%Q
  /\ option_map (List.map geometry)
       (_not_splitted (network (snd (get_route at_the_bend far_away false fresh))))
     = Some [[(0, 0); (1, 0); (2, 0)]]%Q.
Proof. repeat split; vm_compute; reflexivity. Qed.

Lemma split_then_unsplit_restores_witness :
  exists na',
    (_split_lines ;;; _unsplit_network) fresh_with_origin = (inr tt, na')
    /\ List.length (gdf (network na')) = 2%nat
    /\ Permutation (List.map geometry (gdf (network na')))
                   [[(0, 0); (1, 0); (2, 0)]; [(2, 0); (3, 0)]]%Q
    /\ _not_splitted (network na') = None.
Proof.
  exact (@split_then_unsplit_restores toy fresh_with_origin (_make_temp_idx 3 at_the_bend)
           toy_split_is_clean eq_refl).
Defined.

Lemma distinct_temp_idx (start : nat) (pts : list (Label * Coord)) :
  List.NoDup (List.map temp_idx (points_gdf (_make_temp_idx start pts))).
Proof.
  unfold _make_temp_idx. cbn [points_gdf].
  replace (List.map temp_idx (assign_temp_idx start pts))
    with (seq start (List.length pts)); [apply seq_NoDup|].
  revert start. induction pts as [|p t IH]; intros start; simpl; [|rewrite <- IH]; reflexivity.
Qed.

(** C4: two origins, the second one out of reach of the network, two
    breaks and [dissolve=True].  Both lines of the network are within
    reach of the first origin at break 5, hence at break 10 too.  The
    result does not have a row for every origin and break: it has two rows
    instead of four, none of them for break 10, and it is the very table
    that the call returns for the single break 5. *)
Lemma second_break_leaves_no_row :
  List.map fst (at_the_bend ++ far_away) = ["a"; "far"]
  /\ fst (service_area (at_the_bend ++ far_away) [Fin 5; Fin 10] true fresh)
     = inr [ {| area_origin := Some (Index "a"); area_cost := Fin 5; area_edge := None;
                area_geometry := Some [[(0, 0); (1, 0)]; [(1, 0); (2, 0)]]%Q |};
             {| area_origin := Some (Index "far"); area_cost := Fin 5; area_edge := None;
                area_geometry := None |} ]
  /\ fst (service_area (at_the_bend ++ far_away) [Fin 5; Fin 10] true fresh)
     = fst (service_area (at_the_bend ++ far_away) [Fin 5] true fresh).
Proof. split; [|split]; vm_compute; reflexivity. Qed.

(** C7: the only origin is out of reach, every computed geometry is null,
    and the 'origin' column of the result holds the temporary id 3 instead
    of the caller's index label "far". *)
Lemma service_area_shows_temp_id :
  List.map fst far_away = ["far"]
  /\ fst (service_area far_away [Fin 5] true fresh)
     = inr [ {| area_origin := Some (TempId 3); area_cost := Fin 5;
                area_edge := None; area_geometry := None |} ].
Proof. split; vm_compute; reflexivity. Qed.

End NetworkAnalysisFacts.

(** ** gis_utils/od_cost_matrix.py, further facts *)

Module OdCostMatrixMore.
Import OdCostMatrix ListFacts FloatFacts SortFacts OdCostMatrixFacts.

Section Facts.
Context {G : Type} `{HasWkt G}.

Lemma tidy_costs (df : list ODRow) (r : ODRow) :
  In r (tidy df) -> cost r = NaN \/ exists q, cost r = Fin q /\ (0 < q)%Q.
Proof.
  unfold tidy. intros Hr. apply in_map_iff in Hr. destruct Hr as (r0 & <- & Hr0).
  apply filter_In in Hr0. destruct Hr0 as [_ Hmask]. unfold tidy_mask in Hmask.
  destruct r0 as [o d c ln]. cbn [cost set_cost] in *.
  destruct c as [| |q|]; cbn in *; try discriminate; auto.
  rewrite orb_false_r in Hmask.
  right. exists q. split; [reflexivity|]. now apply Qlt_bool_elim.
Qed.

Lemma apply_cutoff_In (cutoff : option Z) (out : list ODRow) (r : ODRow) :
  In r (apply_cutoff cutoff out) -> In r out /\ below_cutoff cutoff (cost r) = true.
Proof. rewrite apply_cutoff_filter. apply filter_In. Qed.

Lemma apply_destination_count_In (destination_count : option Z) (out : list ODRow)
    (r : ODRow) :
  In r (apply_destination_count destination_count out) -> In r out.
Proof.
  unfold apply_destination_count. destruct (truthy destination_count); [|auto].
  intros Hr. apply in_omap in Hr. destruct Hr as (key & _ & Hmin).
  apply idxmin_In in Hmin. unfold group in Hmin.
  apply filter_In in Hmin. destruct Hmin as [Hmin _].
  apply filter_In in Hmin. tauto.
Qed.

(** The rows of the result, traced back to the tidied table. *)
Lemma od_cost_matrix_In (graph : Graph) (startpoints endpoints : list (PointRow G))
    (lines rowwise : bool) (cutoff destination_count : option Z) (r : ODRow) :
  In r (od_cost_matrix graph startpoints endpoints lines rowwise cutoff destination_count) ->
  exists r0,
    In r0 (tidy (raw_table graph startpoints endpoints rowwise))
    /\ below_cutoff cutoff (cost r0) = true
    /\ r = finish_row (wkt_dict startpoints) (wkt_dict endpoints) lines r0.
Proof.
  unfold od_cost_matrix. intros Hr. apply in_map_iff in Hr. destruct Hr as (r0 & <- & Hr0).
  apply apply_destination_count_In, apply_cutoff_In in Hr0. exists r0. tauto.
Qed.

Lemma raw_table_cost (graph : Graph) (sp ep : list (PointRow G)) (rowwise : bool) (r : ODRow) :
  In r (raw_table graph sp ep rowwise) -> cost r = distances graph (origin r) (destination r).
Proof.
  unfold raw_table. destruct rowwise; intros Hin.
  - apply in_map_iff in Hin. now destruct Hin as (ft & <- & _).
  - apply in_flat_map in Hin. destruct Hin as (s & _ & Hr).
    apply in_map_iff in Hr. now destruct Hr as (e & <- & _).
Qed.

(** X1.  In the returned table a cost is NaN or a number that is not
    negative.  A row stands for a pair only if the backend reported a cost
    above zero, or NaN, for it: pairs reported at zero or below have no
    row.  The cost of the row is the reported one, with NaN for an infinite
    one, and then it is NaN or above zero; or else it is the zero that is
    forced because the two points have one and the same text. *)
Theorem costs_are_nan_or_not_negative (graph : Graph)
    (startpoints endpoints : list (PointRow G)) (lines rowwise : bool)
    (cutoff destination_count : option Z) :
  Forall (fun r =>
            let reported := distances graph (origin r) (destination r) in
            (cost r = NaN \/ exists q, cost r = Fin q /\ (0 <= q)%Q)
            /\ fgt reported zero || isna reported = true
            /\ (cost r = replace_inf reported
                /\ (cost r = NaN \/ exists q, cost r = Fin q /\ (0 < q)%Q)
                \/ cost r = zero
                   /\ exists text,
                        wkt_dict startpoints !! origin r = Some text
                        /\ wkt_dict endpoints !! destination r = Some text))
    (od_cost_matrix graph startpoints endpoints lines rowwise cutoff destination_count).
Proof.
  apply List.Forall_forall. intros r Hr.
  apply od_cost_matrix_In in Hr. destruct Hr as (r0 & Hr0 & _ & ->).
  pose proof (tidy_costs _ _ Hr0) as Htidy.
  unfold tidy in Hr0. apply in_map_iff in Hr0. destruct Hr0 as (r1 & <- & Hr1).
  apply filter_In in Hr1. destruct Hr1 as [Hraw Hmask].
  apply raw_table_cost in Hraw. unfold tidy_mask in Hmask. rewrite Hraw in Hmask.
  cbv zeta. unfold finish_row.
  cbn [cost origin destination set_cost] in *.
  split; [|split; [exact Hmask|]].
  - destruct (wkt_differ _ _).
    + destruct Htidy as [E|(q & E & Hq)]; [now left|].
      right. exists q. split; [exact E|]. now apply Qlt_le_weak.
    + right. exists 0%Q. split; [reflexivity|]. apply Qle_refl.
  - destruct (wkt_differ _ _) eqn:Ediff.
    + left. rewrite <- Hraw. split; [reflexivity|exact Htidy].
    + right. split; [reflexivity|].
      destruct (wkt_dict startpoints !! origin r1) as [a|]; [|discriminate].
      destruct (wkt_dict endpoints !! destination r1) as [b|]; [|discriminate].
      cbn in Ediff. apply negb_false_iff, String.eqb_eq in Ediff. subst b.
      exists a. split; reflexivity.
Qed.

(** X2.  With a cutoff every returned cost is a number below the cutoff: the
    pairs out of reach are left out, not reported as NaN. *)
Theorem cutoff_bounds_every_cost (graph : Graph)
    (startpoints endpoints : list (PointRow G)) (lines rowwise : bool)
    (cutoff : Z) (destination_count : option Z) :
  cutoff <> 0%Z ->
  Forall (fun r => flt (cost r) (of_int cutoff) = true)
    (od_cost_matrix graph startpoints endpoints lines rowwise (Some cutoff)
       destination_count).
Proof.
  intros Hcut. apply List.Forall_forall. intros r Hr.
  apply od_cost_matrix_In in Hr. destruct Hr as (r0 & Hr0 & Hbelow & ->).
  unfold below_cutoff in Hbelow. cbn [truthy] in Hbelow.
  destruct (Z.eqb_spec cutoff 0) as [E|_]; [contradiction|]. cbn [negb] in Hbelow.
  unfold finish_row. cbn [cost]. destruct (wkt_differ _ _); [exact Hbelow|].
  destruct (tidy_costs _ _ Hr0) as [E|(q & E & Hq)]; rewrite E in Hbelow.
  - discriminate.
  - apply (flt_trans zero (Fin q)); [|exact Hbelow].
    cbn. now apply Qlt_bool_intro.
Qed.

(** X26.  Whatever number is given as [destination_count], the table has at
    most one row for an origin: the number is only tested for being
    nonzero, and the one row kept is the cheapest. *)
Theorem destination_count_keeps_one_row (graph : Graph)
    (startpoints endpoints : list (PointRow G)) (lines rowwise : bool)
    (cutoff : option Z) (destination_count : Z) :
  destination_count <> 0%Z ->
  List.NoDup
    (List.map origin
       (od_cost_matrix graph startpoints endpoints lines rowwise cutoff
          (Some destination_count)))
  /\ od_cost_matrix graph startpoints endpoints lines rowwise cutoff (Some destination_count)
     = od_cost_matrix graph startpoints endpoints lines rowwise cutoff (Some 1%Z).
Proof.
  intros Hcount.
  assert (Htruthy : truthy (Some destination_count) = true).
  { cbn [truthy]. now destruct (Z.eqb_spec destination_count 0). }
  split.
  - unfold od_cost_matrix, apply_destination_count. rewrite Htruthy.
    rewrite map_map.
    erewrite map_ext; [|intros r; apply finish_row_origin].
    rewrite cheapest_of_every_group; [apply group_keys_NoDup|].
    intros key Hkey. now apply group_keys_spec.
  - unfold od_cost_matrix, apply_destination_count. now rewrite Htruthy.
Qed.

Lemma in_combine_lookup {X Y : Type} (l1 : list X) (l2 : list Y) (x : X) (y : Y) :
  In (x, y) (combine l1 l2) -> exists i, l1 !! i = Some x /\ l2 !! i = Some y.
Proof.
  revert l2. induction l1 as [|a l1 IH]; intros [|b l2] Hin; simpl in Hin; try contradiction.
  destruct Hin as [Hin|Hin].
  - injection Hin as -> ->. now exists 0%nat.
  - destruct (IH l2 Hin) as (i & H1 & H2). now exists (S i).
Qed.

(** X3.  With [rowwise] every row of the result pairs the origin and the
    destination that stand at one and the same position of the two point
    tables. *)
Theorem rowwise_pairs_by_position (graph : Graph)
    (startpoints endpoints : list (PointRow G)) (lines : bool)
    (cutoff destination_count : option Z) :
  Forall (fun r => exists i s e,
            startpoints !! i = Some s /\ endpoints !! i = Some e
            /\ origin r = temp_idx s /\ destination r = temp_idx e)
    (od_cost_matrix graph startpoints endpoints lines true cutoff destination_count).
Proof.
  apply List.Forall_forall. intros r Hr.
  apply od_cost_matrix_In in Hr. destruct Hr as (r0 & Hr0 & _ & ->).
  unfold tidy in Hr0. apply in_map_iff in Hr0. destruct Hr0 as (r1 & <- & Hr1).
  apply filter_In in Hr1. destruct Hr1 as [Hr1 _].
  unfold raw_table in Hr1. apply in_map_iff in Hr1. destruct Hr1 as ([s e] & <- & Hse).
  destruct (in_combine_lookup _ _ _ _ Hse) as (i & Hs & He).
  exists i, s, e. repeat split; assumption.
Qed.

(** X4.  Without cutoff and [destination_count], a pair of two different
    points whose cost the backend reports as positive, infinite or NaN has
    a row, and the row carries the reported cost, NaN standing for an
    infinite one. *)
Theorem reported_cost_is_handed_on (graph : Graph)
    (startpoints endpoints : list (PointRow G)) (lines : bool)
    (cutoff destination_count : option Z) (s e : PointRow G) :
  List.NoDup (List.map temp_idx startpoints) ->
  List.NoDup (List.map temp_idx endpoints) ->
  In s startpoints -> In e endpoints ->
  wkt (geometry s) <> wkt (geometry e) ->
  truthy cutoff = false -> truthy destination_count = false ->
  fgt (distances graph (temp_idx s) (temp_idx e)) zero
    || isna (distances graph (temp_idx s) (temp_idx e)) = true ->
  exists r,
    In r (od_cost_matrix graph startpoints endpoints lines false cutoff destination_count)
    /\ origin r = temp_idx s /\ destination r = temp_idx e
    /\ cost r = replace_inf (distances graph (temp_idx s) (temp_idx e)).
Proof.
  intros Hsp Hep Hs He Hgeom Hcut Hcount Hmask.
  set (c := distances graph (temp_idx s) (temp_idx e)) in *.
  set (r0 := set_cost (replace_inf c) (od_row (temp_idx s) (temp_idx e) c)).
  exists (finish_row (wkt_dict startpoints) (wkt_dict endpoints) lines r0).
  split; [|split; [reflexivity|split; [reflexivity|]]].
  - unfold od_cost_matrix. apply in_map.
    unfold apply_destination_count. rewrite Hcount.
    replace (apply_cutoff cutoff (tidy (raw_table graph startpoints endpoints false)))
      with (tidy (raw_table graph startpoints endpoints false))
      by (unfold apply_cutoff; destruct cutoff; [now rewrite Hcut|reflexivity]).
    unfold tidy.
    apply (in_map (fun r => set_cost (replace_inf (cost r)) r) _
                  (od_row (temp_idx s) (temp_idx e) c)).
    apply filter_In. split; [|exact Hmask].
    unfold raw_table. apply in_flat_map. exists s. split; [exact Hs|].
    apply (in_map (fun t => od_row (temp_idx s) (temp_idx t)
                              (distances graph (temp_idx s) (temp_idx t)))). exact He.
  - unfold finish_row. cbn [cost origin destination r0 set_cost od_row].
    rewrite (wkt_dict_lookup startpoints s Hsp Hs), (wkt_dict_lookup endpoints e Hep He).
    cbn [wkt_differ].
    destruct (String.eqb_spec (wkt (geometry s)) (wkt (geometry e))) as [E|_];
      [contradiction|reflexivity].
Qed.

End Facts.

Import OdSamples.

Lemma cutoff_bounds_every_cost_witness :
  Forall (fun r => flt (cost r) (of_int 3) = true)
    (od_cost_matrix flat_graph two_origins two_destinations false false (Some 3%Z) None).
Proof. apply cutoff_bounds_every_cost. lia. Defined.

Lemma reported_cost_is_handed_on_witness :
  exists r,
    In r (od_cost_matrix flat_graph two_origins two_destinations false false None None)
    /\ origin r = 11%nat /\ destination r = 12%nat /\ cost r = Fin (5 # 2).
Proof.
  apply (reported_cost_is_handed_on flat_graph two_origins two_destinations false None None
           {| temp_idx := 11; geometry := "POINT (3 0)" |}
           {| temp_idx := 12; geometry := "POINT (0 0)" |}).
  - distinct_ids.
  - distinct_ids.
  - simpl. auto.
  - simpl. auto.
  - discriminate.
  - reflexivity.
  - reflexivity.
  - reflexivity.
Defined.

Lemma destination_count_keeps_one_row_witness :
  List.NoDup
    (List.map origin
       (od_cost_matrix flat_graph two_origins two_destinations false false None (Some 3%Z))).
Proof.
  refine (proj1 (destination_count_keeps_one_row flat_graph two_origins two_destinations
                   false false None 3 _)).
  lia.
Defined.

End OdCostMatrixMore.

(** ** gis_utils/directednetwork.py, further facts *)

Module DirectedNetworkMore.
Import DirectedNetwork ListFacts FloatFacts DirectedNetworkFacts.

Section Facts.
Context `{Kernel}.


(** X6.  A column name given as a string is treated like a sequence of its
    characters: a name of one character serves both directions, and a name
    of two characters is taken apart, its first character naming the
    forward column and its second the backward column. *)
Theorem short_name_is_read_by_character (self_gdf : Frame) (direction_col : string)
    (direction_vals_bft : list string) (a b : Ascii.ascii) (speed_col : option string)
    (default_speed : option Float) (flat_speed : option Z) (reverse_tofrom : bool) :
  make_directed_network self_gdf direction_col direction_vals_bft
    (MCStr (String a EmptyString)) speed_col default_speed flat_speed reverse_tofrom
  = make_directed_network self_gdf direction_col direction_vals_bft
      (MCSeq [String a EmptyString; String a EmptyString]) speed_col default_speed
      flat_speed reverse_tofrom
  /\ make_directed_network self_gdf direction_col direction_vals_bft
       (MCStr (String a (String b EmptyString))) speed_col default_speed flat_speed
       reverse_tofrom
     = make_directed_network self_gdf direction_col direction_vals_bft
         (MCSeq [String a EmptyString; String b EmptyString]) speed_col default_speed
         flat_speed reverse_tofrom.
Proof. split; reflexivity. Qed.

(** X7.  Whenever the resulting network has a 'minutes' column, none of its
    rows holds negative or missing minutes there.  The node ids of the base
    class are taken to leave that column alone. *)
Theorem minutes_are_never_negative (self_gdf : Frame) (direction_col : string)
    (direction_vals_bft : list string) (minute_cols : MinuteCols)
    (speed_col : option string) (default_speed : option Float) (flat_speed : option Z)
    (reverse_tofrom : bool) (nw : Network) :
  (forall fr, List.map (cell "minutes") (rows (_make_node_ids fr))
              = List.map (cell "minutes") (rows fr)) ->
  (forall fr, has_column "minutes" (_make_node_ids fr) = has_column "minutes" fr) ->
  make_directed_network self_gdf direction_col direction_vals_bft minute_cols speed_col
    default_speed flat_speed reverse_tofrom = inr nw ->
  has_column "minutes" (gdf nw) = true ->
  Forall (fun x => fge x zero = true) (List.map (cell "minutes") (rows (gdf nw))).
Proof.
  intros Hcells Hcols Hrun Hmin.
  destruct (make_directed_network_returns _ _ _ _ _ _ _ _ _ Hrun)
    as (b & f & t & pre & _ & _ & Hgdf & _).
  rewrite Hgdf in *. rewrite Hcols in Hmin. rewrite Hcells.
  unfold keep_nonnegative_minutes in *.
  destruct (has_column "minutes" pre) eqn:E; [|congruence].
  cbn [loc rows with_rows]. apply List.Forall_forall. intros x Hx.
  apply in_map_iff in Hx. destruct Hx as (r & <- & Hr).
  apply filter_In in Hr. tauto.
Qed.

(** X8.  [make_directed_network_norway] with its own arguments returns a network
    exactly when the frame has an 'oneway' column, no empty column label
    and a coordinate reference system; nothing else is asked of the frame,
    not even the two drive time columns. *)
Theorem norway_returns_iff (self_gdf : Frame) :
  (exists nw, make_directed_network_norway self_gdf None None None = inr nw)
  <-> has_column "oneway" self_gdf = true /\ py_all self_gdf = true
      /\ crs_unit self_gdf <> None.
Proof.
  unfold make_directed_network_norway, make_directed_network. cbn [default].
  cbn [mc_truthy str_truthy truthy count_true List.length List.filter Nat.eqb negb Nat.ltb
       Nat.leb].
  replace (py_all (loc (isin ["B"; "FT"; "TF"]) self_gdf)) with (py_all self_gdf)
    by reflexivity.
  destruct (has_column "oneway" self_gdf); cbn [negb];
    [|split; [intros (nw & E); discriminate|intros (E & _); discriminate]].
  destruct (py_all self_gdf); cbn [negb];
    [|split; [intros (nw & E); discriminate|intros (_ & E & _); discriminate]].
  cbn [minute_names mc_len List.length Nat.ltb Nat.leb Nat.eqb res_bind fst snd].
  cbn [gdf_concat crs_unit drop_column].
  destruct (crs_unit self_gdf) as [u|]; cbn [res_bind andb orb from_speed_col];
    [|split; [intros (nw & E); discriminate|intros (_ & _ & E); now destruct E]].
  split; [intros _; repeat split; discriminate|intros _]. eauto.
Qed.

Lemma renamed_has_minutes (name : string) (v : string) (fr : Frame) :
  has_column name fr = false \/ name = "minutes" ->
  has_column "minutes" (rename name "minutes" (loc (direction_is v) (drop_column "minutes" fr)))
  = false.
Proof.
  intros Hname. unfold has_column, rename, loc, drop_column, with_rows. cbn [columns].
  apply not_true_is_false. intros Hex. apply existsb_exists in Hex.
  destruct Hex as (c & Hc & E). apply String.eqb_eq in E. subst c.
  apply in_map_iff in Hc. destruct Hc as (c & E & Hc).
  apply filter_In in Hc. destruct Hc as [Hc Hne].
  apply negb_true_iff, String.eqb_neq in Hne.
  destruct (String.eqb_spec c name) as [Ecn|Ecn]; [|congruence].
  destruct Hname as [Hno|Hmin]; [|congruence].
  unfold has_column in Hno. apply not_true_iff_false in Hno. apply Hno.
  apply existsb_exists. exists c. split; [exact Hc|]. apply String.eqb_eq. congruence.
Qed.

(** X9.  Minute columns that the frame does not have are passed over in
    silence: the call does not raise for them, its result has no 'minutes'
    column, also when the frame had one, and no line is dropped for its
    minutes. *)
Theorem missing_minute_columns_are_passed_over (self_gdf : Frame)
    (direction_col b f t min_f min_t : string) (default_speed : option Float)
    (reverse_tofrom : bool) (nw : Network) :
  (forall fr, geoms (_make_node_ids fr) = geoms fr) ->
  (forall fr, has_column "minutes" (_make_node_ids fr) = has_column "minutes" fr) ->
  has_column min_f self_gdf = false \/ min_f = "minutes" ->
  has_column min_t self_gdf = false \/ min_t = "minutes" ->
  make_directed_network self_gdf direction_col [b; f; t] (MCSeq [min_f; min_t]) None
    default_speed None reverse_tofrom = inr nw ->
  has_column "minutes" (gdf nw) = false
  /\ geoms (gdf nw) = built b f t reverse_tofrom (rows self_gdf).
Proof.
  intros Hgeoms Hcols Hf Ht. unfold make_directed_network.
  cbn [mc_truthy str_truthy truthy count_true List.length List.filter Nat.eqb negb Nat.ltb
       Nat.leb minute_names mc_len res_bind fst snd].
  destruct (negb (has_column direction_col self_gdf)); [discriminate|].
  destruct (negb (py_all _)); [discriminate|].
  set (gdf0 := drop_column "minutes" self_gdf).
  set (pre := gdf_concat _ _).
  destruct (crs_unit pre) as [unit|]; [|discriminate].
  cbn [res_bind andb orb from_speed_col from_flat_speed].
  assert (Hnone : has_column "minutes" pre = false).
  { subst pre. rewrite has_column_concat. cbn [existsb].
    replace (has_column "minutes" (reverse_geometry
               (rename min_t "minutes" (loc (direction_is b) gdf0))))
      with (has_column "minutes" (rename min_t "minutes" (loc (direction_is b) gdf0)))
      by reflexivity.
    replace (has_column "minutes"
               (if reverse_tofrom
                then reverse_geometry (rename min_t "minutes" (loc (direction_is t) gdf0))
                else rename min_t "minutes" (loc (direction_is t) gdf0)))
      with (has_column "minutes" (rename min_t "minutes" (loc (direction_is t) gdf0)))
      by (now destruct reverse_tofrom).
    subst gdf0. now rewrite !renamed_has_minutes. }
  unfold keep_nonnegative_minutes. rewrite Hnone. intros [= <-]. cbn [gdf].
  rewrite Hcols, Hgeoms. split; [exact Hnone|].
  subst pre. rewrite geoms_concat4, geoms_reverse, !geoms_rename. subst gdf0.
  rewrite !geoms_loc_drop. unfold built. do 3 f_equal.
  destruct reverse_tofrom; [rewrite geoms_reverse|]; now rewrite geoms_rename, geoms_loc_drop.
Qed.

End Facts.

Import DirectedSamples.


Lemma minutes_are_never_negative_witness :
  exists nw,
    make_directed_network three_roads "oneway" ["B"; "FT"; "TF"]
      (MCSeq ["drivetime_fw"; "drivetime_bw"]) None None None true = inr nw
    /\ Forall (fun x => fge x zero = true) (List.map (cell "minutes") (rows (gdf nw))).
Proof.
  destruct (make_directed_network three_roads "oneway" ["B"; "FT"; "TF"]
              (MCSeq ["drivetime_fw"; "drivetime_bw"]) None None None true)
    as [e|nw] eqn:E.
  - vm_compute in E. discriminate.
  - exists nw. split; [reflexivity|].
    apply (minutes_are_never_negative three_roads "oneway" ["B"; "FT"; "TF"]
             (MCSeq ["drivetime_fw"; "drivetime_bw"]) None None None true nw).
    + intros fr. reflexivity.
    + intros fr. reflexivity.
    + exact E.
    + assert (Hc : match make_directed_network three_roads "oneway" ["B"; "FT"; "TF"]
                           (MCSeq ["drivetime_fw"; "drivetime_bw"]) None None None true with
                   | inr n => has_column "minutes" (gdf n)
                   | inl _ => false
                   end = true) by (vm_compute; reflexivity).
      now rewrite E in Hc.
Defined.

Lemma missing_minute_columns_are_passed_over_witness :
  exists nw,
    make_directed_network three_roads "oneway" ["B"; "FT"; "TF"]
      (MCSeq ["minutes_fw"; "minutes_bw"]) None None None true = inr nw
    /\ has_column "minutes" (gdf nw) = false
    /\ geoms (gdf nw) = built "B" "FT" "TF" true (rows three_roads).
Proof.
  destruct (make_directed_network three_roads "oneway" ["B"; "FT"; "TF"]
              (MCSeq ["minutes_fw"; "minutes_bw"]) None None None true)
    as [e|nw] eqn:E.
  - vm_compute in E. discriminate.
  - exists nw. split; [reflexivity|].
    apply (missing_minute_columns_are_passed_over three_roads "oneway" "B" "FT" "TF"
             "minutes_fw" "minutes_bw" None true nw).
    + intros fr. reflexivity.
    + intros fr. reflexivity.
    + left. reflexivity.
    + left. reflexivity.
    + exact E.
Defined.

End DirectedNetworkMore.

(** ** sgis/geopandas_tools/general.py *)

Module GeneralFacts.
Import General ListFacts.

Section Facts.
Context {V : Type}.

Lemma others_when_last (g : string) (cols : list string) :
  ~ In g cols ->
  List.filter (fun c => negb (String.eqb c g)) (cols ++ [g]) = cols.
Proof.
  intros Hnot. rewrite List.filter_app. cbn [List.filter].
  rewrite String.eqb_refl. cbn [negb]. rewrite app_nil_r.
  induction cols as [|c cols IH]; [reflexivity|]. cbn [List.filter].
  destruct (String.eqb_spec c g) as [->|_]; [destruct Hnot; now left|].
  cbn [negb]. f_equal. apply IH. intros Hin. apply Hnot. now right.
Qed.

Lemma others_without (g : string) (cols : list string) :
  ~ In g (List.filter (fun c => negb (String.eqb c g)) cols).
Proof.
  intros Hin. apply filter_In in Hin. destruct Hin as [_ E].
  now rewrite String.eqb_refl in E.
Qed.

Lemma pushed_is_permutation (g : string) (cols : list string) :
  List.NoDup cols -> In g cols ->
  Permutation (List.filter (fun c => negb (String.eqb c g)) cols ++ [g]) cols.
Proof.
  intros Hnd Hin.
  etransitivity; [|apply (filter_split_perm (fun c => negb (String.eqb c g)))].
  apply Permutation_app_head.
  induction cols as [|c cols IH]; [destruct Hin|].
  inversion Hnd as [|? ? Hnot Hnd']; subst. cbn [List.filter].
  destruct (String.eqb_spec c g) as [->|Hne]; cbn [negb].
  - rewrite filter_none; [reflexivity|].
    intros x Hx. destruct (String.eqb_spec x g) as [->|_]; [contradiction|reflexivity].
  - apply IH; [exact Hnd'|]. destruct Hin as [E|Hin]; [contradiction|exact Hin].
Qed.

(** X10.  [_push_geom_col] on a frame with distinct column labels, its geometry
    column among them: the call returns; the frame it returns has the same
    columns with the geometry column last and the other columns in the
    order they had; no cell of these columns changes; and pushing once more
    changes nothing. *)
Theorem geometry_column_is_pushed_last (gdf : GeoDataFrame V) :
  List.NoDup (columns gdf) ->
  In (_geometry_column_name gdf) (columns gdf) ->
  exists pushed,
    _push_geom_col gdf = inr pushed
    /\ last (columns pushed) = Some (_geometry_column_name gdf)
    /\ Permutation (columns pushed) (columns gdf)
    /\ List.filter (fun c => negb (String.eqb c (_geometry_column_name gdf))) (columns pushed)
       = List.filter (fun c => negb (String.eqb c (_geometry_column_name gdf))) (columns gdf)
    /\ List.length (rows pushed) = List.length (rows gdf)
    /\ (forall i row row' c,
          rows gdf !! i = Some row -> rows pushed !! i = Some row' -> In c (columns gdf) ->
          row' !! c = row !! c)
    /\ _push_geom_col pushed = inr pushed.
Proof.
  intros Hnd Hin. set (g := _geometry_column_name gdf).
  set (labels := List.filter (fun c => negb (String.eqb c g)) (columns gdf) ++ [g]).
  assert (Hperm : Permutation labels (columns gdf)) by now apply pushed_is_permutation.
  assert (Hothers : List.filter (fun c => negb (String.eqb c g)) labels
                    = List.filter (fun c => negb (String.eqb c g)) (columns gdf)).
  { subst labels. apply others_when_last, others_without. }
  assert (Hagain : forall fr : GeoDataFrame V,
            columns fr = labels -> _geometry_column_name fr = g ->
            _push_geom_col fr = inr fr).
  { intros fr Hc Hg. unfold _push_geom_col, reindex. rewrite Hg, Hc, Hothers.
    fold labels. now rewrite bool_decide_eq_true_2. }
  destruct (bool_decide (columns gdf = labels)) eqn:Esame.
  - assert (Hrun : _push_geom_col gdf = inr gdf).
    { unfold _push_geom_col, reindex. fold g. fold labels. now rewrite Esame. }
    apply bool_decide_eq_true in Esame. exists gdf.
    split; [exact Hrun|]. split; [rewrite Esame; apply last_snoc|].
    split; [reflexivity|]. split; [reflexivity|]. split; [reflexivity|].
    split; [|exact Hrun].
    intros i row row' c Hr Hr' _. congruence.
  - set (pushed := {| columns := labels;
                      _geometry_column_name := g;
                      rows := List.map (filter (fun kv : string * V => fst kv ∈ labels))
                                (rows gdf) |}).
    assert (Hrun : _push_geom_col gdf = inr pushed).
    { unfold _push_geom_col, reindex. fold g. fold labels. rewrite Esame.
      now rewrite bool_decide_eq_true_2 by (now apply NoDup_ListNoDup). }
    exists pushed. split; [exact Hrun|]. cbn [columns rows _geometry_column_name pushed].
    split; [apply last_snoc|]. split; [exact Hperm|]. split; [exact Hothers|].
    split; [apply length_map|]. split; [|now apply Hagain].
    intros i row row' c Hr Hr' Hc.
    rewrite list_lookup_fmap, Hr in Hr'. injection Hr' as <-.
    destruct (row !! c) as [v|] eqn:E.
    + apply map_lookup_filter_Some. split; [exact E|]. cbn [fst].
      apply list_elem_of_In. apply (Permutation_in _ (Permutation_sym Hperm)). exact Hc.
    + apply map_lookup_filter_None. left. exact E.
Qed.

End Facts.

Lemma geometry_column_is_pushed_last_witness :
  exists pushed,
    _push_geom_col
      {| columns := ["origin"; "geometry"; "destination"; "minutes"];
         _geometry_column_name := "geometry";
         rows := [ {[ "origin" := 1%Z; "geometry" := 7%Z; "minutes" := 3%Z ]} ] |}
    = inr pushed
    /\ columns pushed = ["origin"; "destination"; "minutes"; "geometry"].
Proof.
  destruct (geometry_column_is_pushed_last
              {| columns := ["origin"; "geometry"; "destination"; "minutes"];
                 _geometry_column_name := "geometry";
                 rows := [ {[ "origin" := 1%Z; "geometry" := 7%Z; "minutes" := 3%Z ]} ] |})
    as (pushed & Hrun & _).
  - cbn [columns]. repeat constructor; simpl; intuition discriminate.
  - simpl. auto.
  - exists pushed. split; [exact Hrun|].
    unfold _push_geom_col, reindex in Hrun. cbn in Hrun.
    rewrite bool_decide_eq_false_2 in Hrun by discriminate.
    destruct (bool_decide _) in Hrun; [|discriminate].
    injection Hrun as <-. reflexivity.
Defined.

End GeneralFacts.

(** ** The static methods of [NetworkAnalysis] *)

Module StaticMethodsFacts.
Import StaticMethods ListFacts FloatFacts SortFacts.

(** X11.  [_sort_breaks] on an iterable of numbers: the breaks come back in
    ascending order, and they are the breaks that were given. *)
Theorem breaks_come_back_ascending (float_of_text : string -> option Float)
    (breaks : list Float) :
  Forall (fun x => isna x = false) breaks ->
  exists sorted,
    _sort_breaks float_of_text (BreakSeq breaks) = inr sorted
    /\ Permutation sorted breaks
    /\ StronglySorted (fun a b => fle a b = true) sorted.
Proof.
  intros Hnum. eexists. split; [reflexivity|]. split.
  - apply sort_by_Permutation.
  - apply (sort_by_fle_sorted (fun x => x)). exact Hnum.
Qed.

Lemma breaks_come_back_ascending_witness :
  exists sorted,
    _sort_breaks (fun _ => None) (BreakSeq [Fin 15; Fin 5; Fin 10]) = inr sorted
    /\ Permutation sorted [Fin 15; Fin 5; Fin 10]
    /\ StronglySorted (fun a b => fle a b = true) sorted.
Proof.
  apply breaks_come_back_ascending. repeat constructor.
Defined.

Section WeightDf.
Context {V : Type} `{EqDecision V}.

Lemma isin_In (labels : list V) (v : V) : isin labels v = true <-> In v labels.
Proof.
  unfold isin. rewrite existsb_exists. split.
  - intros (l & Hl & E). apply bool_decide_eq_true in E. now subst.
  - intros Hin. exists v. split; [exact Hin|]. now apply bool_decide_eq_true.
Qed.

Lemma existsb_nonempty {X : Type} (p : X -> bool) (l : list X) :
  existsb p l = true -> l <> [].
Proof. destruct l; [discriminate|discriminate]. Qed.

(** The checks a table has passed when [_prepare_weight_df] hands it
    back. *)
Lemma prepare_weight_df_checks (weight_df : WeightDfArg V) (origins destinations : list V)
    (df : DataFrame V) :
  _prepare_weight_df weight_df origins destinations = inr df ->
  exists tuples,
    index df = Multi tuples
    /\ (List.length (columns df) =? 1)%nat = true
    /\ bool_decide (NoDup tuples) = true
    /\ bool_decide (NoDup origins) = true
    /\ bool_decide (NoDup destinations) = true
    /\ existsb (isin origins) (List.map (fun t => fst (fst t)) tuples) = true
    /\ forallb (isin origins) (List.map (fun t => fst (fst t)) tuples) = true
    /\ forallb (isin destinations) (List.map (fun t => snd (fst t)) tuples) = true.
Proof.
  unfold _prepare_weight_df. destruct weight_df as [|w]; [discriminate|].
  set (w' := if (List.length (columns w) =? 3)%nat then set_index_first_two w else w).
  destruct (List.length (columns w') =? 1)%nat eqn:Hone; cbn [negb andb].
  2: destruct (is_multi (index w')) eqn:Emulti; [discriminate|].
  all: destruct (is_unique (index w')) eqn:Eunique; cbn [negb]; [|discriminate].
  all: destruct (bool_decide (NoDup origins)) eqn:Eo; cbn [negb]; [|discriminate].
  all: destruct (bool_decide (NoDup destinations)) eqn:Ed; cbn [negb]; [|discriminate].
  all: destruct (existsb (isin origins) (level_0 (index w'))) eqn:Eany0; cbn [negb];
    [|discriminate].
  all: destruct (index w') as [l|l|tuples] eqn:Eindex; cbn [level_1]; try discriminate.
  cbn [level_0 is_unique] in *.
  destruct (existsb (isin destinations) _) eqn:Eany1; cbn [negb]; [|discriminate].
  destruct (forallb (isin origins) _) eqn:Eall0; cbn [negb]; [|discriminate].
  destruct (forallb (isin destinations) _) eqn:Eall1; cbn [negb]; [|discriminate].
  intros [= <-]. exists tuples. repeat split; assumption.
Qed.

(** X12.  A table that [_prepare_weight_df] hands back has an index of (at
    least) two levels and one column; it has at least one row, no
    combination of index values twice, and all its origin and destination
    labels are index labels of the origins and of the destinations, whose
    indices have no label twice. *)
Theorem accepted_weight_table (weight_df : WeightDfArg V) (origins destinations : list V)
    (df : DataFrame V) :
  _prepare_weight_df weight_df origins destinations = inr df ->
  exists tuples column,
    index df = Multi tuples /\ columns df = [column]
    /\ tuples <> [] /\ List.NoDup tuples
    /\ List.NoDup origins /\ List.NoDup destinations
    /\ Forall (fun t => In (fst (fst t)) origins /\ In (snd (fst t)) destinations) tuples.
Proof.
  intros Hrun. destruct (prepare_weight_df_checks _ _ _ _ Hrun)
    as (tuples & Hindex & Hone & Hunique & Ho & Hd & Hany & Hall0 & Hall1).
  destruct (columns df) as [|column [|c cols]] eqn:Ecols; try discriminate.
  exists tuples, column. split; [exact Hindex|]. split; [reflexivity|].
  apply bool_decide_eq_true in Ho, Hd, Hunique.
  split; [|split; [now apply NoDup_ListNoDup|split; [now apply NoDup_ListNoDup|
           split; [now apply NoDup_ListNoDup|]]]].
  - apply existsb_nonempty in Hany. intros ->. now apply Hany.
  - apply List.Forall_forall. intros t Ht.
    rewrite forallb_forall in Hall0, Hall1. split.
    + apply isin_In, Hall0. now apply (in_map (fun t => fst (fst t))).
    + apply isin_In, Hall1. now apply (in_map (fun t => snd (fst t))).
Qed.

Lemma existsb_of_forallb {X : Type} (p : X -> bool) (l : list X) :
  l <> [] -> forallb p l = true -> existsb p l = true.
Proof.
  destruct l as [|x l]; [congruence|]. cbn. intros _ Hall.
  apply andb_true_iff in Hall. destruct Hall as [-> _]. reflexivity.
Qed.

(** X13.  The documented form is accepted: a table of three columns (origin
    labels, destination labels, weights) with at least one row and no pair
    twice, whose labels are index labels of the origins and destinations,
    comes back with the pairs as its index and the weights as its only
    column, whatever index it had before. *)
Theorem three_columns_are_accepted (old : Index V) (name_o name_d name_w : string)
    (os ds ws : list V) (origins destinations : list V) :
  combine os ds <> [] ->
  List.NoDup (combine os ds) ->
  List.NoDup origins -> List.NoDup destinations ->
  Forall (fun p => In (fst p) origins /\ In (snd p) destinations) (combine os ds) ->
  _prepare_weight_df
    (ADataFrame {| index := old; columns := [(name_o, os); (name_d, ds); (name_w, ws)] |})
    origins destinations
  = inr {| index := Multi (List.map (fun p => (fst p, snd p, [])) (combine os ds));
           columns := [(name_w, ws)] |}.
Proof.
  intros Hrows Hpairs Ho Hd Hknown.
  unfold _prepare_weight_df. cbn [columns List.length Nat.eqb set_index_first_two index
    negb andb is_unique level_0 level_1].
  rewrite !map_map. cbn [fst snd].
  assert (Hunique : NoDup (List.map (fun p : V * V => (fst p, snd p, @nil V)) (combine os ds))).
  { apply NoDup_ListNoDup. apply Finite.Injective_map_NoDup; [|exact Hpairs].
    intros [a b] [a' b'] [= -> ->]. reflexivity. }
  rewrite (bool_decide_eq_true_2 _ Hunique).
  rewrite (bool_decide_eq_true_2 _ (proj2 (NoDup_ListNoDup _) Ho)).
  rewrite (bool_decide_eq_true_2 _ (proj2 (NoDup_ListNoDup _) Hd)).
  cbn [negb].
  assert (Hall0 : forallb (isin origins) (List.map (fun x : V * V => fst x) (combine os ds)) = true).
  { apply forallb_forall. intros x Hx. apply in_map_iff in Hx. destruct Hx as (p & <- & Hp).
    apply isin_In. exact (proj1 (proj1 (List.Forall_forall _ _) Hknown p Hp)). }
  assert (Hall1 : forallb (isin destinations) (List.map (fun x : V * V => snd x) (combine os ds)) = true).
  { apply forallb_forall. intros x Hx. apply in_map_iff in Hx. destruct Hx as (p & <- & Hp).
    apply isin_In. exact (proj2 (proj1 (List.Forall_forall _ _) Hknown p Hp)). }
  assert (Hne0 : List.map (fun x : V * V => fst x) (combine os ds) <> []) by (now destruct (combine os ds)).
  assert (Hne1 : List.map (fun x : V * V => snd x) (combine os ds) <> []) by (now destruct (combine os ds)).
  rewrite (existsb_of_forallb _ _ Hne0 Hall0), (existsb_of_forallb _ _ Hne1 Hall1).
  rewrite Hall0, Hall1. reflexivity.
Qed.

Lemma idx_mapper_Some (items : list (nat * V)) (label : V) (t : nat) :
  idx_mapper items label = Some t -> In (t, label) items.
Proof.
  unfold idx_mapper. destruct (List.find _ (rev items)) as [[k v]|] eqn:E; [|discriminate].
  cbn. intros [= ->]. apply find_some in E. destruct E as [Hin Hv].
  apply bool_decide_eq_true in Hv. cbn in Hv. subst v. now apply in_rev.
Qed.

Lemma idx_mapper_known (items : list (nat * V)) (label : V) :
  In label (List.map snd items) -> exists t, idx_mapper items label = Some t.
Proof.
  intros Hin. apply in_map_iff in Hin. destruct Hin as ([k v] & E & Hin). cbn in E. subst v.
  unfold idx_mapper. destruct (List.find _ (rev items)) as [[k' v']|] eqn:Efind.
  - cbn. eauto.
  - exfalso. apply in_rev in Hin.
    pose proof (find_none _ _ Efind (k, label) Hin) as Hno. cbn in Hno.
    now rewrite bool_decide_eq_true_2 in Hno.
Qed.

(** X14.  The translation of an accepted table to temporary ids: every pair of
    labels in its index gets an origin id and a destination id, namely ids
    that [idx_dict] holds for these labels, and two pairs with the same ids
    have the same labels. *)
Theorem accepted_pairs_get_temporary_ids (weight_df : WeightDfArg V)
    (ori_items des_items : list (nat * V)) (df : DataFrame V)
    (tuples : list (V * V * list V)) :
  List.NoDup (List.map fst ori_items) ->
  List.NoDup (List.map fst des_items) ->
  _prepare_weight_df weight_df (List.map snd ori_items) (List.map snd des_items) = inr df ->
  index df = Multi tuples ->
  Forall (fun t => exists o d,
            multiindex_mapper ori_items des_items t = (Some o, Some d)
            /\ In (o, fst (fst t)) ori_items /\ In (d, snd (fst t)) des_items)
    tuples
  /\ forall t t', In t tuples -> In t' tuples ->
       multiindex_mapper ori_items des_items t = multiindex_mapper ori_items des_items t' ->
       fst t = fst t'.
Proof.
  intros Hko Hkd Hrun Hindex.
  destruct (prepare_weight_df_checks _ _ _ _ Hrun)
    as (tuples' & Hindex' & _ & _ & _ & _ & _ & Hall0 & Hall1).
  assert (tuples' = tuples) by congruence. subst tuples'.
  rewrite forallb_forall in Hall0, Hall1.
  assert (Hids : forall t, In t tuples -> exists o d,
            multiindex_mapper ori_items des_items t = (Some o, Some d)
            /\ In (o, fst (fst t)) ori_items /\ In (d, snd (fst t)) des_items).
  { intros t Ht.
    assert (Ho : In (fst (fst t)) (List.map snd ori_items))
      by (apply isin_In, Hall0; now apply (in_map (fun t => fst (fst t)))).
    assert (Hd : In (snd (fst t)) (List.map snd des_items))
      by (apply isin_In, Hall1; now apply (in_map (fun t => snd (fst t)))).
    destruct (idx_mapper_known _ _ Ho) as (o & Eo).
    destruct (idx_mapper_known _ _ Hd) as (d & Ed).
    exists o, d. unfold multiindex_mapper. rewrite Eo, Ed.
    split; [reflexivity|]. split; now apply idx_mapper_Some. }
  split; [now apply List.Forall_forall|].
  intros t t' Ht Ht' E.
  destruct (Hids t Ht) as (o & d & Et & Ho & Hd).
  destruct (Hids t' Ht') as (o' & d' & Et' & Ho' & Hd').
  rewrite Et, Et' in E. injection E as <- <-.
  pose proof (distinct_keys_injective fst ori_items _ _ Hko Ho Ho' eq_refl) as E1.
  pose proof (distinct_keys_injective fst des_items _ _ Hkd Hd Hd' eq_refl) as E2.
  injection E1 as E1. injection E2 as E2.
  destruct t as [[a b] r], t' as [[a' b'] r']. cbn in *. congruence.
Qed.

End WeightDf.

Import MoreSamples.

Lemma accepted_weight_table_witness :
  exists df tuples column,
    _prepare_weight_df od_weights ["a"; "b"] ["x"; "y"] = inr df
    /\ index df = Multi tuples /\ columns df = [column] /\ tuples <> [].
Proof.
  destruct (_prepare_weight_df od_weights ["a"; "b"] ["x"; "y"]) as [e|df] eqn:E.
  - vm_compute in E. discriminate.
  - destruct (accepted_weight_table _ _ _ _ E) as (tuples & column & Hi & Hc & Hne & _).
    exists df, tuples, column. repeat split; assumption.
Defined.

Ltac distinct := repeat constructor; simpl; intuition discriminate.

Lemma three_columns_are_accepted_witness :
  _prepare_weight_df od_weights ["a"; "b"] ["x"; "y"]
  = inr {| index := Multi [("a", "x", []); ("a", "y", [])];
           columns := [("weight", ["10"; "20"])] |}.
Proof.
  apply (three_columns_are_accepted (Flat ["0"; "1"]) "origin" "destination" "weight"
           ["a"; "a"] ["x"; "y"] ["10"; "20"] ["a"; "b"] ["x"; "y"]).
  - discriminate.
  - distinct.
  - distinct.
  - distinct.
  - cbn [combine]. repeat (apply List.Forall_cons; [cbn; auto 6|]). apply List.Forall_nil.
Defined.

Lemma accepted_pairs_get_temporary_ids_witness :
  Forall (fun t => exists o d,
            multiindex_mapper [(3%nat, "a"); (4%nat, "b")] [(5%nat, "x"); (6%nat, "y")] t
              = (Some o, Some d)
            /\ In (o, fst (fst t)) [(3%nat, "a"); (4%nat, "b")]
            /\ In (d, snd (fst t)) [(5%nat, "x"); (6%nat, "y")])
    [("a", "x", []); ("a", "y", [])].
Proof.
  refine (proj1 (accepted_pairs_get_temporary_ids od_weights
                   [(3%nat, "a"); (4%nat, "b")] [(5%nat, "x"); (6%nat, "y")]
                   {| index := Multi [("a", "x", []); ("a", "y", [])];
                      columns := [("weight", ["10"; "20"])] |}
                   [("a", "x", []); ("a", "y", [])] _ _ _ eq_refl)).
  - repeat constructor; simpl; intuition lia.
  - repeat constructor; simpl; intuition lia.
  - vm_compute. reflexivity.
Defined.

End StaticMethodsFacts.

(** ** sgis/networkanalysis/networkanalysis.py, further facts *)

Module NetworkAnalysisMore.
Import NetworkAnalysis ListFacts FloatFacts SortFacts NetworkAnalysisFacts.

(** *** The graph and its vertices *)

Lemma nodup_by_eqb_NoDup (l : list nat) : List.NoDup (nodup_by Nat.eqb l).
Proof. apply (nodup_by_NoDup _ Nat.eqb_eq). Qed.

(** X15.  A graph that [_make_graph] returns has at least one edge and a weight
    for every edge, and its vertices are the end points of its edges, each
    of them once. *)
Theorem graph_is_made_of_its_edges (edges : list (nat * nat)) (weights : list Float)
    (edge_ids : list string) (directed : bool) (g : Graph) :
  _make_graph edges weights edge_ids directed = inr g ->
  es_edge_tuples g = edges /\ edges <> []
  /\ List.length (es_weight g) = List.length (es_edge_tuples g)
  /\ List.NoDup (vs_name g)
  /\ forall v, In v (vs_name g) <-> exists e, In e edges /\ (v = fst e \/ v = snd e).
Proof.
  unfold _make_graph.
  destruct (Nat.eqb_spec (List.length edges) (List.length weights)) as [Hlen|];
    [|discriminate]. cbn [negb es_weight].
  destruct (py_min weights) as [m|] eqn:Emin; [|discriminate].
  destruct (fge m zero); [|discriminate].
  intros [= <-]. cbn [es_edge_tuples es_weight vs_name].
  split; [reflexivity|]. split; [|split; [auto|split; [apply nodup_by_eqb_NoDup|]]].
  - intros ->. destruct weights; [discriminate Emin|discriminate Hlen].
  - intros v. split.
    + intros Hv. apply nodup_by_In in Hv. apply in_flat_map in Hv.
      destruct Hv as (e & He & [<-|[<-|[]]]); eauto.
    + intros (e & He & Hv). apply (nodup_by_complete _ Nat.eqb_eq).
      apply in_flat_map. exists e. split; [exact He|].
      destruct Hv as [->| ->]; simpl; auto.
Qed.

Lemma graph_is_made_of_its_edges_witness :
  exists g,
    _make_graph [(0, 1); (1, 2)]%nat [Fin 2; zero] ["a"; "b"] false = inr g
    /\ List.NoDup (vs_name g)
    /\ forall v, In v (vs_name g) <->
         exists e, In e [(0, 1); (1, 2)]%nat /\ (v = fst e \/ v = snd e).
Proof.
  destruct (_make_graph [(0, 1); (1, 2)]%nat [Fin 2; zero] ["a"; "b"] false)
    as [e|g] eqn:E.
  - vm_compute in E. discriminate.
  - destruct (graph_is_made_of_its_edges _ _ _ _ _ E) as (_ & _ & _ & Hnd & Hv).
    exists g. split; [reflexivity|]. split; [exact Hnd|exact Hv].
Defined.

Lemma missing_vertices_spec (g : Graph) (p : Points) (v : nat) :
  In v (missing_vertices g p)
  <-> In v (List.map temp_idx (points_gdf p)) /\ ~ In v (vs_name g).
Proof.
  unfold missing_vertices. rewrite filter_In, negb_true_iff.
  split; intros [Hv Hnot]; (split; [exact Hv|]).
  - intros Hin. apply not_true_iff_false in Hnot. apply Hnot.
    apply existsb_exists. exists v. split; [exact Hin|apply Nat.eqb_refl].
  - apply not_true_iff_false. intros Hex. apply existsb_exists in Hex.
    destruct Hex as (x & Hx & E). apply Nat.eqb_eq in E. subst x. contradiction.
Qed.

Lemma add_vertices_names (g : Graph) (p : Points) (v : nat) :
  In v (vs_name (add_vertices (missing_vertices g p) g))
  <-> In v (vs_name g) \/ In v (List.map temp_idx (points_gdf p)).
Proof.
  cbn [vs_name add_vertices]. rewrite in_app_iff, missing_vertices_spec.
  destruct (in_dec Nat.eq_dec v (vs_name g)); tauto.
Qed.

Lemma add_vertices_NoDup (g : Graph) (p : Points) :
  List.NoDup (vs_name g) -> List.NoDup (List.map temp_idx (points_gdf p)) ->
  List.NoDup (vs_name (add_vertices (missing_vertices g p) g)).
Proof.
  intros Hg Hp. cbn [vs_name add_vertices].
  apply NoDup_ListNoDup, NoDup_app. repeat split.
  - now apply NoDup_ListNoDup.
  - intros v Hv Hm. apply list_elem_of_In in Hv, Hm.
    apply missing_vertices_spec in Hm. tauto.
  - apply NoDup_ListNoDup. unfold missing_vertices. now apply List.NoDup_filter.
Qed.

(** The first step of a returning run, taken apart when it only reads. *)
Ltac run_first H :=
  let a := fresh "a" in
  let n := fresh "na" in
  let Hs := fresh "Hstep" in
  apply bind_inv in H; destruct H as (a & n & Hs & H);
  first [ run_step Hs | idtac ].

Section Runs.
Context `{Collaborators}.

(** What a returning [_add_missing_vertices] has done. *)
Lemma add_missing_vertices_run (na na' : NA) (u : unit) :
  _add_missing_vertices na = (inr u, na') ->
  exists g o,
    graph na = Some g /\ origins na = Some o
    /\ na' = set_graph
               (Some (match destinations na with
                      | Some d =>
                          add_vertices
                            (missing_vertices (add_vertices (missing_vertices g o) g) d)
                            (add_vertices (missing_vertices g o) g)
                      | None => add_vertices (missing_vertices g o) g
                      end)) na.
Proof.
  intros Hrun. unfold _add_missing_vertices in Hrun.
  do 3 run_first Hrun. run_step Hrun. eauto.
Qed.

(** X16.  [_add_missing_vertices] adds the temporary ids of the origins and of
    the destinations that the graph does not have, each of them once, and
    nothing else: the vertex names stay distinct and the edges are left as
    they are. *)
Theorem missing_vertices_are_added_once (na na' : NA) (u : unit) (g : Graph) :
  _add_missing_vertices na = (inr u, na') ->
  graph na = Some g ->
  List.NoDup (vs_name g) ->
  (forall o, origins na = Some o -> List.NoDup (List.map temp_idx (points_gdf o))) ->
  (forall d, destinations na = Some d -> List.NoDup (List.map temp_idx (points_gdf d))) ->
  exists g',
    graph na' = Some g'
    /\ List.NoDup (vs_name g')
    /\ es_edge_tuples g' = es_edge_tuples g /\ es_weight g' = es_weight g
    /\ forall v,
         In v (vs_name g')
         <-> In v (vs_name g)
             \/ (exists o, origins na = Some o /\ In v (List.map temp_idx (points_gdf o)))
             \/ (exists d, destinations na = Some d
                           /\ In v (List.map temp_idx (points_gdf d))).
Proof.
  intros Hrun Hg Hnd Ho Hd.
  destruct (add_missing_vertices_run _ _ _ Hrun) as (g0 & o & Hg0 & Hor & ->).
  assert (g0 = g) by congruence. subst g0.
  eexists. split; [reflexivity|].
  destruct (destinations na) as [d|] eqn:Ed.
  - split; [|split; [reflexivity|split; [reflexivity|]]].
    + apply add_vertices_NoDup; [apply add_vertices_NoDup|]; auto.
    + intros v. rewrite !add_vertices_names. split.
      * intros [[Hv|Hv]|Hv]; [now left|right; left; eauto|right; right; eauto].
      * intros [Hv|[(o' & Eo & Hv)|(d' & Ed' & Hv)]]; [now left; left| |].
        -- left; right. congruence.
        -- right. congruence.
  - split; [|split; [reflexivity|split; [reflexivity|]]].
    + apply add_vertices_NoDup; auto.
    + intros v. rewrite add_vertices_names. split.
      * intros [Hv|Hv]; [now left|right; left; eauto].
      * intros [Hv|[(o' & Eo & Hv)|(d' & Ed' & Hv)]]; [now left| |discriminate].
        right. congruence.
Qed.

(** The end of a returning [_prepare_network_analysis]: the graph has been
    made anew and completed with the missing vertices, then the wkts and
    the rules have been brought up to date. *)
Lemma prepare_ends (origins_in : list (Label * Coord))
    (destinations_in : option (list (Label * Coord))) (rowwise : bool)
    (na na' : NA) (u : unit) :
  _prepare_network_analysis origins_in destinations_in rowwise na = (inr u, na') ->
  exists n3 n4,
    _add_missing_vertices n3 = (inr tt, n4)
    /\ na' = set_rules (_update_rules (rules (snd (_update_wkts n4)))) (snd (_update_wkts n4)).
Proof.
  intros Hrun. unfold _prepare_network_analysis in Hrun.
  do 8 run_first Hrun.
  rewrite graph_never_up_to_date in Hrun. cbn [negb orb when] in Hrun.
  do 2 run_first Hrun. run_step Hrun.
  do 4 run_first Hstep3.
  match goal with
  | Ha : _add_missing_vertices ?n3 = (inr ?x, ?n4), Hw : _update_wkts ?n4 = (inr _, ?n5) |- _ =>
      destruct x; exists n3, n4; split; [exact Ha|]; now rewrite Hw
  end.
Qed.

Lemma update_wkts_state (na : NA) :
  graph (snd (_update_wkts na)) = graph na
  /\ origins (snd (_update_wkts na)) = origins na
  /\ destinations (snd (_update_wkts na)) = destinations na
  /\ exists w,
       wkts (snd (_update_wkts na)) = Some w
       /\ (forall o, origins na = Some o ->
             w !! "origins" = Some (List.map (fun p => point_wkt (point p)) (points_gdf o)))
       /\ (forall o d, origins na = Some o -> destinations na = Some d ->
             w !! "destinations"
             = Some (List.map (fun p => point_wkt (point p)) (points_gdf d))).
Proof.
  unfold _update_wkts, modify. cbn [snd graph origins destinations wkts set_wkts].
  repeat split. eexists. split; [reflexivity|]. split.
  - intros o ->. destruct (destinations na).
    + rewrite lookup_insert_ne by discriminate. apply lookup_insert_eq.
    + apply lookup_insert_eq.
  - intros o d -> ->. apply lookup_insert_eq.
Qed.

Lemma names_cover (g : Graph) (p : Points) :
  (forall v, In v (List.map temp_idx (points_gdf p)) -> In v (vs_name g)) ->
  forallb (fun x => existsb (Nat.eqb x) (vs_name g)) (List.map temp_idx (points_gdf p))
  = true.
Proof.
  intros Hall. apply forallb_forall. intros x Hx. apply existsb_exists.
  exists x. split; [now apply Hall|apply Nat.eqb_refl].
Qed.

(** The state a returning [_prepare_network_analysis] leaves: a graph
    that has the temporary ids of the origins and destinations among its
    vertices, and the texts of the points under their keys. *)
Lemma prepare_state (origins_in : list (Label * Coord))
    (destinations_in : option (list (Label * Coord))) (rowwise : bool)
    (na na' : NA) (u : unit) :
  _prepare_network_analysis origins_in destinations_in rowwise na = (inr u, na') ->
  exists g w o,
    graph na' = Some g /\ wkts na' = Some w /\ origins na' = Some o
    /\ (forall v, In v (List.map temp_idx (points_gdf o)) -> In v (vs_name g))
    /\ w !! "origins" = Some (List.map (fun p => point_wkt (point p)) (points_gdf o))
    /\ forall d, destinations na' = Some d ->
         (forall v, In v (List.map temp_idx (points_gdf d)) -> In v (vs_name g))
         /\ w !! "destinations"
            = Some (List.map (fun p => point_wkt (point p)) (points_gdf d)).
Proof.
  intros Hrun. destruct (prepare_ends _ _ _ _ _ _ Hrun) as (n3 & n4 & Hadd & ->).
  destruct (add_missing_vertices_run _ _ _ Hadd) as (g & o & Hg & Ho & ->).
  set (g' := match destinations n3 with
             | Some d =>
                 add_vertices (missing_vertices (add_vertices (missing_vertices g o) g) d)
                   (add_vertices (missing_vertices g o) g)
             | None => add_vertices (missing_vertices g o) g
             end).
  destruct (update_wkts_state (set_graph (Some g') n3))
    as (Eg & Eo & Ed & w & Hw & Hwo & Hwd).
  cbn [graph origins destinations set_graph] in Eg, Eo, Ed, Hwo, Hwd.
  exists g', w, o. cbn [graph origins destinations wkts set_rules].
  rewrite Eg, Eo, Ed, Hw. split; [reflexivity|]. split; [reflexivity|].
  split; [exact Ho|]. split; [|split; [now apply Hwo|]].
  - intros v Hv. subst g'. destruct (destinations n3); rewrite !add_vertices_names; tauto.
  - intros d Hd. split; [|now apply (Hwd o)].
    intros v Hv. subst g'. rewrite Hd. rewrite add_vertices_names. now right.
Qed.

(** X17.  After a returning [_prepare_network_analysis] the analysis has a graph
    and every origin and every destination is a vertex of it, whether the
    network reaches the point or not. *)
Theorem prepared_points_are_vertices (origins_in : list (Label * Coord))
    (destinations_in : option (list (Label * Coord))) (rowwise : bool)
    (na na' : NA) (u : unit) :
  _prepare_network_analysis origins_in destinations_in rowwise na = (inr u, na') ->
  exists g o,
    graph na' = Some g /\ origins na' = Some o
    /\ Forall (fun p => In (temp_idx p) (vs_name g)) (points_gdf o)
    /\ forall d, destinations na' = Some d ->
         Forall (fun p => In (temp_idx p) (vs_name g)) (points_gdf d).
Proof.
  intros Hrun.
  destruct (prepare_state _ _ _ _ _ _ Hrun) as (g & w & o & Hg & _ & Ho & Hov & _ & Hd).
  exists g, o. split; [exact Hg|]. split; [exact Ho|]. split.
  - apply List.Forall_forall. intros p Hp. apply Hov. now apply in_map.
  - intros d Ed. apply List.Forall_forall. intros p Hp.
    apply (proj1 (Hd d Ed)). now apply in_map.
Qed.

(** X18.  Right after a returning [_prepare_network_analysis] the stored texts
    and the graph fit the points: neither the origins nor the destinations
    count as changed.  All the same [_graph_is_up_to_date] answers [False],
    so that the next call makes the graph anew. *)
Theorem prepared_points_count_as_unchanged (origins_in : list (Label * Coord))
    (destinations_in : option (list (Label * Coord))) (rowwise : bool)
    (na na' : NA) (u : unit) :
  _prepare_network_analysis origins_in destinations_in rowwise na = (inr u, na') ->
  exists g w o,
    graph na' = Some g /\ wkts na' = Some w /\ origins na' = Some o
    /\ _points_have_changed w g o "origins" = false
    /\ (forall d, destinations na' = Some d ->
          _points_have_changed w g d "destinations" = false)
    /\ _graph_is_up_to_date na' = false.
Proof.
  intros Hrun.
  destruct (prepare_state _ _ _ _ _ _ Hrun) as (g & w & o & Hg & Hw & Ho & Hov & Hwo & Hd).
  exists g, w, o. split; [exact Hg|]. split; [exact Hw|]. split; [exact Ho|].
  split; [|split; [|apply graph_never_up_to_date]].
  - unfold _points_have_changed. rewrite Hwo.
    rewrite bool_decide_eq_true_2 by reflexivity. cbn [negb].
    now rewrite names_cover.
  - intros d Ed. destruct (Hd d Ed) as [Hdv Hwd].
    unfold _points_have_changed. rewrite Hwd.
    rewrite bool_decide_eq_true_2 by reflexivity. cbn [negb].
    now rewrite names_cover.
Qed.

(** *** What the calls hand back *)




Lemma prepare_refuses_mismatch (o d : list (Label * Coord)) (na : NA) :
  List.length o <> List.length d ->
  _prepare_network_analysis o (Some d) true na = (inl ValueError, na).
Proof.
  intros Hlen. unfold _prepare_network_analysis, bind.
  destruct (Nat.eqb_spec (List.length o) (List.length d)) as [E|_]; [contradiction|].
  reflexivity.
Qed.

(** X20.  Wrong arguments are refused before the analysis object is touched:
    with [rowwise] and point tables of different lengths the calls raise
    [ValueError] and leave the object as it was, and so does [get_k_routes]
    for a [drop_middle_percent] outside 0..100. *)
Theorem wrong_arguments_leave_the_object_untouched (na : NA) (o d : list (Label * Coord)) :
  (List.length o <> List.length d ->
   (forall lines, od_cost_matrix o d true lines na = (inl ValueError, na))
   /\ get_route o d true na = (inl ValueError, na)
   /\ (forall k_routes drop_middle_percent,
          get_k_routes o d k_routes drop_middle_percent true na = (inl ValueError, na))
   /\ get_route_frequencies o d None true na = (inl ValueError, na))
  /\ (forall k_routes drop_middle_percent rowwise,
        (drop_middle_percent < 0 \/ 100 < drop_middle_percent)%Z ->
        get_k_routes o d k_routes drop_middle_percent rowwise na = (inl ValueError, na)).
Proof.
  split.
  - intros Hlen. pose proof (prepare_refuses_mismatch o d na Hlen) as Hprep.
    split; [|split; [|split]].
    + intros lines. unfold od_cost_matrix, bind. now rewrite Hprep.
    + unfold get_route, bind. now rewrite Hprep.
    + intros k_routes p. unfold get_k_routes. destruct (negb _); [reflexivity|].
      unfold bind. now rewrite Hprep.
    + unfold get_route_frequencies, bind. cbn [ret]. now rewrite Hprep.
  - intros k_routes p rowwise Hp. unfold get_k_routes.
    replace ((0 <=? p)%Z && (p <=? 100)%Z) with false; [reflexivity|].
    symmetry. apply andb_false_iff. rewrite !Z.leb_gt. lia.
Qed.

(** X21.  [_unsplit_network] needs the lines a split has saved and releases them:
    without saved lines it raises [AttributeError] and changes nothing, so
    right after a cleanup a second one raises. *)
Theorem cleanup_does_not_run_twice (na : NA) :
  (_not_splitted (network na) = None -> _unsplit_network na = (inl AttributeError, na))
  /\ forall u na',
       _unsplit_network na = (inr u, na') ->
       _unsplit_network na' = (inl AttributeError, na').
Proof.
  assert (Hnone : forall x, _not_splitted (network x) = None ->
            _unsplit_network x = (inl AttributeError, x)).
  { intros x Hx. unfold _unsplit_network, bind, get. now rewrite Hx. }
  split; [apply Hnone|].
  intros u na' Hrun. apply Hnone.
  unfold _unsplit_network in Hrun. do 2 run_first Hrun. run_step Hrun. reflexivity.
Qed.


(** X23.  The table of [get_route_frequencies] holds the lines the routine has
    counted, no more and no less, and in ascending order of their
    frequency when every frequency is a number. *)
Theorem route_frequencies_come_sorted (o d : list (Label * Coord))
    (weight_df : option WeightDf) (rowwise : bool) (na na' : NA)
    (results : list FrequencyRow) :
  get_route_frequencies o d weight_df rowwise na = (inr results, na') ->
  exists na1 g po pd w counted,
    graph na1 = Some g /\ origins na1 = Some po /\ destinations na1 = Some pd
    /\ _get_route_frequencies g (points_gdf po) (points_gdf pd) (gdf (network na1)) w rowwise
       = inr counted
    /\ Permutation results counted
    /\ (Forall (fun r => isna (frequency r) = false) counted ->
        StronglySorted (fun a b => fle (frequency a) (frequency b) = true) results).
Proof.
  intros Hrun. unfold get_route_frequencies in Hrun.
  do 7 run_first Hrun. do 2 run_first Hrun. run_step Hrun.
  match goal with
  | Hg : graph ?n1 = Some ?g, Ho : origins ?n1 = Some ?po, Hd : destinations ?n1 = Some ?pd,
    Hc : _get_route_frequencies _ _ _ _ ?w _ = inr ?counted |- _ =>
      exists n1, g, po, pd, w, counted; repeat split; try assumption
  end.
  - apply sort_by_Permutation.
  - intros Hnum. unfold sort_by_frequency. now apply sort_by_fle_sorted.
Qed.

(** *** The log *)

Lemma keeps_log_split_lines (na na' : NA) (u : unit) :
  _split_lines na = (inr u, na') -> log na' = log na /\ _log na' = _log na.
Proof. intros Hrun. unfold _split_lines in Hrun. run_all. split; reflexivity. Qed.

Lemma keeps_log_unsplit (na na' : NA) (u : unit) :
  _unsplit_network na = (inr u, na') -> log na' = log na /\ _log na' = _log na.
Proof. intros Hrun. unfold _unsplit_network in Hrun. run_all. split; reflexivity. Qed.

Lemma keeps_log_edges (na na' : NA) (r : list (nat * nat) * list Float * list string) :
  _get_edges_and_weights na = (inr r, na') -> log na' = log na /\ _log na' = _log na.
Proof.
  intros Hrun. unfold _get_edges_and_weights, renumber, max_node_id, max_temp_idx in Hrun.
  run_all;
    repeat match goal with
           | Hs : _split_lines _ = (inr _, _) |- _ =>
               apply keeps_log_split_lines in Hs; destruct Hs
           end;
    cbn [log _log set_network set_origins set_destinations] in *; split; congruence.
Qed.

Lemma keeps_log_prepare (origins_in : list (Label * Coord))
    (destinations_in : option (list (Label * Coord))) (rowwise : bool)
    (na na' : NA) (u : unit) :
  _prepare_network_analysis origins_in destinations_in rowwise na = (inr u, na') ->
  log na' = log na /\ _log na' = _log na.
Proof.
  intros Hrun.
  unfold _prepare_network_analysis, _add_missing_vertices, _update_wkts, max_node_id,
    max_temp_idx in Hrun.
  run_all;
    repeat match goal with
           | Hs : _get_edges_and_weights _ = (inr _, _) |- _ =>
               apply keeps_log_edges in Hs; destruct Hs
           end;
    cbn [log _log set_network set_origins set_destinations set_graph set_wkts set_rules]
      in *; split; congruence.
Qed.

Lemma closing_logs {A : Type} (na1 na' : NA) (method : string) (r r' : A) :
  (when (split_lines (rules na1)) _unsplit_network ;;;
   when (_log na1) (_runlog method) ;;; ret r) na1 = (inr r', na') ->
  log na' = log na1 ++ (if _log na1 then [method] else []).
Proof.
  intros Hrun. apply bind_inv in Hrun. destruct Hrun as (u & n2 & Hclean & Hrun).
  assert (Hkeep : log n2 = log na1).
  { destruct (split_lines (rules na1)); cbn [when] in Hclean.
    - now apply keeps_log_unsplit in Hclean.
    - now run_step Hclean. }
  apply bind_inv in Hrun. destruct Hrun as (u' & n3 & Hlog & Hrun).
  run_step Hrun. rewrite <- Hkeep.
  destruct (_log na1); cbn [when] in Hlog.
  - unfold _runlog in Hlog. run_step Hlog. reflexivity.
  - run_step Hlog. now rewrite app_nil_r.
Qed.

Ltac logged :=
  match goal with
  | Hp : _prepare_network_analysis _ _ _ ?n = (inr _, ?n1),
    Hc : bind (when (split_lines (rules ?n1)) _unsplit_network) _ ?n1 = (inr _, _) |- _ =>
      destruct (keeps_log_prepare _ _ _ _ _ _ Hp) as [Hl1 Hl2];
      rewrite (closing_logs _ _ _ _ _ Hc), Hl1, Hl2; reflexivity
  end.

(** X24.  A call that returns has written exactly one record to the log when
    logging is on, under the name of its method, and none otherwise;
    [precice_service_area] writes under the name 'service_area'. *)
Theorem a_returning_call_logs_once (na : NA) :
  (forall o d rowwise lines results na',
      od_cost_matrix o d rowwise lines na = (inr results, na') ->
      log na' = log na ++ (if _log na then ["od_cost_matrix"] else []))
  /\ (forall o d rowwise results na',
         get_route o d rowwise na = (inr results, na') ->
         log na' = log na ++ (if _log na then ["get_route"] else []))
  /\ (forall o d k_routes drop_middle_percent rowwise results na',
         get_k_routes o d k_routes drop_middle_percent rowwise na = (inr results, na') ->
         log na' = log na ++ (if _log na then ["get_k_routes"] else []))
  /\ (forall o d weight_df rowwise results na',
         get_route_frequencies o d weight_df rowwise na = (inr results, na') ->
         log na' = log na ++ (if _log na then ["get_route_frequencies"] else []))
  /\ (forall o breaks dissolve_ results na',
         service_area o breaks dissolve_ na = (inr results, na') ->
         log na' = log na ++ (if _log na then ["service_area"] else []))
  /\ (forall o breaks dissolve_ results na',
         precice_service_area o breaks dissolve_ na = (inr results, na') ->
         log na' = log na ++ (if _log na then ["service_area"] else [])).
Proof.
  repeat split.
  - intros o d rowwise lines results na' Hrun. unfold od_cost_matrix, finish_od in Hrun.
    do 9 run_first Hrun. logged.
  - intros o d rowwise results na' Hrun. unfold get_route, finish_od in Hrun.
    do 9 run_first Hrun. logged.
  - intros o d k_routes p rowwise results na' Hrun. unfold get_k_routes, finish_od in Hrun.
    destruct (negb _); [run_step Hrun|].
    do 9 run_first Hrun. logged.
  - intros o d weight_df rowwise results na' Hrun. unfold get_route_frequencies in Hrun.
    run_first Hrun.
    assert (na0 = na) by (destruct weight_df; run_all; reflexivity). subst na0.
    do 6 run_first Hrun. logged.
  - intros o breaks dissolve_ results na' Hrun.
    unfold service_area, service_area_with in Hrun.
    do 5 run_first Hrun. logged.
  - intros o breaks dissolve_ results na' Hrun.
    unfold precice_service_area, service_area_with in Hrun.
    do 5 run_first Hrun. logged.
Qed.

(** *** The weights over a split and its cleanup *)

(** The round trip on the rows themselves: the lines that are left after
    the pieces have been dropped, together with the saved lines, are the
    lines that went into the split. *)
Lemma unsplit_after_split_rows (rows out : list NetRow) (cut : NetRow -> bool)
    (pieces : list NetRow) :
  List.NoDup (List.map temp_idx__ rows) ->
  Permutation out (List.filter (fun r => negb (cut r)) rows ++ pieces) ->
  (forall p, In p pieces ->
     is_splitted p = true
     /\ exists r, In r rows /\ cut r = true /\ temp_idx__ p = temp_idx__ r) ->
  (forall r, In r rows -> cut r = true ->
     exists p, In p pieces /\ temp_idx__ p = temp_idx__ r) ->
  Permutation (List.filter (fun r => negb (is_splitted r)) out)
    (List.filter (fun r => negb (cut r || is_splitted r)) rows)
  /\ List.filter
       (fun r => existsb (opt_nat_eqb (temp_idx__ r))
                   (List.map temp_idx__ (List.filter is_splitted out)))
       rows
     = List.filter (fun r => cut r || is_splitted r) rows.
Proof.
  intros Hnd Hout Hpieces Hcut. split.
  - etransitivity; [apply Permutation_filter_bool, Hout|].
    rewrite List.filter_app, (filter_none _ pieces), app_nil_r.
    + rewrite filter_twice. erewrite filter_ext; [reflexivity|].
      intros r. cbv beta. now destruct (cut r), (is_splitted r).
    + intros x Hx. destruct (Hpieces x Hx) as [-> _]. reflexivity.
  - apply filter_ext_in. intros r Hr.
    apply eq_true_iff_eq. rewrite existsb_exists, orb_true_iff. split.
    + intros (i & Hi & E). apply opt_nat_eqb_eq in E. subst i.
      apply in_map_iff in Hi. destruct Hi as (x & Ex & Hx).
      apply filter_In in Hx. destruct Hx as [Hx Hflag].
      apply (Permutation_in _ Hout) in Hx. apply in_app_or in Hx.
      destruct Hx as [Hx|Hx].
      * apply filter_In in Hx. destruct Hx as [Hx _].
        right. now rewrite <- (distinct_keys_injective temp_idx__ rows x r Hnd Hx Hr Ex).
      * destruct (Hpieces x Hx) as (_ & r0 & Hr0 & Hc & E0).
        left. rewrite <- (distinct_keys_injective temp_idx__ rows r0 r Hnd Hr0 Hr);
          [exact Hc|congruence].
    + intros Hor.
      assert (Hpiece : cut r = true ->
                exists i, In i (List.map temp_idx__ (List.filter is_splitted out))
                          /\ opt_nat_eqb (temp_idx__ r) i = true).
      { intros Hc. destruct (Hcut r Hr Hc) as (p0 & Hp0 & E0).
        exists (temp_idx__ p0). split; [|apply opt_nat_eqb_eq; congruence].
        apply in_map. apply filter_In. split; [|apply (Hpieces p0 Hp0)].
        apply (Permutation_in _ (Permutation_sym Hout)). apply in_or_app. now right. }
      destruct (cut r) eqn:Ec; [now apply Hpiece|].
      destruct Hor as [Hc|Hflag]; [discriminate|].
      exists (temp_idx__ r). split; [|now apply opt_nat_eqb_eq].
      apply in_map. apply filter_In. split; [|exact Hflag].
      apply (Permutation_in _ (Permutation_sym Hout)). apply in_or_app. left.
      apply filter_In. split; [exact Hr|]. now rewrite Ec.
Qed.

Lemma number_rows_In (start : nat) (rows : list NetRow) (r : NetRow) :
  In r (number_rows start rows) ->
  exists r0 i, In r0 rows /\ r = with_temp_idx (Some i) r0.
Proof.
  revert start. induction rows as [|x rows IH]; intros start Hr; [destruct Hr|].
  destruct Hr as [<-|Hr].
  - exists x, start. split; [now left|reflexivity].
  - destruct (IH _ Hr) as (r0 & i & Hr0 & ->). exists r0, i. split; [now right|reflexivity].
Qed.

Lemma number_rows_lines (start : nat) (rows : list NetRow) :
  List.map (fun r => (geometry r, weight r)) (number_rows start rows)
  = List.map (fun r => (geometry r, weight r)) rows.
Proof.
  revert start. induction rows as [|r t IH]; intros start; simpl; [|rewrite IH]; reflexivity.
Qed.

(** X25.  Splitting the lines and running the cleanup gives every line back
    with the weight it had, provided the lines that were not cut keep their
    weight when it is scaled by their own length over their own length. *)
Theorem split_then_unsplit_restores_the_weights (na : NA) (o : Points) :
  splits_cleanly split_lines_by_nearest_point ->
  origins na = Some o ->
  (forall r, In r (gdf (network na)) ->
     rescale_weight (weight r) (line_length (geometry r)) (line_length (geometry r))
     = weight r) ->
  exists na',
    (_split_lines ;;; _unsplit_network) na = (inr tt, na')
    /\ Permutation (List.map (fun r => (geometry r, weight r)) (gdf (network na')))
                   (List.map (fun r => (geometry r, weight r)) (gdf (network na))).
Proof.
  intros Hclean Ho Hscale.
  unfold bind at 1, _split_lines, bind, get, attr. rewrite Ho. unfold ret, put.
  unfold _unsplit_network, bind, get, attr, ret, put.
  cbn [network gdf _not_splitted set_network set_gdf set_not_splitted].
  eexists. split; [reflexivity|]. cbn [network gdf set_network set_gdf].
  set (points := drop_duplicate_points _).
  set (rows := number_rows 0 (List.map _ (gdf (network na)))).
  set (out := split_lines_by_nearest_point rows points (search_tolerance (rules na))).
  destruct (Hclean rows points (search_tolerance (rules na)))
    as (cut & pieces & Hout & Hpieces & Hcut).
  fold out in Hout.
  destruct (unsplit_after_split_rows rows out cut pieces (number_rows_distinct _ _)
              Hout Hpieces Hcut) as [Hkept Hsaved].
  rewrite Hsaved, filter_map_swap. cbn [is_splitted with_weight splitted].
  fold (is_splitted).
  rewrite (map_map (with_temp_idx None)), map_app, !map_map.
  cbn [geometry weight with_temp_idx with_weight].
  assert (Hrows : forall r, In r rows ->
            rescale_weight (weight r) (line_length (geometry r)) (meters_ r) = weight r).
  { intros r Hr. subst rows. apply number_rows_In in Hr.
    destruct Hr as (r1 & i & Hr1 & ->). apply in_map_iff in Hr1.
    destruct Hr1 as (r0 & <- & Hr0). cbn. now apply Hscale. }
  etransitivity.
  { apply Permutation_app_tail. apply Permutation_map. exact Hkept. }
  erewrite (map_ext_in _ (fun r => (geometry r, weight r))
              (List.filter (fun r => negb (cut r || is_splitted r)) rows)).
  2: { intros r Hr. apply filter_In in Hr. destruct Hr as [Hr _]. now rewrite Hrows. }
  rewrite <- map_app.
  replace (List.map (fun r => (geometry r, weight r)) (gdf (network na)))
    with (List.map (fun r => (geometry r, weight r)) rows).
  - apply Permutation_map. etransitivity; [apply Permutation_app_comm|].
    apply (filter_split_perm (fun r => cut r || is_splitted r)).
  - subst rows. rewrite number_rows_lines, map_map. reflexivity.
Qed.

End Runs.

Import NetworkSamples MoreSamples.

Lemma missing_vertices_are_added_once_witness :
  exists na' g',
    _add_missing_vertices with_graph = (inr tt, na')
    /\ graph na' = Some g'
    /\ List.NoDup (vs_name g')
    /\ es_edge_tuples g' = [(0, 1); (1, 2); (3, 0)]%nat.
Proof.
  destruct (_add_missing_vertices with_graph) as [[e|[]] na'] eqn:E.
  - vm_compute in E. discriminate.
  - destruct (missing_vertices_are_added_once with_graph na' tt street_graph E eq_refl)
      as (g' & Hg & Hnd & He & _).
    + repeat constructor; simpl; intuition lia.
    + intros o [= <-]. apply distinct_temp_idx.
    + intros d [= <-]. apply distinct_temp_idx.
    + exists na', g'. repeat split; assumption.
Defined.

Lemma prepared_points_are_vertices_witness :
  exists na' g o,
    _prepare_network_analysis at_the_bend (Some elsewhere) false fresh = (inr tt, na')
    /\ graph na' = Some g /\ origins na' = Some o
    /\ Forall (fun p => In (temp_idx p) (vs_name g)) (points_gdf o).
Proof.
  destruct (_prepare_network_analysis at_the_bend (Some elsewhere) false fresh)
    as [[e|[]] na'] eqn:E.
  - vm_compute in E. discriminate.
  - destruct (@prepared_points_are_vertices toy _ _ _ _ _ _ E) as (g & o & Hg & Ho & Hv & _).
    exists na', g, o. repeat split; assumption.
Defined.

Lemma prepared_points_count_as_unchanged_witness :
  exists na' g w o,
    _prepare_network_analysis at_the_bend (Some elsewhere) false fresh = (inr tt, na')
    /\ graph na' = Some g /\ wkts na' = Some w /\ origins na' = Some o
    /\ _points_have_changed w g o "origins" = false
    /\ _graph_is_up_to_date na' = false.
Proof.
  destruct (_prepare_network_analysis at_the_bend (Some elsewhere) false fresh)
    as [[e|[]] na'] eqn:E.
  - vm_compute in E. discriminate.
  - destruct (@prepared_points_count_as_unchanged toy _ _ _ _ _ _ E)
      as (g & w & o & Hg & Hw & Ho & Hsame & _ & Hstale).
    exists na', g, w, o. repeat split; assumption.
Defined.


Lemma wrong_arguments_leave_the_object_untouched_witness :
  od_cost_matrix at_the_bend (elsewhere ++ far_away) true false fresh
  = (inl ValueError, fresh).
Proof.
  refine (proj1 (proj1 (@wrong_arguments_leave_the_object_untouched toy fresh at_the_bend
                          (elsewhere ++ far_away)) _) false).
  simpl. lia.
Defined.

Lemma cleanup_does_not_run_twice_witness :
  _unsplit_network fresh = (inl AttributeError, fresh).
Proof. exact (proj1 (cleanup_does_not_run_twice fresh) eq_refl). Defined.


Lemma route_frequencies_come_sorted_witness :
  exists results na' counted,
    get_route_frequencies at_the_bend elsewhere None false fresh = (inr results, na')
    /\ Permutation results counted.
Proof.
  destruct (get_route_frequencies at_the_bend elsewhere None false fresh)
    as [[e|results] na'] eqn:E.
  - vm_compute in E. discriminate.
  - destruct (@route_frequencies_come_sorted toy _ _ _ _ _ _ _ E)
      as (na1 & g & po & pd & w & counted & _ & _ & _ & _ & Hperm & _).
    exists results, na', counted. split; [reflexivity|exact Hperm].
Defined.

Lemma a_returning_call_logs_once_witness :
  exists results na',
    od_cost_matrix at_the_bend elsewhere false false fresh = (inr results, na')
    /\ log na' = ["od_cost_matrix"].
Proof.
  destruct (od_cost_matrix at_the_bend elsewhere false false fresh)
    as [[e|results] na'] eqn:E.
  - vm_compute in E. discriminate.
  - exists results, na'. split; [reflexivity|].
    exact (proj1 (@a_returning_call_logs_once toy fresh) _ _ _ _ _ _ E).
Defined.

Lemma split_then_unsplit_restores_the_weights_witness :
  exists na',
    (_split_lines ;;; _unsplit_network) fresh_with_origin = (inr tt, na')
    /\ Permutation (List.map (fun r => (geometry r, weight r)) (gdf (network na')))
                   [ ([(0, 0); (1, 0); (2, 0)]%Q, Fin 2); ([(2, 0); (3, 0)]%Q, Fin 1) ].
Proof.
  apply (@split_then_unsplit_restores_the_weights toy fresh_with_origin
           (_make_temp_idx 3 at_the_bend) toy_split_is_clean eq_refl).
  intros r _. reflexivity.
Defined.

End NetworkAnalysisMore.
